(** * kixport: a KiCad export pipeline

    A shallow embedding of [kixport.py] and of the parts of the Python
    standard library it leans on ([pathlib], [csv], f-string formatting),
    followed by the properties of the pipeline.

    Conventions of the model.
    - A Python [str] is a [string]; its characters are the code points
      0..255.
    - Python objects that occur in the program are values of [value]:
      what [yaml.safe_load] yields (restricted to null, booleans,
      integers, strings, sequences and string-keyed mappings) and
      [pathlib] paths.
    - An exception is a value of [exn]; code that may raise returns a
      [result].
    - [pathlib.Path] is [PurePosixPath] arithmetic as in CPython 3.8-3.12:
      a root and the list of the remaining components. *)

From Stdlib Require Import String Ascii ZArith List Bool Lia.
From stdpp Require Import base tactics option list strings pretty.

Set Warnings "-register-all".

Local Open Scope Z_scope.
Local Open Scope list_scope.

(** ** Strings *)

Module Str.

Definition eqb_ascii (a b : ascii) : bool := Ascii.eqb a b.

(** [c in s] *)
Fixpoint mem (c : ascii) (s : string) : bool :=
  match s with
  | EmptyString => false
  | String d r => eqb_ascii c d || mem c r
  end.

(** [s.split(sep)] for a one-character separator. *)
Fixpoint split (sep : ascii) (s : string) : list string :=
  match s with
  | EmptyString => [EmptyString]
  | String c r =>
      if eqb_ascii c sep then EmptyString :: split sep r
      else match split sep r with
           | x :: xs => String c x :: xs
           | [] => [String c EmptyString]
           end
  end.

(** [sep.join(l)] *)
Fixpoint join (sep : string) (l : list string) : string :=
  match l with
  | [] => EmptyString
  | [x] => x
  | x :: xs => x +:+ sep +:+ join sep xs
  end.

(** [s.lstrip(c)] *)
Fixpoint lstrip (c : ascii) (s : string) : string :=
  match s with
  | String d r => if eqb_ascii c d then lstrip c r else s
  | EmptyString => EmptyString
  end.

(** [s.rfind('.')], [None] standing for -1. *)
Fixpoint rfind_dot (s : string) : option nat :=
  match s with
  | EmptyString => None
  | String c r =>
      match rfind_dot r with
      | Some i => Some (S i)
      | None => if eqb_ascii c "." then Some 0%nat else None
      end
  end.

(** [s[:n]] and [s[n:]] for [0 <= n]. *)
Fixpoint take (n : nat) (s : string) : string :=
  match n, s with
  | S m, String c r => String c (take m r)
  | _, _ => EmptyString
  end.

Fixpoint drop (n : nat) (s : string) : string :=
  match n, s with
  | S m, String _ r => drop m r
  | _, _ => s
  end.

Definition hex_digit (n : N) : ascii :=
  match n with
  | 0 => "0" | 1 => "1" | 2 => "2" | 3 => "3" | 4 => "4" | 5 => "5"
  | 6 => "6" | 7 => "7" | 8 => "8" | 9 => "9" | 10 => "a" | 11 => "b"
  | 12 => "c" | 13 => "d" | 14 => "e" | _ => "f"
  end%N%char.

End Str.

(** ** pathlib *)

(** A [PurePosixPath] after parsing: [root] is [""], ["/"] or ["//"], and
    [parts] are the components after the root (CPython keeps the root as
    the first element of [_parts]; it is kept apart here). *)
Record Path := mkPath { root : string; parts : list string }.

#[global] Instance Path_eq_dec : EqDecision Path.
Proof. solve_decision. Defined.

Module pathlib.

(** [_PosixFlavour.splitroot]: the root and the rest of one string. *)
Definition splitroot (part : string) : string * string :=
  match part with
  | String c _ =>
      if Str.eqb_ascii c "/" then
        let stripped_part := Str.lstrip "/" part in
        if (String.length part - String.length stripped_part =? 2)%nat
        then ("//", stripped_part)
        else ("/", stripped_part)
      else ("", part)
  | EmptyString => ("", part)
  end.

(** [parse_parts] on one string: empty components and ["."] are dropped. *)
Definition keep_part (x : string) : bool :=
  negb (String.eqb x "") && negb (String.eqb x ".").

Definition parse (s : string) : Path :=
  let '(rt, rel) := splitroot s in
  {| root := rt; parts := List.filter keep_part (Str.split "/" rel) |}.

(** [str(p)] *)
Definition str (p : Path) : string :=
  match root p, parts p with
  | EmptyString, [] => "."
  | rt, ps => rt +:+ Str.join "/" ps
  end.

(** [p.name] *)
Definition name (p : Path) : string := List.last (parts p) "".

(** [p.suffix] *)
Definition suffix (p : Path) : string :=
  let name := name p in
  match Str.rfind_dot name with
  | Some i =>
      if (0 <? i)%nat && (i <? String.length name - 1)%nat
      then Str.drop i name else ""
  | None => ""
  end.

(** [p.stem] *)
Definition stem (p : Path) : string :=
  let name := name p in
  match Str.rfind_dot name with
  | Some i =>
      if (0 <? i)%nat && (i <? String.length name - 1)%nat
      then Str.take i name else name
  | None => name
  end.

(** [p.parent] *)
Definition parent (p : Path) : Path :=
  {| root := root p; parts := removelast (parts p) |}.

(** [p / s] for a string [s]: an absolute [s] replaces [p]. *)
Definition joinpath (p : Path) (s : string) : Path :=
  let q := parse s in
  match root q with
  | EmptyString => {| root := root p; parts := parts p ++ parts q |}
  | _ => q
  end.

(** [p._make_child_relpath(name)], used by [iterdir]. *)
Definition make_child_relpath (p : Path) (name : string) : Path :=
  {| root := root p; parts := parts p ++ [name] |}.

End pathlib.

Notation "p // s" := (pathlib.joinpath p s) (at level 40, left associativity).

(** ** Python values and exceptions *)

Inductive value :=
| VNone
| VBool (b : bool)
| VInt (z : Z)
| VStr (s : string)
| VList (l : list value)
| VDict (d : list (string * value))
| VPath (p : Path).

Inductive exn :=
| KeyError (key : string)
| TypeError
| ValueError
| AttributeError
| CalledProcessError (returncode : Z) (cmd : list value)
| IndexError
| CsvError
| OSError (errno : Z).

Inductive result (A : Type) :=
| Ok (a : A)
| Raise (e : exn).
Arguments Ok {A} a.
Arguments Raise {A} e.

#[global] Instance result_ret : MRet result := fun A a => Ok a.
#[global] Instance result_bind : MBind result := fun A B f m =>
  match m with
  | Ok a => f a
  | Raise e => Raise e
  end.

Definition is_ok {A} (r : result A) : bool :=
  match r with Ok _ => true | Raise _ => false end.

(** ** Operations on Python values *)

Module Py.

(** [d[key]] for a string key. *)
Fixpoint assoc (key : string) (d : list (string * value)) : option value :=
  match d with
  | [] => None
  | (k, v) :: d' => if String.eqb k key then Some v else assoc key d'
  end.

Definition getitem (o : value) (key : string) : result value :=
  match o with
  | VDict d =>
      match assoc key d with
      | Some v => Ok v
      | None => Raise (KeyError key)
      end
  | _ => Raise TypeError
  end.

(** [o.get(key, default)] *)
Definition get (o : value) (key : string) (default : value) : result value :=
  match o with
  | VDict d =>
      match assoc key d with
      | Some v => Ok v
      | None => Ok default
      end
  | _ => Raise AttributeError
  end.

(** Truth value of an object, as [if o:] and [o or ...] test it. *)
Definition truthy (o : value) : bool :=
  match o with
  | VNone => false
  | VBool b => b
  | VInt z => negb (z =? 0)
  | VStr s => negb (String.eqb s "")
  | VList l => match l with [] => false | _ => true end
  | VDict d => match d with [] => false | _ => true end
  | VPath _ => true
  end.

(** [o != None] *)
Definition is_not_None (o : value) : bool :=
  match o with VNone => false | _ => true end.

(** [iter(o)]: the objects a [for] loop visits. *)
Definition iterate (o : value) : result (list value) :=
  match o with
  | VList l => Ok l
  | VDict d => Ok (map (fun kv => VStr (fst kv)) d)
  | VStr s => Ok (map (fun c => VStr (String c EmptyString)) (list_ascii_of_string s))
  | _ => Raise TypeError
  end.

(** [str.isprintable] on one code point below 256. *)
Definition printable (c : ascii) : bool :=
  let n := N_of_ascii c in
  ((32 <=? n) && (n <? 127) || (161 <=? n) && negb (n =? 173))%N.

Definition backslash : ascii := "092"%char.
Definition dquote : ascii := "034"%char.

Definition repr_char (quote c : ascii) : string :=
  if Str.eqb_ascii c quote || Str.eqb_ascii c backslash
  then String backslash (String c EmptyString)
  else if Str.eqb_ascii c "009" then String backslash "t"
  else if Str.eqb_ascii c "010" then String backslash "n"
  else if Str.eqb_ascii c "013" then String backslash "r"
  else if printable c then String c EmptyString
  else
    let n := N_of_ascii c in
    String backslash (String "x" (String (Str.hex_digit (n / 16))
                                 (String (Str.hex_digit (n mod 16)) EmptyString))).

Fixpoint repr_chars (quote : ascii) (s : string) : string :=
  match s with
  | EmptyString => EmptyString
  | String c r => repr_char quote c +:+ repr_chars quote r
  end.

(** [repr(s)] of a string: single quotes unless the string holds a
    single quote and no double quote. *)
Definition repr_str (s : string) : string :=
  let quote : ascii :=
    if Str.mem "'" s && negb (Str.mem dquote s) then dquote else "'"%char in
  String quote (repr_chars quote s +:+ String quote EmptyString).

(** [repr(o)] *)
Fixpoint repr (o : value) : string :=
  match o with
  | VNone => "None"
  | VBool true => "True"
  | VBool false => "False"
  | VInt z => pretty z
  | VStr s => repr_str s
  | VList l => "[" +:+ Str.join ", " (map repr l) +:+ "]"
  | VDict d =>
      "{" +:+ Str.join ", " (map (fun kv => repr_str (fst kv) +:+ ": " +:+ repr (snd kv)) d) +:+ "}"
  | VPath p => "PosixPath(" +:+ repr_str (pathlib.str p) +:+ ")"
  end.

(** [str(o)], which is what an f-string field [{o}] formats. *)
Definition str (o : value) : string :=
  match o with
  | VStr s => s
  | VPath p => pathlib.str p
  | _ => repr o
  end.

End Py.

(** ** The board descriptor *)

(** The dataclass [Board].  The annotations of the source are not
    enforced by Python: [name] and [variants] hold whatever the
    configuration holds. *)
Record Board := mkBoard {
  name : value;
  kicad_pro : Path;
  kicad_sch : Path;
  kicad_pcb : Path;
  assembly_dir : Path;
  build_dir : Path;
  variants : value
}.

(** [pathlib.Path(o)] *)
Definition Path_of (o : value) : result Path :=
  match o with
  | VStr s => Ok (pathlib.parse s)
  | VPath p => Ok p
  | _ => Raise TypeError
  end.

(** [p.with_suffix(suffix)] for a suffix that is valid (starts with a dot,
    holds no separator and is not a lone dot), as both suffixes of the
    source are. *)
Definition with_suffix (p : Path) (suffix : string) : result Path :=
  let name := pathlib.name p in
  if String.eqb name "" then Raise ValueError
  else
    let old_suffix := pathlib.suffix p in
    let name :=
      if String.eqb old_suffix "" then name +:+ suffix
      else Str.take (String.length name - String.length old_suffix) name +:+ suffix in
    Ok {| root := root p; parts := removelast (parts p) ++ [name] |}.

(** [Board.from_yaml(board, settings)].  The keyword arguments are
    evaluated in the order they are written. *)
Definition from_yaml (board settings : value) : result Board :=
  kicad_pro_v ← Py.getitem board "kicad_pro";
  kicad_pro ← Path_of kicad_pro_v;
  name ← Py.getitem board "name";
  kicad_sch ← with_suffix kicad_pro ".kicad_sch";
  kicad_pcb ← with_suffix kicad_pro ".kicad_pcb";
  assembly_root ← Py.getitem settings "assembly_dir";
  name_a ← Py.getitem board "name";
  build_root ← Py.getitem settings "build_dir";
  name_b ← Py.getitem board "name";
  variants ← Py.get board "variants" VNone;
  Ok {| name := name;
        kicad_pro := kicad_pro;
        kicad_sch := kicad_sch;
        kicad_pcb := kicad_pcb;
        assembly_dir := pathlib.parse (Py.str assembly_root +:+ "/" +:+ Py.str name_a);
        build_dir := pathlib.parse (Py.str build_root +:+ "/" +:+ Py.str name_b);
        variants := variants |}.

(** ** The csv module

    [csv.reader] and [csv.writer] of CPython 3.11-3.12 ([_csv.c]) for the
    default dialect, the only one the program uses: delimiter [,],
    quotechar the double quote, doublequote on, no escapechar, no
    skipinitialspace, line terminator CR LF, QUOTE_MINIMAL, not strict.
    The parser states that only an escapechar reaches are left out.
    [field_limit] is the default of [csv.field_size_limit()]: the reader
    raises on a field that would grow beyond it. *)

Module csv.

Definition CR : ascii := "013"%char.
Definition LF : ascii := "010"%char.
Definition delimiter : ascii := ","%char.
Definition quotechar : ascii := "034"%char.
Definition lineterminator : string := String CR (String LF EmptyString).
Definition field_limit : Z := 131072.

Inductive ParserState :=
| START_RECORD | START_FIELD | IN_FIELD | IN_QUOTED_FIELD
| QUOTE_IN_QUOTED_FIELD | EAT_CRNL.

#[global] Instance ParserState_eq_dec : EqDecision ParserState.
Proof. solve_decision. Defined.

(** The reader object: [fields] is the record under construction and
    [field] the buffer of the field under construction ([field_len] is
    its length). *)
Record ReaderObj := mkReader {
  state : ParserState;
  fields : list string;
  field : string
}.

(** What [parse_process_char] is fed: a character of the line, or the
    end-of-line mark after the last one. *)
Inductive input := Ch (c : ascii) | EOL.

Definition parse_reset : ReaderObj :=
  {| state := START_RECORD; fields := []; field := "" |}.

Definition parse_save_field (self : ReaderObj) : ReaderObj :=
  {| state := state self; fields := fields self ++ [field self]; field := "" |}.

Definition parse_add_char (self : ReaderObj) (c : ascii) : result ReaderObj :=
  if field_limit <=? Z.of_nat (String.length (field self)) then Raise CsvError
  else Ok {| state := state self; fields := fields self;
             field := field self +:+ String c EmptyString |}.

Definition set_state (self : ReaderObj) (st : ParserState) : ReaderObj :=
  {| state := st; fields := fields self; field := field self |}.

Definition is_newline (i : input) : bool :=
  match i with
  | Ch c => Str.eqb_ascii c LF || Str.eqb_ascii c CR
  | EOL => false
  end.

Definition is_char (i : input) (d : ascii) : bool :=
  match i with
  | Ch c => Str.eqb_ascii c d
  | EOL => false
  end.

Definition is_EOL (i : input) : bool :=
  match i with EOL => true | Ch _ => false end.

Definition add_input (self : ReaderObj) (i : input) : result ReaderObj :=
  match i with
  | Ch c => parse_add_char self c
  | EOL => Ok self
  end.

(** The case [START_FIELD], which [START_RECORD] falls through to. *)
Definition start_field (self : ReaderObj) (c : input) : result ReaderObj :=
  if is_newline c || is_EOL c then
    Ok (set_state (parse_save_field self) (if is_EOL c then START_RECORD else EAT_CRNL))
  else if is_char c quotechar then Ok (set_state self IN_QUOTED_FIELD)
  else if is_char c delimiter then Ok (parse_save_field self)
  else
    self' ← add_input self c;
    Ok (set_state self' IN_FIELD).

Definition parse_process_char (self : ReaderObj) (c : input) : result ReaderObj :=
  match state self with
  | START_RECORD =>
      if is_EOL c then Ok self
      else if is_newline c then Ok (set_state self EAT_CRNL)
      else start_field (set_state self START_FIELD) c
  | START_FIELD => start_field self c
  | IN_FIELD =>
      if is_newline c || is_EOL c then
        Ok (set_state (parse_save_field self) (if is_EOL c then START_RECORD else EAT_CRNL))
      else if is_char c delimiter then Ok (set_state (parse_save_field self) START_FIELD)
      else add_input self c
  | IN_QUOTED_FIELD =>
      if is_EOL c then Ok self
      else if is_char c quotechar then Ok (set_state self QUOTE_IN_QUOTED_FIELD)
      else add_input self c
  | QUOTE_IN_QUOTED_FIELD =>
      if is_char c quotechar then
        self' ← add_input self c;
        Ok (set_state self' IN_QUOTED_FIELD)
      else if is_char c delimiter then Ok (set_state (parse_save_field self) START_FIELD)
      else if is_newline c || is_EOL c then
        Ok (set_state (parse_save_field self) (if is_EOL c then START_RECORD else EAT_CRNL))
      else
        self' ← add_input self c;
        Ok (set_state self' IN_FIELD)
  | EAT_CRNL =>
      if is_newline c then Ok self
      else if is_EOL c then Ok (set_state self START_RECORD)
      else Raise CsvError
  end.

(** The inner loop of [Reader_iternext] over the characters of a line. *)
Fixpoint process_line (self : ReaderObj) (line : string) : result ReaderObj :=
  match line with
  | EmptyString => Ok self
  | String c rest =>
      self' ← parse_process_char self (Ch c);
      process_line self' rest
  end.

(** Iterating the reader to exhaustion over the lines its input
    iterator yields: each call of [Reader_iternext] resets the parser
    and consumes lines until the parser is back in [START_RECORD]; at
    the end of the input a record under construction is returned if a
    field or a quoted field is open.  The result is the list of the
    records returned, and the exception that ended the iteration, if
    one did. *)
Fixpoint Reader_rows (self : ReaderObj) (lines : list string)
  : list (list string) * option exn :=
  match lines with
  | [] =>
      if negb (String.eqb (field self) "") || bool_decide (state self = IN_QUOTED_FIELD)
      then ([fields (parse_save_field self)], None)
      else ([], None)
  | line :: rest =>
      match (self' ← process_line self line; parse_process_char self' EOL) with
      | Raise e => ([], Some e)
      | Ok self' =>
          if bool_decide (state self' = START_RECORD)
          then let '(rows, e) := Reader_rows parse_reset rest in (fields self' :: rows, e)
          else Reader_rows self' rest
      end
  end.

(** The same iteration over lines that end in the failure [e] of the
    input iterator instead of the end of the input: [Reader_iternext]
    passes the failure on, and a record under construction is not
    returned. *)
Fixpoint Reader_rows_failing (e : exn) (self : ReaderObj) (lines : list string)
  : list (list string) * option exn :=
  match lines with
  | [] => ([], Some e)
  | line :: rest =>
      match (self' ← process_line self line; parse_process_char self' EOL) with
      | Raise e' => ([], Some e')
      | Ok self' =>
          if bool_decide (state self' = START_RECORD)
          then let '(rows, err) := Reader_rows_failing e parse_reset rest in
               (fields self' :: rows, err)
          else Reader_rows_failing e self' rest
      end
  end.

(** The writer: [join_append] of one field under QUOTE_MINIMAL. *)
Definition needs_quote (c : ascii) : bool :=
  Str.eqb_ascii c delimiter || Str.eqb_ascii c quotechar || Str.mem c lineterminator.

Fixpoint any_needs_quote (s : string) : bool :=
  match s with
  | EmptyString => false
  | String c r => needs_quote c || any_needs_quote r
  end.

Fixpoint double_quotes (s : string) : string :=
  match s with
  | EmptyString => EmptyString
  | String c r =>
      if Str.eqb_ascii c quotechar then String quotechar (String c (double_quotes r))
      else String c (double_quotes r)
  end.

Record WriterObj := mkWriter { rec : string; num_fields : nat }.

Definition join_reset : WriterObj := {| rec := ""; num_fields := 0 |}.

Definition join_append (self : WriterObj) (field : string) (quoted : bool) : WriterObj :=
  let quoted := quoted || any_needs_quote field in
  let sep := if (0 <? num_fields self)%nat then String delimiter EmptyString else "" in
  let body :=
    if quoted then String quotechar (double_quotes field +:+ String quotechar EmptyString)
    else field in
  {| rec := rec self +:+ sep +:+ body; num_fields := S (num_fields self) |}.

(** [csv_writerow]: the line handed to the [write] method of the file. *)
Definition writerow (row : list string) : string :=
  let self := fold_left (fun w f => join_append w f false) row join_reset in
  let self :=
    if (0 <? num_fields self)%nat && String.eqb (rec self) ""
    then join_append {| rec := rec self; num_fields := num_fields self - 1 |} "" true
    else self in
  rec self +:+ lineterminator.

End csv.

(** ** Text files *)

Module io.

(** What reading a text file opened with the default [newline=None]
    delivers: CR LF and a lone CR become LF. *)
Fixpoint universal_newlines (s : string) : string :=
  match s with
  | EmptyString => EmptyString
  | String c r =>
      if Str.eqb_ascii c csv.CR then
        match r with
        | String d r' =>
            if Str.eqb_ascii d csv.LF then String csv.LF (universal_newlines r')
            else String csv.LF (universal_newlines r)
        | EmptyString => String csv.LF EmptyString
        end
      else String c (universal_newlines r)
  end.

(** Iterating a text file: its lines, each with its LF. *)
Fixpoint lines (s : string) : list string :=
  match s with
  | EmptyString => []
  | String c r =>
      if Str.eqb_ascii c csv.LF then String c EmptyString :: lines r
      else match lines r with
           | l :: ls => String c l :: ls
           | [] => [String c EmptyString]
           end
  end.

End io.

(** [csv.reader(f)] iterated to the end, on the contents of the file. *)
Definition csv_reader (contents : string) : list (list string) * option exn :=
  csv.Reader_rows csv.parse_reset (io.lines (io.universal_newlines contents)).

(** [csv.reader(f)] iterated to the end on what the file delivers: the
    text of its lines, and the failure that ended the reading, if one
    did. *)
Definition csv_reader_on (delivered : string * option exn)
    : list (list string) * option exn :=
  match snd delivered with
  | None => csv_reader (fst delivered)
  | Some e =>
      csv.Reader_rows_failing e csv.parse_reset
        (io.lines (io.universal_newlines (fst delivered)))
  end.

(** ** The records of a file, as written and as read

    Notions for stating what the csv writer emits and what the csv reader
    makes of a text. *)

Module Records.

(** The field as the writer emits it. *)
Definition encode_field (f : string) : string :=
  if csv.any_needs_quote f
  then String csv.quotechar (csv.double_quotes f +:+ String csv.quotechar "")
  else f.

(** The fields of a record as the writer joins them, [n] fields having
    been joined before. *)
Fixpoint join_fields (n : nat) (row : list string) : string :=
  match row with
  | [] => ""
  | f :: fs =>
      (if (0 <? n)%nat then String csv.delimiter "" else "")
      +:+ encode_field f +:+ join_fields (S n) fs
  end.

(** The record without its line terminator. *)
Definition record_text (row : list string) : string :=
  match row with
  | [f] => if String.eqb f "" then String csv.quotechar (String csv.quotechar "")
           else encode_field f
  | _ => join_fields 0 row
  end.

(** A field free of CR that fits the field size limit. *)
Definition field_ok (f : string) : Prop :=
  Str.mem csv.CR f = false /\ Z.of_nat (String.length f) <= csv.field_limit.

Definition reader_ok (self : csv.ReaderObj) : Prop :=
  Forall field_ok (csv.fields self) /\ field_ok (csv.field self).

(** Reading the records of a text from a given state of the parser. *)
Definition read (self : csv.ReaderObj) (s : string) : list (list string) * option exn :=
  csv.Reader_rows self (io.lines s).

(** The record [fs] is returned and reading goes on with a fresh parser. *)
Definition yield (fs : list string) (rest : string) : list (list string) * option exn :=
  let '(rows, e) := read csv.parse_reset rest in (fs :: rows, e).

(** What follows a field that ends with the delimiter or with LF. *)
Definition after (d : ascii) (fs : list string) (rest : string)
    : list (list string) * option exn :=
  if Str.eqb_ascii d csv.delimiter
  then read {| csv.state := csv.START_FIELD; csv.fields := fs; csv.field := "" |} rest
  else yield fs rest.

(** The text of a file made of these records. *)
Definition file_text (rows : list (list string)) : string :=
  fold_right (fun row rest => csv.writerow row +:+ rest) "" rows.

(** A state of the reader. *)
Definition st (s : csv.ParserState) (fs : list string) (buf : string) : csv.ReaderObj :=
  {| csv.state := s; csv.fields := fs; csv.field := buf |}.

(** A field within the field size limit. *)
Definition fits (f : string) : Prop := Z.of_nat (String.length f) <= csv.field_limit.

End Records.

(** ** The environment

    Everything outside the interpreter (the file system, the external
    programs, the PDF and zip libraries writing to files) is a [System]:
    one handler per operation the program performs, acting on a state of
    the world [W] and free to fail.  Every operation performed is recorded,
    with its outcome, as an [event]; a run of the program yields its
    result, the final world and the trace of events in order.

    Opening a text file for reading reads nothing.  The csv reader takes
    the lines of the file as it goes; the program does nothing to that
    file in between, so what the file delivers to the reader, the text of
    its lines and the failure that ended it, if one did, is taken in
    one operation at the first request of the reader.  A document read by
    [PdfReader] is its list of pages; what [zip.write] stores for a source
    path is the business of the environment.  [print] always succeeds. *)

Inductive page := Page (content : string).

Inductive event :=
| EvPrint (line : string)
| EvLoadJson (file : value) (r : result value)
| EvLoadYaml (file : value) (r : result value)
| EvMakedirs (dir : Path) (r : result unit)
| EvCall (cmd : list value) (r : result Z)
| EvResolve (p : Path) (r : result Path)
| EvZipOpen (zip : Path) (r : result unit)
| EvListdir (dir : Path) (r : result (list string))
| EvZipWrite (zip src : Path) (arcname : string) (r : result unit)
| EvZipClose (zip : Path) (r : result unit)
| EvPdfRead (file : Path) (r : result (list page))
| EvPdfWrite (file : Path) (pages : list page) (r : result unit)
| EvOpenRead (file : Path) (r : result unit)
| EvRead (file : Path) (text : string) (failure : option exn)
| EvOpenWrite (file : Path) (r : result unit)
| EvWrite (file : Path) (data : string) (r : result unit)
| EvClose (file : Path) (r : result unit).

Record System (W : Type) := mkSystem {
  (** [open(file, 'r')] and [json.load] of it *)
  sys_load_json : value -> W -> result value * W;
  (** [open(file, 'r')] and [yaml.safe_load] of it *)
  sys_load_yaml : value -> W -> result value * W;
  (** [os.makedirs(dir, exist_ok=True)] *)
  sys_makedirs : Path -> W -> result unit * W;
  (** start the command, wait for it: its exit status *)
  sys_call : list value -> W -> result Z * W;
  (** [p.resolve()] *)
  sys_resolve : Path -> W -> result Path * W;
  (** [zipfile.ZipFile(zip, 'w')] *)
  sys_zip_open : Path -> W -> result unit * W;
  (** [os.listdir(dir)] *)
  sys_listdir : Path -> W -> result (list string) * W;
  (** [zip.write(src, arcname=arcname)] *)
  sys_zip_write : Path -> Path -> string -> W -> result unit * W;
  (** [zip.close()] *)
  sys_zip_close : Path -> W -> result unit * W;
  (** [PyPDF2.PdfReader(file)]: the pages of the document *)
  sys_pdf_read : Path -> W -> result (list page) * W;
  (** [writer.write(file)] of a writer holding these pages *)
  sys_pdf_write : Path -> list page -> W -> result unit * W;
  (** [open(file, 'r')] *)
  sys_open_read : Path -> W -> result unit * W;
  (** iterating the open file to its end: the text of the lines it
      delivers and the exception that ended the iteration, if one did *)
  sys_read : Path -> W -> (string * option exn) * W;
  (** [open(file, 'w')] or [open(file, 'wb')] *)
  sys_open_write : Path -> W -> result unit * W;
  (** [file.write(data)] *)
  sys_write : Path -> string -> W -> result unit * W;
  (** [file.close()] *)
  sys_close : Path -> W -> result unit * W
}.

Arguments sys_load_json {W}.
Arguments sys_load_yaml {W}.
Arguments sys_makedirs {W}.
Arguments sys_call {W}.
Arguments sys_resolve {W}.
Arguments sys_zip_open {W}.
Arguments sys_listdir {W}.
Arguments sys_zip_write {W}.
Arguments sys_zip_close {W}.
Arguments sys_pdf_read {W}.
Arguments sys_pdf_write {W}.
Arguments sys_open_read {W}.
Arguments sys_read {W}.
Arguments sys_open_write {W}.
Arguments sys_write {W}.
Arguments sys_close {W}.

(** ** The monad of the program: state of the world, exceptions, trace *)

Definition M (W A : Type) : Type := W -> result A * W * list event.

Definition M_ret {W A} (a : A) : M W A := fun w => (Ok a, w, []).

Definition M_bind {W A B} (f : A -> M W B) (m : M W A) : M W B := fun w =>
  match m w with
  | (Ok a, w1, t1) => let '(r, w2, t2) := f a w1 in (r, w2, t1 ++ t2)
  | (Raise e, w1, t1) => (Raise e, w1, t1)
  end.

#[global] Instance M_mret {W} : MRet (M W) := @M_ret W.
#[global] Instance M_mbind {W} : MBind (M W) := @M_bind W.

Notation "m1 ;; m2" := (mbind (fun _ => m2) m1)
  (at level 100, m2 at level 200, right associativity) : stdpp_scope.

Definition raise {W A} (e : exn) : M W A := fun w => (Raise e, w, []).

(** A pure computation that may raise. *)
Definition lift {W A} (r : result A) : M W A := fun w => (r, w, []).

(** One operation of the environment, recorded with its outcome. *)
Definition perform {W A} (h : W -> result A * W) (ev : result A -> event) : M W A :=
  fun w => let '(r, w') := h w in (r, w', [ev r]).

(** [try: body finally: cleanup]: the cleanup runs on both exits; the
    exception of the body propagates unless the cleanup raises its own. *)
Definition finally {W A} (body : M W A) (cleanup : M W unit) : M W A := fun w =>
  let '(r, w1, t1) := body w in
  match cleanup w1 with
  | (Ok _, w2, t2) => (r, w2, t1 ++ t2)
  | (Raise e, w2, t2) => (Raise e, w2, t1 ++ t2)
  end.

(** [for x in l: body(x)] *)
Fixpoint for_each {W A} (l : list A) (body : A -> M W unit) : M W unit :=
  match l with
  | [] => mret tt
  | x :: l' => body x ;; for_each l' body
  end.

(** A loop that updates a local variable. *)
Fixpoint fold_each {W A S} (l : list A) (body : S -> A -> M W S) (acc : S) : M W S :=
  match l with
  | [] => mret acc
  | x :: l' => acc' ← body acc x; fold_each l' body acc'
  end.

Definition print {W} (line : string) : M W unit :=
  fun w => (Ok tt, w, [EvPrint line]).

(** ** The program *)

(** The header row of the JLCPCB placement file (source line 118). *)
Definition jlcpcb_header : list string :=
  ["Designator"; "Val"; "Package"; "Mid X"; "Mid y"; "Rotation"; "Layer"].

(** The implicit variant of a board that declares none (source line 142). *)
Definition no_variant : value := VDict [("name", VNone); ("variant", VNone)].

Section Program.

Context {W : Type} (sys : System W).

#[local] Abbreviation M := (M W).

(** What [subprocess] accepts as an argument of a command. *)
Definition path_like (o : value) : bool :=
  match o with
  | VStr _ | VPath _ => true
  | _ => false
  end.

(** [subprocess.check_call(cmd)]: an argument that is neither a string
    nor a path is refused before any process is started; a command that
    cannot be started is a failure of [sys_call]. *)
Definition check_call (cmd : list value) : M unit :=
  if forallb path_like cmd then
    retcode ← perform (sys_call sys cmd) (EvCall cmd);
    if retcode =? 0 then mret tt else raise (CalledProcessError retcode cmd)
  else raise TypeError.

Definition read_version (board_pro : Path) : M value :=
  js ← perform (sys_load_json sys (VPath board_pro)) (EvLoadJson (VPath board_pro));
  text_variables ← lift (Py.getitem js "text_variables");
  lift (Py.getitem text_variables "VERSION").

Definition mk_bom_xml (board_sch bom_filename : Path) : M unit :=
  print "--- Exporting XML netlist";;
  check_call [VStr "kicad-cli"; VStr "sch"; VStr "export"; VStr "python-bom";
              VStr "-o"; VPath bom_filename; VPath board_sch].

Definition mk_schematic_pdf (board_sch pdf_filename : Path) : M unit :=
  print "--- Generating schematic PDF";;
  check_call [VStr "kicad-cli"; VStr "sch"; VStr "export"; VStr "pdf";
              VStr "-o"; VPath pdf_filename; VPath board_sch].

Definition mk_gerber (board_pcb gerber_dir : Path) : M unit :=
  print "--- Generating gerber files";;
  perform (sys_makedirs sys gerber_dir) (EvMakedirs gerber_dir);;
  check_call [VStr "kicad-cli"; VStr "pcb"; VStr "export"; VStr "gerbers";
              VStr "-o"; VPath gerber_dir; VStr "--use-drill-file-origin";
              VPath board_pcb];;
  check_call [VStr "kicad-cli"; VStr "pcb"; VStr "export"; VStr "drill";
              VStr "-o"; VStr (pathlib.str gerber_dir +:+ "/"); VPath board_pcb].

(** [gerber_dir.iterdir()] *)
Definition iterdir (dir : Path) : M (list Path) :=
  names ← perform (sys_listdir sys dir) (EvListdir dir);
  mret (map (pathlib.make_child_relpath dir) names).

Definition mk_gerber_zip (gerber_dir gerber_zip : Path) : M unit :=
  print "--- Generating zip file for gerbers";;
  perform (sys_zip_open sys gerber_zip) (EvZipOpen gerber_zip);;
  finally
    (entries ← iterdir gerber_dir;
     for_each entries (fun file_path =>
       perform (sys_zip_write sys gerber_zip file_path (pathlib.name file_path))
               (EvZipWrite gerber_zip file_path (pathlib.name file_path))))
    (perform (sys_zip_close sys gerber_zip) (EvZipClose gerber_zip)).

Definition run_kibom (board_bom_xml : Path) (ini_filename variant : value)
    (bom_filename : Path) : M unit :=
  print "--- Running KiBOM";;
  bom_dir ← perform (sys_resolve sys (pathlib.parent bom_filename))
                    (EvResolve (pathlib.parent bom_filename));
  let cmd := [VStr "kibom"; VStr "--cfg"; ini_filename; VStr "-d"; VPath bom_dir] in
  let cmd := if Py.truthy variant then cmd ++ [VStr "-r"; variant] else cmd in
  let cmd := cmd ++ [VPath board_bom_xml; VStr (pathlib.name bom_filename)] in
  print ("KiBOM: " +:+ Py.str (VList cmd));;
  check_call cmd.

(** The body of the loop of [mk_fab_pdf]; [writer] is the list of the
    pages the [PdfWriter] holds. *)
Definition mk_fab_pdf_body (board : Board) (writer : list page) (fab : value)
    : M (list page) :=
  fab_name ← lift (Py.getitem fab "name");
  let pdf_file :=
    build_dir board // (Py.str (name board) +:+ "-fab-" +:+ Py.str fab_name +:+ ".pdf") in
  layers ← lift (Py.getitem fab "layers");
  let cmd := [VStr "kicad-cli"; VStr "pcb"; VStr "export"; VStr "pdf";
              VStr "--output"; VPath pdf_file; VStr "--layers"; layers;
              VPath (kicad_pcb board)] in
  mirror ← lift (Py.get fab "mirror" (VBool false));
  let cmd := if Py.truthy mirror then cmd ++ [VStr "--mirror"] else cmd in
  include_border_title ← lift (Py.getitem fab "include_border_title");
  let cmd :=
    if Py.truthy include_border_title then cmd ++ [VStr "--include-border-title"]
    else cmd in
  check_call cmd;;
  reader ← perform (sys_pdf_read sys pdf_file) (EvPdfRead pdf_file);
  mret (writer ++ reader).

Definition mk_fab_pdf (board : Board) (settings : value) (fab_filename : Path)
    : M unit :=
  print "--- Generating fabrication PDF";;
  outputs ← lift (Py.getitem settings "outputs");
  fab_specs ← lift (Py.getitem outputs "fab");
  fabs ← lift (Py.iterate fab_specs);
  writer ← fold_each fabs (mk_fab_pdf_body board) [];
  perform (sys_open_write sys fab_filename) (EvOpenWrite fab_filename);;
  finally
    (perform (sys_pdf_write sys fab_filename writer) (EvPdfWrite fab_filename writer))
    (perform (sys_close sys fab_filename) (EvClose fab_filename)).

Definition mk_step (board : Board) (settings : value) (step_path : Path) : M unit :=
  print "--- Generating STEP file";;
  check_call [VStr "kicad-cli"; VStr "pcb"; VStr "export"; VStr "step";
              VStr "--subst-models"; VStr "--output"; VPath step_path;
              VPath (kicad_pcb board)].

Definition mk_pos (board : Board) (settings : value) (pos_path : Path) : M unit :=
  print "--- Generating PnP position file (JLCPCB)";;
  check_call [VStr "kicad-cli"; VStr "pcb"; VStr "export"; VStr "pos";
              VStr "--units"; VStr "mm"; VStr "--output"; VPath pos_path;
              VPath (kicad_pcb board); VStr "--format";
              VStr (Str.drop 1 (pathlib.suffix pos_path))].

(** [output.writerow(row)] on the csv writer of the file [file]. *)
Definition writerow (file : Path) (row : list string) : M unit :=
  perform (sys_write sys file (csv.writerow row)) (EvWrite file (csv.writerow row)).

(** What the csv reader of [file] is delivered by the file. *)
Definition read_lines (file : Path) : M (string * option exn) := fun w =>
  let '(delivered, w') := sys_read sys file w in
  (Ok delivered, w', [EvRead file (fst delivered) (snd delivered)]).

(** The body of the [with] statement of [mk_pos_jlcpcb], given what the
    input file delivers to the reader.  [next(input, None)] takes the
    first record if there is one and raises what the reader raises on it;
    the loop writes the following records until the reader stops or
    raises. *)
Definition mk_pos_jlcpcb_body (delivered : string * option exn) (jlcpcb_path : Path)
    : M unit :=
  let '(rows, err) := csv_reader_on delivered in
  match rows, err with
  | [], Some e => raise e
  | _, _ =>
      writerow jlcpcb_path jlcpcb_header;;
      for_each (tail rows) (writerow jlcpcb_path);;
      match err with
      | Some e => raise e
      | None => mret tt
      end
  end.

Definition mk_pos_jlcpcb (board : Board) (settings : value)
    (pos_path jlcpcb_path : Path) : M unit :=
  perform (sys_open_read sys pos_path) (EvOpenRead pos_path);;
  finally
    (perform (sys_open_write sys jlcpcb_path) (EvOpenWrite jlcpcb_path);;
     finally
       (delivered ← read_lines pos_path;
        mk_pos_jlcpcb_body delivered jlcpcb_path)
       (perform (sys_close sys jlcpcb_path) (EvClose jlcpcb_path)))
    (perform (sys_close sys pos_path) (EvClose pos_path)).

(** The body of the innermost loop of [build_board] (source lines
    143-147). *)
Definition build_board_bom (board : Board) (board_bom_xml : Path)
    (bom format variant : value) : M unit :=
  selector ← lift (Py.getitem variant "variant");
  bom_filename ←
    (if Py.is_not_None selector then
       selector ← lift (Py.getitem variant "variant");
       file_id ← lift (Py.getitem bom "file_id");
       mret (Py.str (name board) +:+ "-" +:+ Py.str selector +:+ "-"
             +:+ Py.str file_id +:+ "." +:+ Py.str format)
     else
       file_id ← lift (Py.getitem bom "file_id");
       mret (Py.str (name board) +:+ "-" +:+ Py.str file_id +:+ "." +:+ Py.str format));
  ini ← lift (Py.getitem bom "ini");
  selector ← lift (Py.getitem variant "variant");
  run_kibom board_bom_xml ini selector (assembly_dir board // bom_filename).

(** The innermost loop of [build_board] (source line 142), for the value
    [declared] of the [variants] field of the board. *)
Definition variants_loop (board : Board) (xml : Path) (bom format declared : value)
    : M unit :=
  variants ← lift (Py.iterate
    (if Py.truthy declared then declared else VList [no_variant]));
  for_each variants (build_board_bom board xml bom format).

(** The loop nest of [build_board] (source lines 140-147). *)
Definition build_board_boms (board : Board) (settings : value)
    (board_bom_xml : Path) : M unit :=
  outputs ← lift (Py.getitem settings "outputs");
  kibom ← lift (Py.getitem outputs "kibom");
  boms ← lift (Py.iterate kibom);
  for_each boms (fun bom =>
    formats ← lift (Py.getitem bom "formats");
    formats ← lift (Py.iterate formats);
    for_each formats (fun format =>
      variants_loop board board_bom_xml bom format (variants board))).

(** The local variables [gerber_dir] and [gerber_zip] of [build_board]. *)
Definition gerber_dir (board : Board) : Path :=
  build_dir board // (Py.str (name board) +:+ "-gerber").

Definition gerber_zip (board : Board) : Path :=
  assembly_dir board // (Py.str (name board) +:+ "-gerber.zip").

Definition build_board (board : Board) (settings : value) : M unit :=
  let n := Py.str (name board) in
  board_version ← read_version (kicad_pro board);
  print ("Building " +:+ n +:+ " " +:+ Py.str board_version);;
  perform (sys_makedirs sys (assembly_dir board)) (EvMakedirs (assembly_dir board));;
  perform (sys_makedirs sys (build_dir board)) (EvMakedirs (build_dir board));;
  mk_schematic_pdf (kicad_sch board) (assembly_dir board // (n +:+ "-schematic.pdf"));;
  mk_gerber (kicad_pcb board) (gerber_dir board);;
  mk_gerber_zip (gerber_dir board) (gerber_zip board);;
  let board_bom_xml := build_dir board // (n +:+ "-bom.xml") in
  mk_bom_xml (kicad_sch board) board_bom_xml;;
  build_board_boms board settings board_bom_xml;;
  mk_fab_pdf board settings (assembly_dir board // (n +:+ "-fab.pdf"));;
  mk_step board settings (assembly_dir board // (n +:+ ".step"));;
  mk_pos board settings (build_dir board // (n +:+ "-pos.csv"));;
  mk_pos_jlcpcb board settings (build_dir board // (n +:+ "-pos.csv"))
                (assembly_dir board // (n +:+ "-jlcpcb-cpl.csv")).

Definition main (argv : list string) : M unit :=
  match argv !! 1%nat with
  | None => raise IndexError
  | Some config_file =>
      config ← perform (sys_load_yaml sys (VStr config_file))
                       (EvLoadYaml (VStr config_file));
      settings ← lift (Py.getitem config "settings");
      boards ← lift (Py.getitem config "boards");
      boards ← lift (Py.iterate boards);
      for_each boards (fun board =>
        b ← lift (from_yaml board settings);
        build_board b settings)
  end.

End Program.

(** The result, the final world and the trace of a run. *)
Definition result_of {W A} (m : M W A) (w : W) : result A := fst (fst (m w)).
Definition world_of {W A} (m : M W A) (w : W) : W := snd (fst (m w)).
Definition trace_of {W A} (m : M W A) (w : W) : list event := snd (m w).

(** ** The BOM step, as the specification words it

    The second description of the loop nest of [build_board], against
    which the embedding above is compared: one invocation of the BOM
    generator per BOM spec, format and variant selector. *)

Module Spec.

(** [{board}-{variant?}-{file_id}.{format}] *)
Definition bom_filename (board_name selector file_id format : value) : string :=
  if Py.is_not_None selector
  then Py.str board_name +:+ "-" +:+ Py.str selector +:+ "-" +:+ Py.str file_id
       +:+ "." +:+ Py.str format
  else Py.str board_name +:+ "-" +:+ Py.str file_id +:+ "." +:+ Py.str format.

(** The command line of the BOM generator: the variant selector is
    passed as [-r selector] or left out. *)
Definition kibom_command (ini selector : value) (bom_dir xml : Path) (filename : string)
    : list value :=
  [VStr "kibom"; VStr "--cfg"; ini; VStr "-d"; VPath bom_dir]
  ++ (if Py.truthy selector then [VStr "-r"; selector] else [])
  ++ [VPath xml; VStr filename].

(** One invocation: BOM spec ([ini], [file_id]), format and selector. *)
Record run := mkRun { ini : value; file_id : value; format : value; selector : value }.

(** The events of one successful invocation for the output path [out],
    where [bom_dir] is what resolving the directory of [out] gave. *)
Definition kibom_events (xml out : Path) (r : run) (bom_dir : Path) : list event :=
  let cmd := kibom_command (ini r) (selector r) bom_dir xml (pathlib.name out) in
  [EvPrint "--- Running KiBOM";
   EvResolve (pathlib.parent out) (Ok bom_dir);
   EvPrint ("KiBOM: " +:+ Py.str (VList cmd));
   EvCall cmd (Ok 0)].

(** The invocations in the order of the loop nest: BOM specs outermost,
    then formats, then selectors. *)
Definition runs (specs : list (value * list value * value)) (selectors : list value)
    : list run :=
  flat_map (fun spec : value * list value * value =>
    let '(ini, formats, file_id) := spec in
    flat_map (fun format =>
      map (fun sel => {| ini := ini; file_id := file_id; format := format;
                         selector := sel |}) selectors) formats) specs.

Definition out_path (board : Board) (r : run) : Path :=
  assembly_dir board // bom_filename (name board) (selector r) (file_id r) (format r).

(** A trace that consists of one invocation per element of [rs], in
    order and nothing else. *)
Fixpoint bom_trace (board : Board) (xml : Path) (rs : list run) (tr : list event) : Prop :=
  match rs with
  | [] => tr = []
  | r :: rs' =>
      exists bom_dir tr',
        tr = kibom_events xml (out_path board r) r bom_dir ++ tr' /\
        bom_trace board xml rs' tr'
  end.

(** The selectors of a board: the single implicit one when the board
    declares no variant, else the [variant] field of each declared one. *)
Definition selectors_of (declared : value) (selectors : list value) : Prop :=
  (Py.truthy declared = false /\ selectors = [VNone]) \/
  (exists vs, declared = VList vs /\ vs <> [] /\
              Forall2 (fun v sel => Py.getitem v "variant" = Ok sel) vs selectors).

Definition is_call (ev : event) : bool :=
  match ev with EvCall _ _ => true | _ => false end.

End Spec.

(** [dataclasses.replace(board, variants=vs)] *)
Definition set_variants (board : Board) (vs : value) : Board :=
  {| name := name board; kicad_pro := kicad_pro board; kicad_sch := kicad_sch board;
     kicad_pcb := kicad_pcb board; assembly_dir := assembly_dir board;
     build_dir := build_dir board; variants := vs |}.

(** ** Reading traces *)

(** The documents read through [PdfReader], with their pages, and the
    documents written, in order. *)
Definition pdf_reads (tr : list event) : list (Path * list page) :=
  flat_map (fun ev => match ev with
                      | EvPdfRead file (Ok pages) => [(file, pages)]
                      | _ => []
                      end) tr.

Definition pdf_writes (tr : list event) : list (Path * list page) :=
  flat_map (fun ev => match ev with
                      | EvPdfWrite file pages (Ok _) => [(file, pages)]
                      | _ => []
                      end) tr.

(** The characters written to [file], in order. *)
Definition written (file : Path) (tr : list event) : string :=
  fold_right (fun ev rest =>
                match ev with
                | EvWrite f data (Ok _) => if decide (f = file) then data +:+ rest else rest
                | _ => rest
                end) "" tr.

(** Events of the steps of [build_board] that come before the Gerber
    export: reading the version, the log lines, the directories and the
    schematic export [cmd]. *)
Definition before_gerber (cmd : list value) (ev : event) : Prop :=
  match ev with
  | EvLoadJson _ _ | EvPrint _ | EvMakedirs _ _ => True
  | EvCall c _ => c = cmd
  | _ => False
  end.

(** ** The steps of a build

    [build_board] as the list of its statements, run in sequence. *)

Section Steps.

Context {W : Type} (sys : System W).

Definition schematic_command (board : Board) : list value :=
  [VStr "kicad-cli"; VStr "sch"; VStr "export"; VStr "pdf"; VStr "-o";
   VPath (assembly_dir board // (Py.str (name board) +:+ "-schematic.pdf"));
   VPath (kicad_sch board)].

Definition gerbers_command (board : Board) : list value :=
  [VStr "kicad-cli"; VStr "pcb"; VStr "export"; VStr "gerbers"; VStr "-o";
   VPath (gerber_dir board); VStr "--use-drill-file-origin"; VPath (kicad_pcb board)].

Definition steps_before_gerber (board : Board) : list (M W unit) :=
  let n := Py.str (name board) in
  [ (board_version ← read_version sys (kicad_pro board);
     print ("Building " +:+ n +:+ " " +:+ Py.str board_version));
    perform (sys_makedirs sys (assembly_dir board)) (EvMakedirs (assembly_dir board));
    perform (sys_makedirs sys (build_dir board)) (EvMakedirs (build_dir board));
    mk_schematic_pdf sys (kicad_sch board) (assembly_dir board // (n +:+ "-schematic.pdf")) ].

Definition steps_after_gerber (board : Board) (settings : value) : list (M W unit) :=
  let n := Py.str (name board) in
  [ mk_gerber_zip sys (gerber_dir board) (gerber_zip board);
    mk_bom_xml sys (kicad_sch board) (build_dir board // (n +:+ "-bom.xml"));
    build_board_boms sys board settings (build_dir board // (n +:+ "-bom.xml"));
    mk_fab_pdf sys board settings (assembly_dir board // (n +:+ "-fab.pdf"));
    mk_step sys board settings (assembly_dir board // (n +:+ ".step"));
    mk_pos sys board settings (build_dir board // (n +:+ "-pos.csv"));
    mk_pos_jlcpcb sys board settings (build_dir board // (n +:+ "-pos.csv"))
                  (assembly_dir board // (n +:+ "-jlcpcb-cpl.csv")) ].

Definition build_board_steps (board : Board) (settings : value) : list (M W unit) :=
  steps_before_gerber board
  ++ mk_gerber sys (kicad_pcb board) (gerber_dir board)
  :: steps_after_gerber board settings.

Fixpoint run_steps (steps : list (M W unit)) : M W unit :=
  match steps with
  | [] => mret tt
  | step :: steps' => step ;; run_steps steps'
  end.

(** The body of the loop of [main]. *)
Definition main_body (settings board : value) : M W unit :=
  b ← lift (from_yaml board settings);
  build_board sys b settings.

End Steps.

(** ** A reference environment

    An in-memory world on which the program can be run: text files, PDF
    documents and directory listings by path, the documents the JSON and
    YAML loaders deliver, and the exit status of every command.  Opening
    a text file for writing empties it, at once, and writing to it extends
    its contents; a file that is read delivers its contents as they are
    then; the other operations leave the world as it is. *)

Module Sim.

Record world := mkWorld {
  texts : list (Path * string);
  pdfs : list (Path * list page);
  dirs : list (Path * list string);
  json : value;
  yaml : value;
  status : list value -> Z
}.

Fixpoint lookup {A} (p : Path) (l : list (Path * A)) : option A :=
  match l with
  | [] => None
  | (q, a) :: l' => if decide (q = p) then Some a else lookup p l'
  end.

Fixpoint update {A} (p : Path) (f : option A -> A) (l : list (Path * A)) : list (Path * A) :=
  match l with
  | [] => [(p, f None)]
  | (q, a) :: l' => if decide (q = p) then (q, f (Some a)) :: l' else (q, a) :: update p f l'
  end.

Definition ENOENT : Z := 2.

Definition find {A} (p : Path) (l : list (Path * A)) (w : world) : result A * world :=
  match lookup p l with
  | Some a => (Ok a, w)
  | None => (Raise (OSError ENOENT), w)
  end.

Definition set_texts (w : world) (t : list (Path * string)) : world :=
  {| texts := t; pdfs := pdfs w; dirs := dirs w; json := json w; yaml := yaml w;
     status := status w |}.

Definition system : System world :=
  {| sys_load_json := fun _ w => (Ok (json w), w);
     sys_load_yaml := fun _ w => (Ok (yaml w), w);
     sys_makedirs := fun _ w => (Ok tt, w);
     sys_call := fun cmd w => (Ok (status w cmd), w);
     sys_resolve := fun p w => (Ok p, w);
     sys_zip_open := fun _ w => (Ok tt, w);
     sys_listdir := fun d w => find d (dirs w) w;
     sys_zip_write := fun _ _ _ w => (Ok tt, w);
     sys_zip_close := fun _ w => (Ok tt, w);
     sys_pdf_read := fun p w => find p (pdfs w) w;
     sys_pdf_write := fun _ _ w => (Ok tt, w);
     sys_open_read := fun p w =>
       match lookup p (texts w) with
       | Some _ => (Ok tt, w)
       | None => (Raise (OSError ENOENT), w)
       end;
     sys_read := fun p w => ((default "" (lookup p (texts w)), None), w);
     sys_open_write := fun p w => (Ok tt, set_texts w (update p (fun _ => "") (texts w)));
     sys_write := fun p data w =>
       (Ok tt, set_texts w (update p (fun old => default "" old +:+ data) (texts w)));
     sys_close := fun _ w => (Ok tt, w) |}.

End Sim.

(** ** A sample configuration

    One board with two variants, two fabrication drawings and one BOM
    spec with two formats, and a world in which every tool succeeds. *)

Module Sample.

Definition board : value :=
  VDict [("name", VStr "Widget");
         ("kicad_pro", VStr "hw/widget/widget.kicad_pro");
         ("variants", VList [VDict [("name", VStr "first"); ("variant", VStr "A")];
                             VDict [("name", VStr "second"); ("variant", VStr "B")]])].

Definition fab_top : value :=
  VDict [("name", VStr "top"); ("layers", VStr "F.Cu,Edge.Cuts");
         ("include_border_title", VBool true)].

Definition fab_bottom : value :=
  VDict [("name", VStr "bottom"); ("layers", VStr "B.Cu"); ("mirror", VBool true);
         ("include_border_title", VBool false)].

Definition kibom : value :=
  VDict [("ini", VStr "bom.ini"); ("formats", VList [VStr "csv"; VStr "html"]);
         ("file_id", VStr "bom")].

Definition outputs : value :=
  VDict [("fab", VList [fab_top; fab_bottom]); ("kibom", VList [kibom])].

Definition settings : value :=
  VDict [("assembly_dir", VStr "out/assembly"); ("build_dir", VStr "out/build");
         ("outputs", outputs)].

Definition LF : string := String csv.LF "".

Definition pos_csv : string :=
  "Ref,Val,Package,PosX,PosY,Rot,Side" +:+ LF +:+
  "R1,10k,R_0603,1.0,2.0,90.0,top" +:+ LF +:+
  "C1,100n,C_0603,3.5,2.0,0.0,top" +:+ LF.

Definition pos_path : Path := pathlib.parse "out/build/Widget/Widget-pos.csv".
Definition jlcpcb_path : Path := pathlib.parse "out/assembly/Widget/Widget-jlcpcb-cpl.csv".
Definition gerber_path : Path := pathlib.parse "out/build/Widget/Widget-gerber".
Definition zip_path : Path := pathlib.parse "out/assembly/Widget/Widget-gerber.zip".

Definition world : Sim.world :=
  {| Sim.texts := [(pos_path, pos_csv)];
     Sim.pdfs := [(pathlib.parse "out/build/Widget/Widget-fab-top.pdf", [Page "top 1"; Page "top 2"]);
                  (pathlib.parse "out/build/Widget/Widget-fab-bottom.pdf", [Page "bottom 1"])];
     Sim.dirs := [(gerber_path, ["Widget-F_Cu.gbr"; "Widget-B_Cu.gbr"; "Widget.drl"])];
     Sim.json := VDict [("text_variables", VDict [("VERSION", VStr "1.2")])];
     Sim.yaml := VDict [("settings", settings); ("boards", VList [board])];
     Sim.status := fun _ => 0 |}.

(** The same world, except that the Gerber export exits with status 1. *)
Definition gerber_status (cmd : list value) : Z :=
  match cmd with
  | _ :: _ :: _ :: VStr kind :: _ => if String.eqb kind "gerbers" then 1 else 0
  | _ => 0
  end.

Definition world_gerber_fails : Sim.world :=
  {| Sim.texts := Sim.texts world; Sim.pdfs := Sim.pdfs world; Sim.dirs := Sim.dirs world;
     Sim.json := Sim.json world; Sim.yaml := Sim.yaml world; Sim.status := gerber_status |}.

(** The same world, except that the placement export is an empty file. *)
Definition world_empty_pos : Sim.world :=
  {| Sim.texts := [(pos_path, "")]; Sim.pdfs := Sim.pdfs world; Sim.dirs := Sim.dirs world;
     Sim.json := Sim.json world; Sim.yaml := Sim.yaml world; Sim.status := Sim.status world |}.

(** Where a second reshape, of the reshaped file, writes. *)
Definition twice_path : Path := pathlib.parse "out/assembly/Widget/Widget-twice.csv".

(** The board descriptor [from_yaml] builds for [board]. *)
Definition descriptor : Board :=
  {| name := VStr "Widget";
     kicad_pro := pathlib.parse "hw/widget/widget.kicad_pro";
     kicad_sch := pathlib.parse "hw/widget/widget.kicad_sch";
     kicad_pcb := pathlib.parse "hw/widget/widget.kicad_pcb";
     assembly_dir := pathlib.parse "out/assembly/Widget";
     build_dir := pathlib.parse "out/build/Widget";
     variants := VList [VDict [("name", VStr "first"); ("variant", VStr "A")];
                        VDict [("name", VStr "second"); ("variant", VStr "B")]] |}.

End Sample.

(** ** Further notions and worlds *)

(** What [subprocess.check_call] makes of the outcome [r] of running
    [cmd]: success on exit status 0, [CalledProcessError] with the status
    and the command otherwise, and the failure itself when the command
    could not be run. *)
Definition call_outcome (cmd : list value) (r : result Z) : result unit :=
  match r with
  | Ok returncode => if returncode =? 0 then Ok tt else Raise (CalledProcessError returncode cmd)
  | Raise e => Raise e
  end.

(** A path as [pathlib] builds them: a root among [""], ["/"] and ["//"],
    and components free of separators, none empty and none a lone dot. *)
Definition wf_path (p : Path) : Prop :=
  (root p = "" \/ root p = "/" \/ root p = "//") /\
  Forall (fun x => Str.mem "/" x = false /\ pathlib.keep_part x = true) (parts p).

(** The last component of the board name, which every artifact name
    starts with. *)
Definition stub (n : string) : string :=
  List.last (Str.split "/" (snd (pathlib.splitroot n))) "".

(** Events of the preparation of a build: reading the version, the log
    line and the directories. *)
Definition is_setup (ev : event) : Prop :=
  match ev with
  | EvLoadJson _ _ | EvPrint _ | EvMakedirs _ _ => True
  | _ => False
  end.

(** The one-character strings a [for] loop over a string visits. *)
Definition characters (s : string) : list value :=
  map (fun c => VStr (String c EmptyString)) (list_ascii_of_string s).

(** Events of the export loop of [mk_fab_pdf]: running a tool and
    reading a document. *)
Definition is_export (ev : event) : Prop :=
  match ev with
  | EvCall _ _ | EvPdfRead _ _ => True
  | _ => False
  end.

Module Cases.

(** The sample world with a project file that has no text variables. *)
Definition world_no_version : Sim.world :=
  {| Sim.texts := Sim.texts Sample.world; Sim.pdfs := Sim.pdfs Sample.world;
     Sim.dirs := Sim.dirs Sample.world; Sim.json := VDict [];
     Sim.yaml := Sim.yaml Sample.world; Sim.status := Sim.status Sample.world |}.

(** The sample world without the placement export and without the
    Gerber directory. *)
Definition world_bare : Sim.world :=
  {| Sim.texts := []; Sim.pdfs := Sim.pdfs Sample.world; Sim.dirs := [];
     Sim.json := Sim.json Sample.world; Sim.yaml := Sim.yaml Sample.world;
     Sim.status := Sim.status Sample.world |}.

(** A placement export with a quoted cell that holds a line break, CR
    LF, and the sample world with it. *)
Definition pos_csv_newline_cell : string :=
  "Ref,Val" +:+ Sample.LF +:+ "R1,"
  +:+ String Py.dquote ("a" +:+ String csv.CR (String csv.LF ("b"
  +:+ String Py.dquote Sample.LF))).

Definition world_newline_cell : Sim.world :=
  {| Sim.texts := [(Sample.pos_path, pos_csv_newline_cell)];
     Sim.pdfs := Sim.pdfs Sample.world; Sim.dirs := Sim.dirs Sample.world;
     Sim.json := Sim.json Sample.world; Sim.yaml := Sim.yaml Sample.world;
     Sim.status := Sim.status Sample.world |}.

(** The reference environment with text files that cannot be decoded:
    reading fails at once, as with [UnicodeDecodeError], which is a
    [ValueError]. *)
Definition system_unreadable : System Sim.world :=
  {| sys_load_json := sys_load_json Sim.system;
     sys_load_yaml := sys_load_yaml Sim.system;
     sys_makedirs := sys_makedirs Sim.system;
     sys_call := sys_call Sim.system;
     sys_resolve := sys_resolve Sim.system;
     sys_zip_open := sys_zip_open Sim.system;
     sys_listdir := sys_listdir Sim.system;
     sys_zip_write := sys_zip_write Sim.system;
     sys_zip_close := sys_zip_close Sim.system;
     sys_pdf_read := sys_pdf_read Sim.system;
     sys_pdf_write := sys_pdf_write Sim.system;
     sys_open_read := sys_open_read Sim.system;
     sys_read := fun _ w => (("", Some ValueError), w);
     sys_open_write := sys_open_write Sim.system;
     sys_write := sys_write Sim.system;
     sys_close := sys_close Sim.system |}.

(** A fabrication spec without [include_border_title]. *)
Definition fab_no_border : list (string * value) :=
  [("name", VStr "top"); ("layers", VStr "F.Cu"); ("mirror", VBool true)].

(** A variant whose selector is the empty string. *)
Definition variant_blank : value := VDict [("name", VStr "base"); ("variant", VStr "")].

(** The sample settings with the formats of the BOM spec given as one
    string instead of a list. *)
Definition kibom_one_format : value :=
  VDict [("ini", VStr "bom.ini"); ("formats", VStr "csv"); ("file_id", VStr "bom")].

Definition outputs_one_format : value :=
  VDict [("fab", VList [Sample.fab_top; Sample.fab_bottom]);
         ("kibom", VList [kibom_one_format])].

Definition settings_one_format : value :=
  VDict [("assembly_dir", VStr "out/assembly"); ("build_dir", VStr "out/build");
         ("outputs", outputs_one_format)].

(** The sample board without variants. *)
Definition descriptor_plain : Board := set_variants Sample.descriptor VNone.

(** The sample world with a second board record that lacks its project
    file. *)
Definition board_no_project : value := VDict [("name", VStr "Gadget")].

Definition world_second_bad : Sim.world :=
  {| Sim.texts := Sim.texts Sample.world; Sim.pdfs := Sim.pdfs Sample.world;
     Sim.dirs := Sim.dirs Sample.world; Sim.json := Sim.json Sample.world;
     Sim.yaml := VDict [("settings", Sample.settings);
                        ("boards", VList [Sample.board; board_no_project])];
     Sim.status := Sim.status Sample.world |}.

End Cases.

(** * Properties *)

#[local] Arguments String.append !_ _ / : simpl nomatch.
#[local] Arguments Str.eqb_ascii : simpl never.

(** ** Strings and paths *)

Lemma eqb_ascii_true a b : Str.eqb_ascii a b = true <-> a = b.
Proof. apply Ascii.eqb_eq. Qed.

Lemma eqb_ascii_false a b : Str.eqb_ascii a b = false <-> a <> b.
Proof. apply Ascii.eqb_neq. Qed.

Lemma length_append (a b : string) :
  String.length (a +:+ b) = (String.length a + String.length b)%nat.
Proof. induction a as [|c a IH]; simpl; [done | by rewrite IH]. Qed.

Lemma take_append (a b : string) : Str.take (String.length a) (a +:+ b) = a.
Proof. induction a as [|c a IH]; simpl; [by destruct b | by rewrite IH]. Qed.

Lemma drop_append (a b : string) : Str.drop (String.length a) (a +:+ b) = b.
Proof. induction a as [|c a IH]; simpl; [by destruct b | done]. Qed.

Lemma length_drop (n : nat) (s : string) :
  String.length (Str.drop n s) = (String.length s - n)%nat.
Proof. revert s; induction n as [|n IH]; intros [|c s]; simpl; try done. Qed.

Lemma rfind_dot_append (a b : string) :
  Str.rfind_dot (a +:+ b) =
  match Str.rfind_dot b with
  | Some i => Some (String.length a + i)%nat
  | None => Str.rfind_dot a
  end.
Proof.
  induction a as [|c a IH]; simpl.
  - by destruct (Str.rfind_dot b).
  - rewrite IH. destruct (Str.rfind_dot b); [done|].
    by destruct (Str.rfind_dot a).
Qed.

Lemma rfind_dot_none (s : string) : Str.mem "." s = false -> Str.rfind_dot s = None.
Proof.
  induction s as [|c s IH]; simpl; [done|].
  intros [H1 H2]%orb_false_iff. rewrite (IH H2).
  apply eqb_ascii_false in H1.
  destruct (Str.eqb_ascii c ".") eqn:E; [|done].
  apply eqb_ascii_true in E. congruence.
Qed.

Lemma take_nonempty (n : nat) (s : string) :
  (0 < n)%nat -> s <> "" -> Str.take n s <> "".
Proof. destruct n, s; simpl; try lia; done. Qed.

Lemma stem_nonempty (p : Path) : pathlib.name p <> "" -> pathlib.stem p <> "".
Proof.
  intros Hn. unfold pathlib.stem.
  destruct (Str.rfind_dot (pathlib.name p)) as [i|]; [|done].
  destruct (0 <? i)%nat eqn:Hi; simpl; [|done].
  destruct (i <? _)%nat; [|done].
  apply take_nonempty; [by apply Nat.ltb_lt|done].
Qed.

(** The name [with_suffix] builds is the stem followed by the new suffix. *)
Lemma with_suffix_name (p : Path) (ext : string) :
  let name := pathlib.name p in
  let old_suffix := pathlib.suffix p in
  (if String.eqb old_suffix "" then name +:+ ext
   else Str.take (String.length name - String.length old_suffix) name +:+ ext)
  = pathlib.stem p +:+ ext.
Proof.
  unfold pathlib.suffix, pathlib.stem. cbv zeta.
  destruct (Str.rfind_dot (pathlib.name p)) as [i|] eqn:Hr; [|done].
  destruct ((0 <? i)%nat && (i <? String.length (pathlib.name p) - 1)%nat) eqn:Hc; [|done].
  apply andb_true_iff in Hc as [H0 H1].
  apply Nat.ltb_lt in H0, H1.
  destruct (String.eqb (Str.drop i (pathlib.name p)) "") eqn:He.
  - apply String.eqb_eq in He.
    pose proof (length_drop i (pathlib.name p)) as Hl. rewrite He in Hl. simpl in Hl. lia.
  - rewrite length_drop. do 2 f_equal. lia.
Qed.

Lemma suffix_stem_of_name (q : Path) (stem e : string) :
  pathlib.name q = stem +:+ String "." e ->
  stem <> "" -> e <> "" -> Str.mem "." e = false ->
  pathlib.stem q = stem /\ pathlib.suffix q = String "." e.
Proof.
  intros Hn Hs He Hd. unfold pathlib.stem, pathlib.suffix. rewrite Hn.
  rewrite rfind_dot_append. simpl. rewrite (rfind_dot_none e Hd). simpl.
  rewrite Nat.add_0_r, length_append. simpl.
  assert (0 < String.length stem)%nat as H0 by (destruct stem; simpl; [done|lia]).
  assert (0 < String.length e)%nat as H1 by (destruct e; simpl; [done|lia]).
  destruct (Nat.ltb_spec 0 (String.length stem)); [|lia].
  destruct (Nat.ltb_spec (String.length stem) (String.length stem + S (String.length e) - 1)); [|lia].
  simpl. by rewrite take_append, drop_append.
Qed.

Lemma with_suffix_spec (p q : Path) (e : string) :
  e <> "" -> Str.mem "." e = false ->
  with_suffix p (String "." e) = Ok q ->
  root q = root p /\ pathlib.parent q = pathlib.parent p /\
  pathlib.name q = pathlib.stem p +:+ String "." e /\
  pathlib.stem q = pathlib.stem p /\ pathlib.suffix q = String "." e.
Proof.
  intros He Hd. unfold with_suffix.
  destruct (String.eqb (pathlib.name p) "") eqn:Hn; [done|].
  apply String.eqb_neq in Hn.
  rewrite with_suffix_name. intros [= <-].
  assert (pathlib.name {| root := root p;
                          parts := removelast (parts p) ++ [pathlib.stem p +:+ String "." e] |}
          = pathlib.stem p +:+ String "." e) as Hname.
  { unfold pathlib.name; simpl. apply last_last. }
  split; [done|]. split.
  { unfold pathlib.parent; simpl. by rewrite removelast_last. }
  split; [done|].
  eapply suffix_stem_of_name; eauto using stem_nonempty.
Qed.

(** ** The board descriptor *)

Lemma result_bind_ok {A B} (m : result A) (f : A -> result B) (b : B) :
  m ≫= f = Ok b -> exists a, m = Ok a /\ f a = Ok b.
Proof. destruct m as [a|e]; simpl; [eauto | done]. Qed.

(** C4: for every board record that [from_yaml] accepts, the schematic
    and layout paths are the project-file path with its suffix replaced
    (same root, same parent, same stem), and the assembly and build
    directories are the paths [{root}/{name}] for the configured roots. *)
Theorem from_yaml_derived_paths (board settings : value) (b : Board) :
  from_yaml board settings = Ok b ->
  (exists project, Py.getitem board "kicad_pro" = Ok project /\
                   Path_of project = Ok (kicad_pro b)) /\
  (root (kicad_sch b) = root (kicad_pro b) /\
   pathlib.parent (kicad_sch b) = pathlib.parent (kicad_pro b) /\
   pathlib.name (kicad_sch b) = pathlib.stem (kicad_pro b) +:+ ".kicad_sch" /\
   pathlib.stem (kicad_sch b) = pathlib.stem (kicad_pro b) /\
   pathlib.suffix (kicad_sch b) = ".kicad_sch") /\
  (root (kicad_pcb b) = root (kicad_pro b) /\
   pathlib.parent (kicad_pcb b) = pathlib.parent (kicad_pro b) /\
   pathlib.name (kicad_pcb b) = pathlib.stem (kicad_pro b) +:+ ".kicad_pcb" /\
   pathlib.stem (kicad_pcb b) = pathlib.stem (kicad_pro b) /\
   pathlib.suffix (kicad_pcb b) = ".kicad_pcb") /\
  (exists assembly_root build_root,
     Py.getitem settings "assembly_dir" = Ok assembly_root /\
     Py.getitem settings "build_dir" = Ok build_root /\
     Py.getitem board "name" = Ok (name b) /\
     assembly_dir b = pathlib.parse (Py.str assembly_root +:+ "/" +:+ Py.str (name b)) /\
     build_dir b = pathlib.parse (Py.str build_root +:+ "/" +:+ Py.str (name b))).
Proof.
  unfold from_yaml. intros H.
  apply result_bind_ok in H as (project & Hproject & H).
  apply result_bind_ok in H as (pro & Hpro & H).
  apply result_bind_ok in H as (n & Hn & H).
  apply result_bind_ok in H as (sch & Hsch & H).
  apply result_bind_ok in H as (pcb & Hpcb & H).
  apply result_bind_ok in H as (aroot & Haroot & H).
  apply result_bind_ok in H as (n1 & Hn1 & H).
  apply result_bind_ok in H as (broot & Hbroot & H).
  apply result_bind_ok in H as (n2 & Hn2 & H).
  apply result_bind_ok in H as (vs & Hvs & H).
  injection H as <-. simpl.
  assert (n1 = n) as -> by congruence.
  assert (n2 = n) as -> by congruence.
  split; [by exists project|].
  split; [by apply with_suffix_spec|].
  split; [by apply with_suffix_spec|].
  by exists aroot, broot.
Qed.

Lemma from_yaml_derived_paths_witness :
  from_yaml Sample.board Sample.settings = Ok Sample.descriptor /\
  pathlib.name (kicad_sch Sample.descriptor) = "widget.kicad_sch" /\
  pathlib.parent (kicad_pcb Sample.descriptor) = pathlib.parse "hw/widget" /\
  assembly_dir Sample.descriptor = pathlib.parse "out/assembly/Widget".
Proof.
  split; [reflexivity|].
  destruct (from_yaml_derived_paths Sample.board Sample.settings Sample.descriptor eq_refl)
    as (_ & (_ & _ & Hsch & _) & (_ & Hpcb & _) & (a & r & Ha & _ & _ & Hdir & _)).
  split; [exact Hsch|]. split; [exact Hpcb|].
  injection Ha as <-. exact Hdir.
Defined.

(** C8, as stated, fails: a record that has the project-file path but no
    name is rejected. *)
Lemma from_yaml_fails_iff_no_project_counterexample :
  let d := [("kicad_pro", VStr "widget.kicad_pro")] in
  let s := [("assembly_dir", VStr "out/assembly"); ("build_dir", VStr "out/build")] in
  from_yaml (VDict d) (VDict s) = Raise (KeyError "name") /\
  ~ (is_ok (from_yaml (VDict d) (VDict s)) = false <-> Py.assoc "kicad_pro" d = None).
Proof.
  split; [reflexivity|].
  intros [H _]. specialize (H eq_refl). discriminate H.
Qed.

(** C8, amended: building the descriptor is a pure function (it neither
    changes the world nor leaves an event), and on a record and settings
    that are mappings it fails exactly when the record lacks the
    project-file path or the name, the project-file path is not a string
    or has an empty last component, or the settings lack one of the two
    output roots.  A missing [variants] key is no failure. *)
Theorem from_yaml_fails_iff (d s : list (string * value)) :
  (forall (W : Type) (w : W),
     lift (from_yaml (VDict d) (VDict s)) w = (from_yaml (VDict d) (VDict s), w, [])) /\
  (is_ok (from_yaml (VDict d) (VDict s)) = false <->
   Py.assoc "kicad_pro" d = None \/
   (exists v, Py.assoc "kicad_pro" d = Some v /\
              (Path_of v = Raise TypeError \/
               exists p, Path_of v = Ok p /\ pathlib.name p = "")) \/
   Py.assoc "name" d = None \/
   Py.assoc "assembly_dir" s = None \/
   Py.assoc "build_dir" s = None).
Proof.
  split; [done|].
  unfold from_yaml, Py.getitem, Py.get, with_suffix.
  destruct (Py.assoc "kicad_pro" d) as [v|] eqn:Hv; simpl; [|by intuition].
  destruct (Path_of v) as [p|e] eqn:Hp; simpl.
  2:{ assert (e = TypeError) as -> by (destruct v; simpl in Hp; congruence).
      split; [|done]. intros _. right; left. exists v. by auto. }
  destruct (Py.assoc "name" d) as [n|] eqn:Hn; simpl; [|by intuition].
  destruct (String.eqb (pathlib.name p) "") eqn:Hname; simpl.
  { apply String.eqb_eq in Hname. split; [|done]. intros _. right; left.
    exists v. split; [done|]. right. by exists p. }
  apply String.eqb_neq in Hname.
  destruct (Py.assoc "assembly_dir" s) as [a|] eqn:Ha; simpl; [|by intuition].
  destruct (Py.assoc "build_dir" s) as [r|] eqn:Hr; simpl; [|by intuition].
  destruct (Py.assoc "variants" d); simpl.
  all: split; [done|].
  all: intros [?|[(vv & [= <-] & [?|(pp & ? & ?)])|[?|[?|?]]]]; congruence.
Qed.

Lemma mem_append (c : ascii) (a b : string) :
  Str.mem c (a +:+ b) = Str.mem c a || Str.mem c b.
Proof. induction a as [|d a IH]; simpl; [done|]. by rewrite IH, orb_assoc. Qed.

Lemma split_no_sep (sep : ascii) (s : string) :
  Str.mem sep s = false -> Str.split sep s = [s].
Proof.
  induction s as [|c s IH]; simpl; [done|].
  intros [H1 H2]%orb_false_iff. rewrite (IH H2).
  apply eqb_ascii_false in H1.
  destruct (Str.eqb_ascii c sep) eqn:E; [|done].
  apply eqb_ascii_true in E. congruence.
Qed.

(** A string that is one path component parses to that component. *)
Lemma parse_component (s : string) :
  Str.mem "/" s = false -> s <> "" -> s <> "." ->
  pathlib.parse s = {| root := ""; parts := [s] |}.
Proof.
  intros Hsep Hne Hdot. unfold pathlib.parse, pathlib.splitroot.
  destruct s as [|c s]; [done|].
  assert (Str.eqb_ascii c "/" = false) as ->.
  { simpl in Hsep. apply orb_false_iff in Hsep as [H _].
    apply eqb_ascii_false in H. apply eqb_ascii_false. congruence. }
  rewrite (split_no_sep _ _ Hsep). simpl.
  unfold pathlib.keep_part.
  apply String.eqb_neq in Hne, Hdot. by rewrite Hne, Hdot.
Qed.

Lemma joinpath_component (p : Path) (s : string) :
  Str.mem "/" s = false -> s <> "" -> s <> "." ->
  p // s = pathlib.make_child_relpath p s.
Proof.
  intros. unfold pathlib.joinpath. by rewrite parse_component.
Qed.

Lemma name_make_child (p : Path) (s : string) :
  pathlib.name (pathlib.make_child_relpath p s) = s.
Proof. unfold pathlib.name; simpl. apply last_last. Qed.

Lemma parent_make_child (p : Path) (s : string) :
  pathlib.parent (pathlib.make_child_relpath p s) = p.
Proof. destruct p. unfold pathlib.parent; simpl. by rewrite removelast_last. Qed.

(** A board name followed by a fixed non-empty ending is one component
    when the name holds no separator. *)
Lemma joinpath_named (p : Path) (n ending : string) :
  Str.mem "/" n = false -> Str.mem "/" ending = false ->
  (2 <= String.length ending)%nat ->
  p // (n +:+ ending) = pathlib.make_child_relpath p (n +:+ ending).
Proof.
  intros Hn He Hl. apply joinpath_component.
  - by rewrite mem_append, Hn, He.
  - intros H. apply (f_equal String.length) in H. rewrite length_append in H. simpl in H. lia.
  - intros H. apply (f_equal String.length) in H. rewrite length_append in H. simpl in H. lia.
Qed.

(** ** Runs of the program *)

Section Runs.

Context {W : Type}.

Lemma bind_ok {A B} (m : M W A) (f : A -> M W B) w b w' t :
  (m ≫= f) w = (Ok b, w', t) ->
  exists a w1 t1 t2, m w = (Ok a, w1, t1) /\ f a w1 = (Ok b, w', t2) /\ t = t1 ++ t2.
Proof.
  unfold mbind, M_mbind, M_bind.
  destruct (m w) as [[[a|e] w1] t1]; [|done].
  destruct (f a w1) as [[r w2] t2] eqn:Hf. intros [= -> -> <-].
  by exists a, w1, t1, t2.
Qed.

Lemma bind_run_ok {A B} (m : M W A) (f : A -> M W B) w a w1 t1 :
  m w = (Ok a, w1, t1) ->
  (m ≫= f) w = (let '(r, w2, t2) := f a w1 in (r, w2, t1 ++ t2)).
Proof. unfold mbind, M_mbind, M_bind. by intros ->. Qed.

Lemma bind_run_raise {A B} (m : M W A) (f : A -> M W B) w e w1 t1 :
  m w = (Raise e, w1, t1) -> (m ≫= f) w = (Raise e, w1, t1).
Proof. unfold mbind, M_mbind, M_bind. by intros ->. Qed.

Lemma lift_ok {A} (r : result A) (w : W) a w' t :
  lift r w = (Ok a, w', t) -> r = Ok a /\ w' = w /\ t = [].
Proof. unfold lift. by intros [= -> -> <-]. Qed.

Lemma ret_ok {A} (x : A) (w : W) a w' t :
  (mret x : M W A) w = (Ok a, w', t) -> a = x /\ w' = w /\ t = [].
Proof. unfold mret, M_mret, M_ret. by intros [= -> -> <-]. Qed.

Lemma print_ok (line : string) (w : W) u w' t :
  print line w = (Ok u, w', t) -> w' = w /\ t = [EvPrint line].
Proof. unfold print. destruct u. by intros [= <- <-]. Qed.

Lemma perform_ok {A} (h : W -> result A * W) (ev : result A -> event) w a w' t :
  perform h ev w = (Ok a, w', t) -> h w = (Ok a, w') /\ t = [ev (Ok a)].
Proof.
  unfold perform. destruct (h w) as [r w1]. by intros [= -> -> <-].
Qed.

Lemma finally_ok {A} (body : M W A) (cleanup : M W unit) w a w' t :
  finally body cleanup w = (Ok a, w', t) ->
  exists w1 t1 t2,
    body w = (Ok a, w1, t1) /\ cleanup w1 = (Ok tt, w', t2) /\ t = t1 ++ t2.
Proof.
  unfold finally. destruct (body w) as [[r w1] t1].
  destruct (cleanup w1) as [[[[]|e] w2] t2] eqn:Hc; [|done].
  intros H. injection H as -> -> <-. by exists w1, t1, t2.
Qed.

Context (sys : System W).

Lemma check_call_ok (cmd : list value) w u w' t :
  check_call sys cmd w = (Ok u, w', t) ->
  forallb path_like cmd = true /\ sys_call sys cmd w = (Ok 0, w') /\ t = [EvCall cmd (Ok 0)].
Proof.
  unfold check_call. destruct (forallb path_like cmd); [|done].
  intros (rc & w1 & t1 & t2 & Hc & Hr & ->)%bind_ok.
  apply perform_ok in Hc as [Hc ->].
  destruct (Z.eqb_spec rc 0) as [->|]; [|done].
  apply ret_ok in Hr as (_ & -> & ->). done.
Qed.

End Runs.

(** Taking a successful run apart, statement by statement. *)
Ltac run_inv H :=
  lazymatch type of H with
  | (_ ≫= _) _ = (Ok _, _, _) =>
      let a := fresh "a" in let w := fresh "w" in
      let t1 := fresh "t" in let t2 := fresh "t" in
      let H1 := fresh "H" in
      apply bind_ok in H as (a & w & t1 & t2 & H1 & H & ->);
      lazymatch type of a with unit => destruct a | _ => idtac end;
      run_inv H1; run_inv H
  | print _ _ = (Ok _, _, _) => apply print_ok in H as [-> ->]
  | mret _ _ = (Ok _, _, _) =>
      let Ha := fresh in apply ret_ok in H as (Ha & -> & ->); try subst
  | lift _ _ = (Ok _, _, _) => apply lift_ok in H as (H & -> & ->)
  | perform _ _ _ = (Ok _, _, _) => apply perform_ok in H as [H ->]
  | check_call _ _ _ = (Ok _, _, _) =>
      let Hp := fresh "Hargs" in apply check_call_ok in H as (Hp & H & ->)
  | _ => idtac
  end.

Section Zip.
Context {W : Type} (sys : System W).

Lemma for_each_zip_write_ok (zip : Path) (dir : Path) (names : list string) w w' t :
  for_each (map (pathlib.make_child_relpath dir) names) (fun file_path =>
     perform (sys_zip_write sys zip file_path (pathlib.name file_path))
             (EvZipWrite zip file_path (pathlib.name file_path))) w = (Ok tt, w', t) ->
  t = map (fun n => EvZipWrite zip (pathlib.make_child_relpath dir n) n (Ok tt)) names.
Proof.
  revert w t. induction names as [|n names IH]; intros w t; simpl.
  - by intros (_ & _ & ->)%ret_ok.
  - intros H. run_inv H. apply IH in H as ->.
    by rewrite name_make_child.
Qed.

End Zip.

(** ** Gerber packaging *)

(** C6: in a run of [mk_gerber_zip] that completes, the archive is
    opened, the directory is listed once, and exactly one member is
    written per entry of that listing, in its order: the entry of the
    Gerber directory with that name, stored under the bare name (the
    last component, no directory prefix); then the archive is closed.
    In [build_board] the archive is [{board}-gerber.zip] in the assembly
    directory and the directory is [{board}-gerber] in the build
    directory. *)
Theorem mk_gerber_zip_members {W : Type} (sys : System W)
    (dir zip : Path) (w w' : W) (tr : list event) :
  mk_gerber_zip sys dir zip w = (Ok tt, w', tr) ->
  (exists names : list string,
     tr = [EvPrint "--- Generating zip file for gerbers";
           EvZipOpen zip (Ok tt); EvListdir dir (Ok names)]
          ++ map (fun n => EvZipWrite zip (pathlib.make_child_relpath dir n) n (Ok tt)) names
          ++ [EvZipClose zip (Ok tt)] /\
     Forall (fun n => pathlib.parent (pathlib.make_child_relpath dir n) = dir /\
                      pathlib.name (pathlib.make_child_relpath dir n) = n) names) /\
  (forall board : Board,
     Str.mem "/" (Py.str (name board)) = false ->
     pathlib.name (gerber_zip board) = Py.str (name board) +:+ "-gerber.zip" /\
     pathlib.parent (gerber_zip board) = assembly_dir board /\
     pathlib.name (gerber_dir board) = Py.str (name board) +:+ "-gerber" /\
     pathlib.parent (gerber_dir board) = build_dir board).
Proof.
  intros H. split.
  - unfold mk_gerber_zip in H. run_inv H.
    apply finally_ok in H as (wz & tz1 & tz2 & Hbody & Hclose & ->).
    apply perform_ok in Hclose as [Hclose ->].
    unfold iterdir in Hbody. run_inv Hbody.
    apply for_each_zip_write_ok in Hbody as ->.
    lazymatch goal with
    | Hl : sys_listdir _ _ _ = (Ok ?names, _) |- _ => exists names
    end.
    split; [reflexivity|].
    apply Forall_forall. intros n _.
    by rewrite parent_make_child, name_make_child.
  - intros board Hn. unfold gerber_zip, gerber_dir.
    rewrite !joinpath_named by (done || simpl; lia).
    by rewrite !name_make_child, !parent_make_child.
Qed.

Lemma mk_gerber_zip_members_witness :
  mk_gerber_zip Sim.system Sample.gerber_path Sample.zip_path Sample.world
  = (Ok tt, Sample.world,
     [EvPrint "--- Generating zip file for gerbers";
      EvZipOpen Sample.zip_path (Ok tt);
      EvListdir Sample.gerber_path (Ok ["Widget-F_Cu.gbr"; "Widget-B_Cu.gbr"; "Widget.drl"]);
      EvZipWrite Sample.zip_path (Sample.gerber_path // "Widget-F_Cu.gbr") "Widget-F_Cu.gbr" (Ok tt);
      EvZipWrite Sample.zip_path (Sample.gerber_path // "Widget-B_Cu.gbr") "Widget-B_Cu.gbr" (Ok tt);
      EvZipWrite Sample.zip_path (Sample.gerber_path // "Widget.drl") "Widget.drl" (Ok tt);
      EvZipClose Sample.zip_path (Ok tt)]) /\
  pathlib.name (gerber_zip Sample.descriptor) = "Widget-gerber.zip".
Proof.
  split; [reflexivity|].
  exact (proj1 (proj2 (mk_gerber_zip_members Sim.system Sample.gerber_path Sample.zip_path
                         Sample.world Sample.world _ eq_refl) Sample.descriptor eq_refl)).
Defined.

(** ** The BOM step *)

Section Boms.

Context {W : Type} (sys : System W).

Lemma bind_lift_ok {A B} (a : A) (f : A -> M W B) (w : W) :
  (lift (Ok a) ≫= f) w = f a w.
Proof.
  unfold mbind, M_mbind, M_bind, lift. by destruct (f a w) as [[r w1] t1].
Qed.

Lemma bind_ret {A B} (a : A) (f : A -> M W B) (w : W) :
  (mret a ≫= f) w = f a w.
Proof. apply bind_lift_ok. Qed.

Lemma bind_ext {A B} (m : M W A) (f g : A -> M W B) (w : W) :
  (forall a w1, f a w1 = g a w1) -> (m ≫= f) w = (m ≫= g) w.
Proof.
  intros H. unfold mbind, M_mbind, M_bind.
  destruct (m w) as [[[a|e] w1] t1]; [|done]. by rewrite H.
Qed.

Lemma for_each_ext {A} (l : list A) (f g : A -> M W unit) (w : W) :
  (forall a w1, f a w1 = g a w1) -> for_each l f w = for_each l g w.
Proof.
  intros H. revert w. induction l as [|x l IH]; intros w; simpl; [done|].
  unfold mbind, M_mbind, M_bind. rewrite H.
  destruct (g x w) as [[[a|e] w1] t1]; [|done]. by rewrite IH.
Qed.

Lemma for_each_Forall2 {A} (l l' : list A) (f g : A -> M W unit) (w : W) :
  Forall2 (fun x y => forall w1, f x w1 = g y w1) l l' ->
  for_each l f w = for_each l' g w.
Proof.
  intros H. revert w. induction H as [|x y l l' Hxy _ IH]; intros w; simpl; [done|].
  unfold mbind, M_mbind, M_bind. rewrite Hxy.
  destruct (g y w) as [[[a|e] w1] t1]; [|done]. by rewrite IH.
Qed.

Lemma bind_cong {A B} (m m' : M W A) (f g : A -> M W B) (w : W) :
  (forall w1, m w1 = m' w1) -> (forall a w1, f a w1 = g a w1) ->
  (m ≫= f) w = (m' ≫= g) w.
Proof.
  intros Hm H. unfold mbind, M_mbind, M_bind. rewrite Hm.
  destruct (m' w) as [[[a|e] w1] t1]; [|done]. by rewrite H.
Qed.

(** The body of the innermost loop is one run of the BOM generator, on
    the selector of the variant. *)
Lemma build_board_bom_run (board : Board) (xml : Path)
    (bom format variant sel fid ini : value) (w : W) :
  Py.getitem variant "variant" = Ok sel ->
  Py.getitem bom "file_id" = Ok fid ->
  Py.getitem bom "ini" = Ok ini ->
  build_board_bom sys board xml bom format variant w =
  run_kibom sys xml ini sel
    (assembly_dir board // Spec.bom_filename (name board) sel fid format) w.
Proof.
  intros Hsel Hfid Hini. unfold build_board_bom, Spec.bom_filename.
  rewrite Hsel, Hfid, Hini.
  unfold mbind, M_mbind, M_bind, lift, mret, M_mret, M_ret.
  destruct (Py.is_not_None sel); simpl.
  all: by destruct (run_kibom _ _ _ _ _ _) as [[r w1] t1].
Qed.

Lemma build_board_bom_selector (board : Board) (xml : Path)
    (bom format v v' : value) (w : W) :
  Py.getitem v "variant" = Py.getitem v' "variant" ->
  build_board_bom sys board xml bom format v w =
  build_board_bom sys board xml bom format v' w.
Proof. intros H. unfold build_board_bom. by rewrite H. Qed.

Lemma run_kibom_ok (xml out : Path) (ini sel : value) (w w' : W) (tr : list event)
    (fid format : value) :
  run_kibom sys xml ini sel out w = (Ok tt, w', tr) ->
  exists bom_dir,
    tr = Spec.kibom_events xml out
           {| Spec.ini := ini; Spec.file_id := fid; Spec.format := format;
              Spec.selector := sel |} bom_dir.
Proof.
  unfold run_kibom. intros H. run_inv H.
  lazymatch goal with
  | Hr : sys_resolve _ _ _ = (Ok ?d, _) |- _ => exists d
  end.
  unfold Spec.kibom_events, Spec.kibom_command.
  cbn [Spec.ini Spec.selector].
  destruct (Py.truthy sel); reflexivity.
Qed.

Lemma bom_trace_app (board : Board) (xml : Path) (rs1 rs2 : list Spec.run)
    (t1 t2 : list event) :
  Spec.bom_trace board xml rs1 t1 -> Spec.bom_trace board xml rs2 t2 ->
  Spec.bom_trace board xml (rs1 ++ rs2) (t1 ++ t2).
Proof.
  revert t1. induction rs1 as [|r rs1 IH]; intros t1; simpl.
  - by intros ->.
  - intros (d & tr' & -> & H1) H2. exists d, (tr' ++ t2).
    split; [reflexivity | by apply IH].
Qed.

Lemma bom_trace_calls (board : Board) (xml : Path) (rs : list Spec.run)
    (tr : list event) :
  Spec.bom_trace board xml rs tr ->
  length (List.filter Spec.is_call tr) = length rs.
Proof.
  revert tr. induction rs as [|r rs IH]; intros tr; simpl.
  - by intros ->.
  - intros (d & tr' & -> & H). simpl. by rewrite (IH _ H).
Qed.

Lemma variants_loop_ok (board : Board) (xml : Path) (bom format ini fid : value)
    (vs sels : list value) (w w' : W) (tr : list event) :
  Py.getitem bom "file_id" = Ok fid ->
  Py.getitem bom "ini" = Ok ini ->
  Forall2 (fun v sel => Py.getitem v "variant" = Ok sel) vs sels ->
  for_each vs (build_board_bom sys board xml bom format) w = (Ok tt, w', tr) ->
  Spec.bom_trace board xml
    (map (fun sel => {| Spec.ini := ini; Spec.file_id := fid; Spec.format := format;
                        Spec.selector := sel |}) sels) tr.
Proof.
  intros Hfid Hini Hvs. revert w tr.
  induction Hvs as [|v sel vs sels Hv _ IH]; intros w tr; simpl.
  - by intros (_ & _ & ->)%ret_ok.
  - intros H. run_inv H.
    rewrite (build_board_bom_run _ _ _ _ _ _ _ _ _ Hv Hfid Hini) in H0.
    apply (run_kibom_ok _ _ _ _ _ _ _ fid format) in H0 as (d & ->).
    exists d. eexists. split; [done|]. by eapply IH.
Qed.

Lemma selectors_iterate (declared : value) (sels : list value) :
  Spec.selectors_of declared sels ->
  exists vs,
    Py.iterate (if Py.truthy declared then declared else VList [no_variant]) = Ok vs /\
    Forall2 (fun v sel => Py.getitem v "variant" = Ok sel) vs sels.
Proof.
  intros [[-> ->]|(vs & -> & Hne & H)].
  - exists [no_variant]. split; [done|]. by repeat constructor.
  - exists vs. split; [|done]. by destruct vs.
Qed.

Lemma formats_loop_ok (board : Board) (xml : Path) (bom ini fid : value)
    (formats sels : list value) (w w' : W) (tr : list event) :
  Py.getitem bom "file_id" = Ok fid ->
  Py.getitem bom "ini" = Ok ini ->
  Spec.selectors_of (variants board) sels ->
  for_each formats (fun format =>
    variants ← lift (Py.iterate
      (if Py.truthy (variants board) then variants board else VList [no_variant]));
    for_each variants (build_board_bom sys board xml bom format)) w = (Ok tt, w', tr) ->
  Spec.bom_trace board xml
    (flat_map (fun format =>
       map (fun sel => {| Spec.ini := ini; Spec.file_id := fid; Spec.format := format;
                          Spec.selector := sel |}) sels) formats) tr.
Proof.
  intros Hfid Hini (vs & Hiter & Hvs)%selectors_iterate. rewrite Hiter.
  revert w tr. induction formats as [|format formats IH]; intros w tr; simpl.
  - by intros (_ & _ & ->)%ret_ok.
  - intros H. run_inv H. injection H1 as <-.
    apply bom_trace_app; [|by eapply IH].
    by eapply variants_loop_ok.
Qed.

Lemma boms_loop_ok (board : Board) (xml : Path) (boms : list value)
    (specs : list (value * list value * value)) (sels : list value)
    (w w' : W) (tr : list event) :
  Forall2 (fun bom (spec : value * list value * value) =>
             let '(ini, formats, file_id) := spec in
             Py.getitem bom "ini" = Ok ini /\
             Py.getitem bom "formats" = Ok (VList formats) /\
             Py.getitem bom "file_id" = Ok file_id) boms specs ->
  Spec.selectors_of (variants board) sels ->
  for_each boms (fun bom =>
    formats ← lift (Py.getitem bom "formats");
    formats ← lift (Py.iterate formats);
    for_each formats (fun format =>
      variants ← lift (Py.iterate
        (if Py.truthy (variants board) then variants board else VList [no_variant]));
      for_each variants (build_board_bom sys board xml bom format))) w = (Ok tt, w', tr) ->
  Spec.bom_trace board xml (Spec.runs specs sels) tr.
Proof.
  intros Hspecs Hsels. revert w tr.
  induction Hspecs as [|bom [[ini formats] fid] boms specs (Hini & Hformats & Hfid) _ IH];
    intros w tr; simpl.
  - by intros (_ & _ & ->)%ret_ok.
  - intros H. run_inv H. rewrite Hformats in H1. injection H1 as <-.
    simpl in H2. injection H2 as <-.
    apply bom_trace_app; [|by eapply IH].
    by eapply formats_loop_ok.
Qed.

(** [build_board] depends on the [variants] field through that loop only. *)
Lemma build_board_variants (board : Board) (settings v v' : value) :
  (forall xml bom format w,
     variants_loop sys board xml bom format v w
     = variants_loop sys board xml bom format v' w) ->
  forall w, build_board sys (set_variants board v) settings w
            = build_board sys (set_variants board v') settings w.
Proof.
  intros Hloop w. unfold build_board.
  do 8 (apply bind_ext; intros).
  apply bind_cong; [|intros; reflexivity].
  clear - Hloop. intros w1. unfold build_board_boms.
  do 3 (apply bind_ext; intros).
  apply for_each_ext; intros.
  do 2 (apply bind_ext; intros).
  apply for_each_ext; intros.
  apply Hloop.
Qed.

End Boms.


Lemma bom_filename_length (n sel fid format : value) :
  (2 <= String.length (Spec.bom_filename n sel fid format))%nat.
Proof.
  unfold Spec.bom_filename. destruct (Py.is_not_None sel).
  all: rewrite !length_append; simpl; lia.
Qed.

Lemma out_path_component (board : Board) (r : Spec.run) :
  let filename :=
    Spec.bom_filename (name board) (Spec.selector r) (Spec.file_id r) (Spec.format r) in
  Str.mem "/" filename = false ->
  pathlib.name (Spec.out_path board r) = filename /\
  pathlib.parent (Spec.out_path board r) = assembly_dir board.
Proof.
  intros filename Hsep. unfold Spec.out_path. fold filename.
  pose proof (bom_filename_length (name board) (Spec.selector r) (Spec.file_id r)
                (Spec.format r)) as Hlen. fold filename in Hlen.
  rewrite joinpath_component; [| done | |].
  - by rewrite name_make_child, parent_make_child.
  - intros E. rewrite E in Hlen. simpl in Hlen. lia.
  - intros E. rewrite E in Hlen. simpl in Hlen. lia.
Qed.

Lemma build_board_boms_ok {W : Type} (sys : System W) (board : Board)
    (settings outputs : value) (xml : Path) (boms : list value)
    (specs : list (value * list value * value)) (sels : list value)
    (w w' : W) (tr : list event) :
  Py.getitem settings "outputs" = Ok outputs ->
  Py.getitem outputs "kibom" = Ok (VList boms) ->
  Forall2 (fun bom (spec : value * list value * value) =>
             let '(ini, formats, file_id) := spec in
             Py.getitem bom "ini" = Ok ini /\
             Py.getitem bom "formats" = Ok (VList formats) /\
             Py.getitem bom "file_id" = Ok file_id) boms specs ->
  Spec.selectors_of (variants board) sels ->
  build_board_boms sys board settings xml w = (Ok tt, w', tr) ->
  Spec.bom_trace board xml (Spec.runs specs sels) tr.
Proof.
  intros Hout Hkibom Hspecs Hsels H. unfold build_board_boms in H.
  rewrite Hout in H. rewrite bind_lift_ok in H.
  rewrite Hkibom in H. rewrite bind_lift_ok in H. simpl in H.
  rewrite bind_lift_ok in H.
  by eapply boms_loop_ok.
Qed.

(** C2: in a BOM step that completes, the BOM generator is invoked
    exactly once per BOM spec, format and variant selector, in the order
    of the loop nest and with nothing else in between; the selectors are
    those of the declared variants, or the single implicit one when none
    is declared, which is passed to the generator by leaving [-r] out.
    Each invocation names its output [{board}-{variant?}-{file_id}.{format}]
    in the assembly directory.  Two variants and one spec with two formats
    give the four names of the scenario. *)
Theorem bom_step_invocations {W : Type} (sys : System W) (board : Board)
    (settings outputs : value) (xml : Path) (boms : list value)
    (specs : list (value * list value * value)) (sels : list value)
    (w w' : W) (tr : list event) :
  Py.getitem settings "outputs" = Ok outputs ->
  Py.getitem outputs "kibom" = Ok (VList boms) ->
  Forall2 (fun bom (spec : value * list value * value) =>
             let '(ini, formats, file_id) := spec in
             Py.getitem bom "ini" = Ok ini /\
             Py.getitem bom "formats" = Ok (VList formats) /\
             Py.getitem bom "file_id" = Ok file_id) boms specs ->
  Spec.selectors_of (variants board) sels ->
  build_board_boms sys board settings xml w = (Ok tt, w', tr) ->
  Spec.bom_trace board xml (Spec.runs specs sels) tr /\
  length (List.filter Spec.is_call tr) = length (Spec.runs specs sels) /\
  (forall r : Spec.run,
     let filename :=
       Spec.bom_filename (name board) (Spec.selector r) (Spec.file_id r) (Spec.format r) in
     Str.mem "/" filename = false ->
     pathlib.name (Spec.out_path board r) = filename /\
     pathlib.parent (Spec.out_path board r) = assembly_dir board) /\
  (forall (ini fid : value) (a b : string),
     specs = [(ini, [VStr "csv"; VStr "html"], fid)] ->
     sels = [VStr a; VStr b] ->
     map (fun r => Spec.bom_filename (name board) (Spec.selector r) (Spec.file_id r)
                     (Spec.format r)) (Spec.runs specs sels)
     = [Py.str (name board) +:+ "-" +:+ a +:+ "-" +:+ Py.str fid +:+ ".csv";
        Py.str (name board) +:+ "-" +:+ b +:+ "-" +:+ Py.str fid +:+ ".csv";
        Py.str (name board) +:+ "-" +:+ a +:+ "-" +:+ Py.str fid +:+ ".html";
        Py.str (name board) +:+ "-" +:+ b +:+ "-" +:+ Py.str fid +:+ ".html"]).
Proof.
  intros Hout Hkibom Hspecs Hsels H.
  pose proof (build_board_boms_ok _ _ _ _ _ _ _ _ _ _ _ Hout Hkibom Hspecs Hsels H) as Htr.
  split; [done|]. split; [by eapply bom_trace_calls|].
  split; [apply out_path_component|].
  by intros ini fid a b -> ->.
Qed.

Lemma bom_step_invocations_witness :
  let xml := build_dir Sample.descriptor // "Widget-bom.xml" in
  let m := build_board_boms Sim.system Sample.descriptor Sample.settings xml in
  m Sample.world = (Ok tt, Sample.world, trace_of m Sample.world) /\
  length (List.filter Spec.is_call (trace_of m Sample.world)) = 4%nat /\
  map (fun r => Spec.bom_filename (VStr "Widget") (Spec.selector r) (Spec.file_id r)
                  (Spec.format r))
      (Spec.runs [(VStr "bom.ini", [VStr "csv"; VStr "html"], VStr "bom")]
                 [VStr "A"; VStr "B"])
  = ["Widget-A-bom.csv"; "Widget-B-bom.csv"; "Widget-A-bom.html"; "Widget-B-bom.html"].
Proof.
  intros xml m.
  assert (m Sample.world = (Ok tt, Sample.world, trace_of m Sample.world)) as Hrun
    by reflexivity.
  split; [exact Hrun|].
  assert (Forall2 (fun bom (spec : value * list value * value) =>
             let '(ini, formats, file_id) := spec in
             Py.getitem bom "ini" = Ok ini /\
             Py.getitem bom "formats" = Ok (VList formats) /\
             Py.getitem bom "file_id" = Ok file_id)
            [Sample.kibom] [(VStr "bom.ini", [VStr "csv"; VStr "html"], VStr "bom")])
    as Hspecs by (repeat constructor).
  assert (Spec.selectors_of (variants Sample.descriptor) [VStr "A"; VStr "B"]) as Hsels.
  { right. eexists. split; [reflexivity|]. split; [discriminate|]. repeat constructor. }
  destruct (bom_step_invocations Sim.system Sample.descriptor Sample.settings
              Sample.outputs xml _ _ _ Sample.world Sample.world _
              eq_refl eq_refl Hspecs Hsels Hrun) as (_ & Hlen & _ & Hnames).
  split; [exact Hlen|].
  exact (Hnames (VStr "bom.ini") (VStr "bom") "A" "B" eq_refl eq_refl).
Defined.

(** C9: the body of the variant loop runs the BOM generator on the
    [variant] field of the variant and names the file after it; the
    [name] field is read nowhere: boards whose variants agree on the
    [variant] fields are built by the same run, whatever the world. *)
Theorem variant_name_unused {W : Type} (sys : System W) (board : Board)
    (settings : value) (vs vs' : list value) :
  Forall2 (fun v v' => Py.getitem v "variant" = Py.getitem v' "variant") vs vs' ->
  (forall w, build_board sys (set_variants board (VList vs)) settings w
             = build_board sys (set_variants board (VList vs')) settings w) /\
  (forall xml bom format v sel fid ini w,
     Py.getitem v "variant" = Ok sel ->
     Py.getitem bom "file_id" = Ok fid ->
     Py.getitem bom "ini" = Ok ini ->
     build_board_bom sys (set_variants board (VList vs)) xml bom format v w
     = run_kibom sys xml ini sel
         (assembly_dir board // Spec.bom_filename (name board) sel fid format) w).
Proof.
  intros Hvs. split.
  - apply build_board_variants. intros xml bom format w. unfold variants_loop.
    destruct Hvs as [|v v' vs vs' Hv Hvs]; [done|].
    cbn [Py.truthy Py.iterate]. rewrite !bind_lift_ok.
    apply for_each_Forall2. constructor.
    + intros w1. by apply build_board_bom_selector.
    + clear - Hvs. induction Hvs; constructor; [|done].
      intros w1. by apply build_board_bom_selector.
  - intros xml bom format v sel fid ini w Hsel Hfid Hini.
    by rewrite (build_board_bom_run sys _ xml bom format v sel fid ini w Hsel Hfid Hini).
Qed.

Lemma variant_name_unused_witness :
  let renamed := [VDict [("name", VStr "alpha"); ("variant", VStr "A")];
                  VDict [("variant", VStr "B")]] in
  Forall2 (fun v v' => Py.getitem v "variant" = Py.getitem v' "variant")
          [VDict [("name", VStr "first"); ("variant", VStr "A")];
           VDict [("name", VStr "second"); ("variant", VStr "B")]] renamed /\
  build_board Sim.system Sample.descriptor Sample.settings Sample.world
  = build_board Sim.system (set_variants Sample.descriptor (VList renamed))
                Sample.settings Sample.world.
Proof.
  intros renamed.
  assert (Forall2 (fun v v' => Py.getitem v "variant" = Py.getitem v' "variant")
          [VDict [("name", VStr "first"); ("variant", VStr "A")];
           VDict [("name", VStr "second"); ("variant", VStr "B")]] renamed) as H
    by (repeat constructor).
  split; [exact H|].
  exact (proj1 (variant_name_unused Sim.system Sample.descriptor Sample.settings _ _ H)
               Sample.world).
Defined.





(** ** The fabrication PDF *)

Lemma pdf_reads_app (t1 t2 : list event) :
  pdf_reads (t1 ++ t2) = pdf_reads t1 ++ pdf_reads t2.
Proof. apply flat_map_app. Qed.

Lemma pdf_writes_app (t1 t2 : list event) :
  pdf_writes (t1 ++ t2) = pdf_writes t1 ++ pdf_writes t2.
Proof. apply flat_map_app. Qed.

Section Fab.

Context {W : Type} (sys : System W).

Lemma mk_fab_pdf_body_ok (board : Board) (writer writer' : list page) (fab : value)
    (w w' : W) (tr : list event) :
  mk_fab_pdf_body sys board writer fab w = (Ok writer', w', tr) ->
  exists fab_name doc,
    Py.getitem fab "name" = Ok fab_name /\
    pdf_reads tr = [(build_dir board // (Py.str (name board) +:+ "-fab-"
                                         +:+ Py.str fab_name +:+ ".pdf"), doc)] /\
    pdf_writes tr = [] /\
    writer' = writer ++ doc.
Proof.
  unfold mk_fab_pdf_body. intros H. run_inv H.
  lazymatch goal with
  | Hn : Py.getitem fab "name" = Ok ?n, Hr : sys_pdf_read _ _ _ = (Ok ?doc, _) |- _ =>
      exists n, doc
  end.
  done.
Qed.

Lemma fab_loop_ok (board : Board) (fabs : list value) (acc writer : list page)
    (w w' : W) (tr : list event) :
  fold_each fabs (mk_fab_pdf_body sys board) acc w = (Ok writer, w', tr) ->
  Forall2 (fun fab (rd : Path * list page) =>
             exists fab_name,
               Py.getitem fab "name" = Ok fab_name /\
               fst rd = build_dir board // (Py.str (name board) +:+ "-fab-"
                                            +:+ Py.str fab_name +:+ ".pdf"))
          fabs (pdf_reads tr) /\
  pdf_writes tr = [] /\
  writer = acc ++ concat (map snd (pdf_reads tr)).
Proof.
  revert acc w tr. induction fabs as [|fab fabs IH]; intros acc w tr; simpl.
  - intros (-> & _ & ->)%ret_ok. simpl. by rewrite app_nil_r.
  - intros (acc' & w1 & t1 & t2 & Hbody & H & ->)%bind_ok.
    apply mk_fab_pdf_body_ok in Hbody as (fab_name & doc & Hname & Hreads & Hwrites & ->).
    apply IH in H as (Hall & Hw & ->).
    rewrite pdf_reads_app, pdf_writes_app, Hreads, Hwrites, Hw. simpl.
    split; [|by rewrite <- app_assoc].
    constructor; [by exists fab_name | done].
Qed.

End Fab.

Lemma length_concat_sum {A} (l : list (list A)) :
  length (concat l) = list_sum (map (@length A) l).
Proof. induction l as [|x l IH]; simpl; [done|]. by rewrite length_app, IH. Qed.

(** C7: in a run of [mk_fab_pdf] that completes, one document is read
    per fabrication spec, in the configured order, each from the file
    exported for that spec; exactly one document is written, to the
    output file, and its pages are the pages of the documents read, all
    pages of a document in order before those of the next.  Its page
    count is the sum of their page counts. *)
Theorem mk_fab_pdf_pages {W : Type} (sys : System W) (board : Board)
    (settings outputs : value) (fabs : list value) (fab_filename : Path)
    (w w' : W) (tr : list event) :
  Py.getitem settings "outputs" = Ok outputs ->
  Py.getitem outputs "fab" = Ok (VList fabs) ->
  mk_fab_pdf sys board settings fab_filename w = (Ok tt, w', tr) ->
  Forall2 (fun fab (rd : Path * list page) =>
             exists fab_name,
               Py.getitem fab "name" = Ok fab_name /\
               fst rd = build_dir board // (Py.str (name board) +:+ "-fab-"
                                            +:+ Py.str fab_name +:+ ".pdf"))
          fabs (pdf_reads tr) /\
  pdf_writes tr = [(fab_filename, concat (map snd (pdf_reads tr)))] /\
  length (concat (map snd (pdf_reads tr)))
  = list_sum (map (fun rd => length (snd rd)) (pdf_reads tr)).
Proof.
  intros Hout Hfab H. unfold mk_fab_pdf in H.
  apply bind_ok in H as ([] & w0 & t0 & t3 & Hprint & H & ->).
  apply print_ok in Hprint as [-> ->].
  rewrite Hout, bind_lift_ok, Hfab, bind_lift_ok in H. cbn [Py.iterate] in H.
  rewrite bind_lift_ok in H. run_inv H.
  apply finally_ok in H as (wf & tf1 & tf2 & Hwrite & Hclose & ->).
  apply perform_ok in Hwrite as [Hwrite ->].
  apply perform_ok in Hclose as [Hclose ->].
  lazymatch goal with
  | Hloop : fold_each _ _ _ _ = _ |- _ =>
      apply fab_loop_ok in Hloop as (Hall & Hw & ->)
  end.
  rewrite !pdf_reads_app, !pdf_writes_app, Hw. simpl. rewrite !app_nil_r.
  split; [done|]. split; [done|].
  rewrite length_concat_sum. by rewrite map_map.
Qed.

Lemma mk_fab_pdf_pages_witness :
  let out := assembly_dir Sample.descriptor // "Widget-fab.pdf" in
  let m := mk_fab_pdf Sim.system Sample.descriptor Sample.settings out in
  m Sample.world = (Ok tt, world_of m Sample.world, trace_of m Sample.world) /\
  pdf_writes (trace_of m Sample.world)
  = [(out, [Page "top 1"; Page "top 2"; Page "bottom 1"])].
Proof.
  intros out m.
  assert (m Sample.world = (Ok tt, world_of m Sample.world, trace_of m Sample.world)) as Hrun
    by reflexivity.
  split; [exact Hrun|].
  exact (proj1 (proj2 (mk_fab_pdf_pages Sim.system Sample.descriptor Sample.settings
                         Sample.outputs _ out Sample.world _ _
                         eq_refl eq_refl Hrun))).
Defined.

(** ** Failures *)

Section Failures.

Context {W : Type} (sys : System W).

Lemma bind_ret_r (m : M W unit) (w : W) : (m ;; mret tt) w = m w.
Proof.
  unfold mbind, M_mbind, M_bind.
  destruct (m w) as [[[[]|e] w1] t1]; [|done]. cbn. by rewrite app_nil_r.
Qed.

Lemma bind_assoc {A B C} (m : M W A) (f : A -> M W B) (g : B -> M W C) (w : W) :
  ((m ≫= f) ≫= g) w = (m ≫= (fun a => f a ≫= g)) w.
Proof.
  unfold mbind, M_mbind, M_bind.
  destruct (m w) as [[[a|e] w1] t1]; [|done].
  destruct (f a w1) as [[[b|e] w2] t2]; [|done].
  destruct (g b w2) as [[r w3] t3]. by rewrite app_assoc.
Qed.

Lemma run_steps_app (l1 l2 : list (M W unit)) (w : W) :
  run_steps (l1 ++ l2) w = (run_steps l1 ;; run_steps l2) w.
Proof.
  revert w. induction l1 as [|s l1 IH]; intros w; simpl.
  - by rewrite bind_ret.
  - rewrite bind_assoc. apply bind_ext. intros [] w1. apply IH.
Qed.

Lemma build_board_run_steps (board : Board) (settings : value) (w : W) :
  build_board sys board settings w = run_steps (build_board_steps sys board settings) w.
Proof.
  unfold build_board, build_board_steps, steps_before_gerber, steps_after_gerber.
  cbn [app run_steps]. rewrite bind_assoc.
  do 12 (apply bind_ext; intros).
  by rewrite bind_ret_r.
Qed.

(** A step that raises ends the sequence: the steps after it leave no
    trace and the exception is the result. *)
Lemma run_steps_abort (pre post : list (M W unit)) (step : M W unit)
    (w w1 w2 : W) (t1 t2 : list event) (e : exn) :
  run_steps pre w = (Ok tt, w1, t1) ->
  step w1 = (Raise e, w2, t2) ->
  run_steps (pre ++ step :: post) w = (Raise e, w2, t1 ++ t2).
Proof.
  intros Hpre Hstep. rewrite run_steps_app.
  rewrite (bind_run_ok _ _ _ _ _ _ Hpre). cbn [run_steps].
  by rewrite (bind_run_raise _ _ _ _ _ _ Hstep).
Qed.

Lemma for_each_abort {A} (pre post : list A) (x : A) (body : A -> M W unit)
    (w w1 w2 : W) (t1 t2 : list event) (e : exn) :
  for_each pre body w = (Ok tt, w1, t1) ->
  body x w1 = (Raise e, w2, t2) ->
  for_each (pre ++ x :: post) body w = (Raise e, w2, t1 ++ t2).
Proof.
  revert w t1. induction pre as [|y pre IH]; intros w t1; simpl.
  - intros (_ & -> & ->)%ret_ok Hx. by rewrite (bind_run_raise _ _ _ _ _ _ Hx).
  - intros ([] & w0 & t0 & t3 & Hy & Hpre & ->)%bind_ok Hx.
    rewrite (bind_run_ok _ _ _ _ _ _ Hy).
    rewrite (IH _ _ Hpre Hx). by rewrite app_assoc.
Qed.

Lemma mk_gerber_fails (board : Board) (w1 w2 w3 : W) (rc : Z) :
  sys_makedirs sys (gerber_dir board) w1 = (Ok tt, w2) ->
  sys_call sys (gerbers_command board) w2 = (Ok rc, w3) ->
  rc <> 0 ->
  mk_gerber sys (kicad_pcb board) (gerber_dir board) w1
  = (Raise (CalledProcessError rc (gerbers_command board)), w3,
     [EvPrint "--- Generating gerber files";
      EvMakedirs (gerber_dir board) (Ok tt);
      EvCall (gerbers_command board) (Ok rc)]).
Proof.
  intros Hmk Hcall Hrc. unfold mk_gerber, check_call, perform, print.
  unfold mbind, M_mbind, M_bind. cbn [forallb path_like andb].
  fold (gerbers_command board). rewrite Hmk, Hcall.
  destruct (Z.eqb_spec rc 0); [done|]. reflexivity.
Qed.

Lemma steps_before_gerber_trace (board : Board) (w w1 : W) (t1 : list event) :
  run_steps (steps_before_gerber sys board) w = (Ok tt, w1, t1) ->
  Forall (before_gerber (schematic_command board)) t1.
Proof.
  unfold steps_before_gerber, run_steps, read_version, mk_schematic_pdf.
  intros H. run_inv H. repeat constructor.
Qed.

End Failures.

(** C3: a step of [build_board] that raises ends the build with that
    exception: the trace stops with the events of that step, once, and
    the exception is the result, uncaught.  In particular a non-zero exit
    status of the Gerber export ends the build after that command, with
    only the version, the directories and the schematic export before
    it: no archive is opened and no later tool runs.  A board whose
    descriptor or build raises ends [main] with that exception, and the
    boards after it leave no event. *)
Theorem failure_aborts_run {W : Type} (sys : System W) (board : Board)
    (settings : value) :
  (forall pre step post w w1 t1 e w2 t2,
     build_board_steps sys board settings = pre ++ step :: post ->
     run_steps pre w = (Ok tt, w1, t1) ->
     step w1 = (Raise e, w2, t2) ->
     build_board sys board settings w = (Raise e, w2, t1 ++ t2)) /\
  (forall w w1 t1 w2 w3 rc,
     run_steps (steps_before_gerber sys board) w = (Ok tt, w1, t1) ->
     sys_makedirs sys (gerber_dir board) w1 = (Ok tt, w2) ->
     sys_call sys (gerbers_command board) w2 = (Ok rc, w3) ->
     rc <> 0 ->
     build_board sys board settings w
     = (Raise (CalledProcessError rc (gerbers_command board)), w3,
        t1 ++ [EvPrint "--- Generating gerber files";
               EvMakedirs (gerber_dir board) (Ok tt);
               EvCall (gerbers_command board) (Ok rc)]) /\
     Forall (before_gerber (schematic_command board)) t1) /\
  (forall argv config_file config boards_settings pre failing post w w0 w1 t1 e w2 t2,
     argv !! 1%nat = Some config_file ->
     sys_load_yaml sys (VStr config_file) w = (Ok config, w0) ->
     Py.getitem config "settings" = Ok boards_settings ->
     Py.getitem config "boards" = Ok (VList (pre ++ failing :: post)) ->
     for_each pre (main_body sys boards_settings) w0 = (Ok tt, w1, t1) ->
     main_body sys boards_settings failing w1 = (Raise e, w2, t2) ->
     main sys argv w
     = (Raise e, w2, EvLoadYaml (VStr config_file) (Ok config) :: t1 ++ t2)).
Proof.
  split; [|split].
  - intros pre step post w w1 t1 e w2 t2 Hsteps Hpre Hstep.
    rewrite build_board_run_steps, Hsteps. by eapply run_steps_abort.
  - intros w w1 t1 w2 w3 rc Hpre Hmk Hcall Hrc.
    split; [|exact (steps_before_gerber_trace sys board w w1 t1 Hpre)].
    rewrite build_board_run_steps. unfold build_board_steps.
    eapply run_steps_abort; [exact Hpre|]. by eapply mk_gerber_fails.
  - intros argv config_file config boards_settings pre failing post w w0 w1 t1 e w2 t2
      Hargv Hload Hsettings Hboards Hpre Hfail.
    unfold main. rewrite Hargv.
    assert (perform (sys_load_yaml sys (VStr config_file)) (EvLoadYaml (VStr config_file)) w
            = (Ok config, w0, [EvLoadYaml (VStr config_file) (Ok config)])) as Hperform
      by (unfold perform; by rewrite Hload).
    rewrite (bind_run_ok _ _ _ _ _ _ Hperform).
    rewrite Hsettings, bind_lift_ok, Hboards, bind_lift_ok. cbn [Py.iterate].
    rewrite bind_lift_ok.
    change (fun board : value => b ← lift (from_yaml board boards_settings);
                                 build_board sys b boards_settings)
      with (main_body sys boards_settings).
    by rewrite (for_each_abort pre post failing _ _ _ _ _ _ _ Hpre Hfail).
Qed.

Lemma failure_aborts_run_witness :
  let before := run_steps (steps_before_gerber Sim.system Sample.descriptor) in
  let cmd := gerbers_command Sample.descriptor in
  before Sample.world_gerber_fails
  = (Ok tt, Sample.world_gerber_fails, trace_of before Sample.world_gerber_fails) /\
  Sim.status Sample.world_gerber_fails cmd = 1 /\
  build_board Sim.system Sample.descriptor Sample.settings Sample.world_gerber_fails
  = (Raise (CalledProcessError 1 cmd), Sample.world_gerber_fails,
     trace_of before Sample.world_gerber_fails
     ++ [EvPrint "--- Generating gerber files";
         EvMakedirs (gerber_dir Sample.descriptor) (Ok tt);
         EvCall cmd (Ok 1)]).
Proof.
  intros before cmd.
  assert (before Sample.world_gerber_fails
          = (Ok tt, Sample.world_gerber_fails, trace_of before Sample.world_gerber_fails))
    as Hbefore by reflexivity.
  split; [exact Hbefore|]. split; [reflexivity|].
  refine (proj1 (proj1 (proj2 (failure_aborts_run Sim.system Sample.descriptor
                                 Sample.settings))
                   Sample.world_gerber_fails Sample.world_gerber_fails _
                   Sample.world_gerber_fails Sample.world_gerber_fails 1
                   Hbefore eq_refl eq_refl _)).
  discriminate.
Defined.

(** ** Reading back what the csv writer wrote *)

Import Records.

Lemma Reader_rows_char (self : csv.ReaderObj) (c : ascii) (l : string) (rest : list string) :
  csv.Reader_rows self (String c l :: rest) =
  match csv.parse_process_char self (csv.Ch c) with
  | Ok self' => csv.Reader_rows self' (l :: rest)
  | Raise e => ([], Some e)
  end.
Proof.
  cbn [csv.Reader_rows csv.process_line].
  by destruct (csv.parse_process_char self (csv.Ch c)).
Qed.

Lemma Reader_rows_eol (self : csv.ReaderObj) (rest : list string) :
  csv.Reader_rows self ("" :: rest) =
  match csv.parse_process_char self csv.EOL with
  | Ok self' =>
      if bool_decide (csv.state self' = csv.START_RECORD)
      then let '(rows, e) := csv.Reader_rows csv.parse_reset rest in
           (csv.fields self' :: rows, e)
      else csv.Reader_rows self' rest
  | Raise e => ([], Some e)
  end.
Proof. reflexivity. Qed.

Lemma lines_LF (r : string) :
  io.lines (String csv.LF r) = String csv.LF "" :: io.lines r.
Proof. reflexivity. Qed.

Lemma lines_char (c : ascii) (r : string) :
  c <> csv.LF -> r <> "" ->
  exists l ls, io.lines r = l :: ls /\ io.lines (String c r) = String c l :: ls.
Proof.
  intros Hc Hr. cbn [io.lines].
  apply eqb_ascii_false in Hc. rewrite Hc.
  destruct r as [|d r]; [done|].
  destruct (io.lines (String d r)) as [|l ls] eqn:E.
  - exfalso. cbn [io.lines] in E. destruct (Str.eqb_ascii d csv.LF); [done|].
    by destruct (io.lines r).
  - by exists l, ls.
Qed.

(** One character that is not LF and is not the last of the text. *)
Lemma read_char (self : csv.ReaderObj) (c : ascii) (r : string) :
  c <> csv.LF -> r <> "" ->
  read self (String c r) =
  match csv.parse_process_char self (csv.Ch c) with
  | Ok self' => read self' r
  | Raise e => ([], Some e)
  end.
Proof.
  intros Hc Hr. unfold read.
  destruct (lines_char c r Hc Hr) as (l & ls & -> & ->).
  apply Reader_rows_char.
Qed.

(** LF ends a line: the end-of-line mark follows it. *)
Lemma read_LF (self : csv.ReaderObj) (r : string) :
  read self (String csv.LF r) =
  match csv.parse_process_char self (csv.Ch csv.LF) with
  | Ok self1 =>
      match csv.parse_process_char self1 csv.EOL with
      | Ok self2 =>
          if bool_decide (csv.state self2 = csv.START_RECORD)
          then yield (csv.fields self2) r
          else read self2 r
      | Raise e => ([], Some e)
      end
  | Raise e => ([], Some e)
  end.
Proof.
  unfold read, yield, read. rewrite lines_LF, Reader_rows_char.
  destruct (csv.parse_process_char self (csv.Ch csv.LF)) as [self1|e]; [|done].
  by rewrite Reader_rows_eol.
Qed.

(** *** Transitions of the parser *)

Lemma needs_quote_false (c : ascii) :
  csv.needs_quote c = false ->
  Str.eqb_ascii c csv.delimiter = false /\ Str.eqb_ascii c csv.quotechar = false /\
  Str.eqb_ascii c csv.CR = false /\ Str.eqb_ascii c csv.LF = false.
Proof.
  unfold csv.needs_quote, csv.lineterminator. cbn [Str.mem].
  rewrite !orb_false_iff. intuition.
Qed.

Lemma add_char_ok (s : csv.ParserState) (fs : list string) (buf : string) (c : ascii) :
  Z.of_nat (String.length buf) < csv.field_limit ->
  csv.parse_add_char (st s fs buf) c = Ok (st s fs (buf +:+ String c "")).
Proof.
  intros H. unfold csv.parse_add_char, st. cbn [csv.field csv.state csv.fields].
  destruct (Z.leb_spec csv.field_limit (Z.of_nat (String.length buf))); [lia|done].
Qed.

Lemma in_field_char (fs : list string) (buf : string) (c : ascii) :
  Str.eqb_ascii c csv.delimiter = false -> Str.eqb_ascii c csv.CR = false ->
  Str.eqb_ascii c csv.LF = false ->
  Z.of_nat (String.length buf) < csv.field_limit ->
  csv.parse_process_char (st csv.IN_FIELD fs buf) (csv.Ch c)
  = Ok (st csv.IN_FIELD fs (buf +:+ String c "")).
Proof.
  intros Hd Hcr Hlf Hlen. unfold csv.parse_process_char.
  cbn [st csv.state csv.is_newline csv.is_EOL csv.is_char csv.add_input].
  rewrite Hd, Hcr, Hlf. cbn [orb]. by apply add_char_ok.
Qed.

Lemma start_field_char (s : csv.ParserState) (fs : list string) (c : ascii) :
  s = csv.START_FIELD \/ s = csv.START_RECORD ->
  Str.eqb_ascii c csv.delimiter = false -> Str.eqb_ascii c csv.quotechar = false ->
  Str.eqb_ascii c csv.CR = false -> Str.eqb_ascii c csv.LF = false ->
  csv.parse_process_char (st s fs "") (csv.Ch c)
  = Ok (st csv.IN_FIELD fs (String c "")).
Proof.
  intros Hs Hd Hq Hcr Hlf. unfold csv.parse_process_char, csv.start_field.
  destruct Hs as [-> | ->];
    cbn [st csv.state csv.is_newline csv.is_EOL csv.is_char csv.add_input csv.set_state
         csv.fields csv.field];
    rewrite ?Hd, ?Hq, ?Hcr, ?Hlf; cbn [orb]; reflexivity.
Qed.

Lemma start_field_quote (s : csv.ParserState) (fs : list string) :
  s = csv.START_FIELD \/ s = csv.START_RECORD ->
  csv.parse_process_char (st s fs "") (csv.Ch csv.quotechar)
  = Ok (st csv.IN_QUOTED_FIELD fs "").
Proof. by intros [-> | ->]. Qed.

Lemma quoted_char (fs : list string) (buf : string) (c : ascii) :
  Str.eqb_ascii c csv.quotechar = false ->
  Z.of_nat (String.length buf) < csv.field_limit ->
  csv.parse_process_char (st csv.IN_QUOTED_FIELD fs buf) (csv.Ch c)
  = Ok (st csv.IN_QUOTED_FIELD fs (buf +:+ String c "")).
Proof.
  intros Hq Hlen. unfold csv.parse_process_char.
  cbn [st csv.state csv.is_newline csv.is_EOL csv.is_char csv.add_input].
  rewrite Hq. by apply add_char_ok.
Qed.

Lemma quoted_quote_quote (fs : list string) (buf : string) :
  Z.of_nat (String.length buf) < csv.field_limit ->
  csv.parse_process_char (st csv.QUOTE_IN_QUOTED_FIELD fs buf) (csv.Ch csv.quotechar)
  = Ok (st csv.IN_QUOTED_FIELD fs (buf +:+ String csv.quotechar "")).
Proof.
  intros Hlen. unfold csv.parse_process_char.
  cbn [st csv.state csv.is_newline csv.is_EOL csv.is_char csv.add_input].
  replace (Str.eqb_ascii csv.quotechar csv.quotechar) with true by reflexivity.
  rewrite add_char_ok by done. reflexivity.
Qed.

(** *** Reading back one field *)

Lemma append_assoc (a b c : string) : (a +:+ b) +:+ c = a +:+ (b +:+ c).
Proof. induction a as [|x a IH]; simpl; [done | by rewrite IH]. Qed.

Lemma append_nil_r (a : string) : a +:+ "" = a.
Proof. induction a as [|x a IH]; simpl; [done | by rewrite IH]. Qed.

Lemma after_delimiter (s : csv.ParserState) (fs : list string) (buf : string)
    (d : ascii) (rest : string) :
  s = csv.IN_FIELD \/ s = csv.QUOTE_IN_QUOTED_FIELD ->
  d = csv.delimiter /\ rest <> "" \/ d = csv.LF ->
  read (st s fs buf) (String d rest) = after d (fs ++ [buf]) rest.
Proof.
  intros Hs [[-> Hrest]| ->].
  - rewrite read_char by done. by destruct Hs as [-> | ->].
  - rewrite read_LF. by destruct Hs as [-> | ->].
Qed.

Lemma read_unquoted (fs : list string) (f buf : string) (d : ascii) (rest : string) :
  csv.any_needs_quote f = false ->
  Z.of_nat (String.length buf + String.length f) <= csv.field_limit ->
  d = csv.delimiter /\ rest <> "" \/ d = csv.LF ->
  read (st csv.IN_FIELD fs buf) (f +:+ String d rest) = after d (fs ++ [buf +:+ f]) rest.
Proof.
  revert buf. induction f as [|c f IH]; intros buf Hq Hlen Hd.
  - rewrite append_nil_r. cbn [String.append]. apply after_delimiter; auto.
  - cbn [csv.any_needs_quote] in Hq. apply orb_false_iff in Hq as [Hc Hq].
    apply needs_quote_false in Hc as (Hcd & Hcq & Hccr & Hclf).
    cbn [String.append String.length] in *.
    rewrite read_char; [| by apply eqb_ascii_false | by destruct f].
    rewrite in_field_char by (done || lia).
    rewrite IH; [| done | rewrite length_append; simpl; lia | done].
    by rewrite append_assoc.
Qed.

Lemma read_quoted (fs : list string) (f buf : string) (d : ascii) (rest : string) :
  Z.of_nat (String.length buf + String.length f) <= csv.field_limit ->
  d = csv.delimiter /\ rest <> "" \/ d = csv.LF ->
  read (st csv.IN_QUOTED_FIELD fs buf)
       (csv.double_quotes f +:+ String csv.quotechar (String d rest))
  = after d (fs ++ [buf +:+ f]) rest.
Proof.
  revert buf. induction f as [|c f IH]; intros buf Hlen Hd.
  - rewrite append_nil_r. cbn [csv.double_quotes String.append].
    rewrite read_char by done.
    replace (csv.parse_process_char (st csv.IN_QUOTED_FIELD fs buf) (csv.Ch csv.quotechar))
      with (Ok (st csv.QUOTE_IN_QUOTED_FIELD fs buf)) by reflexivity.
    apply after_delimiter; auto.
  - cbn [csv.double_quotes String.length] in *.
    assert (forall f0 : string,
              read (st csv.IN_QUOTED_FIELD fs (buf +:+ String c ""))
                   (csv.double_quotes f +:+ String csv.quotechar (String d rest))
              = after d (fs ++ [buf +:+ String c f]) rest) as Hnext.
    { intros _. rewrite IH; [| rewrite length_append; simpl; lia | done].
      by rewrite append_assoc. }
    destruct (Str.eqb_ascii c csv.quotechar) eqn:Hq.
    + apply eqb_ascii_true in Hq as ->. cbn [String.append].
      rewrite read_char by done.
      replace (csv.parse_process_char (st csv.IN_QUOTED_FIELD fs buf)
                 (csv.Ch csv.quotechar))
        with (Ok (st csv.QUOTE_IN_QUOTED_FIELD fs buf)) by reflexivity.
      rewrite read_char; [| done | by destruct (csv.double_quotes f)].
      rewrite quoted_quote_quote by lia. by apply Hnext.
    + cbn [String.append].
      destruct (Str.eqb_ascii c csv.LF) eqn:Hlf.
      * apply eqb_ascii_true in Hlf as ->. rewrite read_LF.
        rewrite quoted_char by (done || lia).
        replace (csv.parse_process_char
                   (st csv.IN_QUOTED_FIELD fs (buf +:+ String csv.LF "")) csv.EOL)
          with (Ok (st csv.IN_QUOTED_FIELD fs (buf +:+ String csv.LF ""))) by reflexivity.
        cbn [st csv.state]. rewrite bool_decide_eq_false_2 by done. by apply Hnext.
      * rewrite read_char; [| by apply eqb_ascii_false | by destruct (csv.double_quotes f)].
        rewrite quoted_char by (done || lia). by apply Hnext.
Qed.

(** A field as the writer emits it, read from the start of a field. *)
Lemma read_field (s : csv.ParserState) (fs : list string) (f : string) (d : ascii)
    (rest : string) :
  s = csv.START_FIELD \/ s = csv.START_RECORD ->
  Z.of_nat (String.length f) <= csv.field_limit ->
  d = csv.delimiter /\ rest <> "" \/ d = csv.LF ->
  f <> "" ->
  read (st s fs "") (encode_field f +:+ String d rest) = after d (fs ++ [f]) rest.
Proof.
  intros Hs Hlen Hd Hf. unfold encode_field.
  destruct (csv.any_needs_quote f) eqn:Hq.
  - cbn [String.append]. rewrite read_char; [| done | by destruct (csv.double_quotes f)].
    rewrite start_field_quote by done. rewrite append_assoc. cbn [String.append].
    by rewrite read_quoted.
  - destruct f as [|c f]; [done|].
    cbn [csv.any_needs_quote] in Hq. apply orb_false_iff in Hq as [Hc Hq].
    apply needs_quote_false in Hc as (Hcd & Hcq & Hccr & Hclf).
    cbn [String.append String.length] in *.
    rewrite read_char; [| by apply eqb_ascii_false | by destruct f].
    rewrite start_field_char by done.
    rewrite read_unquoted; [done | done | simpl; lia | done].
Qed.

(** *** Reading back one record *)

Lemma append_cons_ne (a : string) (c : ascii) (b : string) : a +:+ String c b <> "".
Proof. by destruct a. Qed.

Lemma read_empty_field (s : csv.ParserState) (fs : list string) (rest : string) :
  s = csv.START_FIELD \/ s = csv.START_RECORD -> rest <> "" ->
  read (st s fs "") (String csv.delimiter rest) = read (st csv.START_FIELD (fs ++ [""]) "") rest.
Proof. intros Hs Hrest. rewrite read_char by done. by destruct Hs as [-> | ->]. Qed.

Lemma read_last_empty_field (fs : list string) (rest : string) :
  read (st csv.START_FIELD fs "") (String csv.LF rest) = yield (fs ++ [""]) rest.
Proof. by rewrite read_LF. Qed.

Lemma read_fields (more : list string) (f : string) (fs : list string)
    (s : csv.ParserState) (n : nat) (rest : string) :
  s = csv.START_FIELD \/ s = csv.START_RECORD /\ (f <> "" \/ more <> []) ->
  Forall fits (f :: more) ->
  read (st s fs "") (encode_field f +:+ join_fields (S n) more +:+ String csv.LF rest)
  = yield (fs ++ f :: more) rest.
Proof.
  revert f fs s n. induction more as [|g more IH]; intros f fs s n Hs Hfit.
  - cbn [join_fields String.append].
    destruct (String.eqb_spec f "") as [-> | Hf].
    + destruct Hs as [-> | [_ [? | ?]]]; [|done..]. apply read_last_empty_field.
    + rewrite read_field; [| tauto | by inversion Hfit | by right | done].
      unfold after. by replace (Str.eqb_ascii csv.LF csv.delimiter) with false by reflexivity.
  - cbn [join_fields]. replace (0 <? S n)%nat with true by reflexivity.
    rewrite !append_assoc. cbn [String.append].
    assert (forall s0, s0 = csv.START_FIELD \/ s0 = csv.START_RECORD ->
              read (st csv.START_FIELD (fs ++ [f]) "")
                (encode_field g +:+ join_fields (S (S n)) more +:+ String csv.LF rest)
              = yield (fs ++ f :: g :: more) rest) as Hnext.
    { intros _ _. rewrite IH; [| by left | by inversion Hfit].
      by rewrite <- app_assoc. }
    assert (encode_field g +:+ join_fields (S (S n)) more +:+ String csv.LF rest <> "")
      as Hne.
    { rewrite <- append_assoc. apply append_cons_ne. }
    destruct (String.eqb_spec f "") as [-> | Hf].
    + cbn [encode_field csv.any_needs_quote String.append]. unfold encode_field at 1.
      cbn [csv.any_needs_quote String.append].
      rewrite read_empty_field; [| tauto | done]. eapply Hnext; eauto.
    + rewrite read_field; [| tauto | by inversion Hfit | by left | done].
      unfold after. replace (Str.eqb_ascii csv.delimiter csv.delimiter) with true
        by reflexivity.
      eapply Hnext; eauto.
Qed.

Lemma read_record (row : list string) (rest : string) :
  Forall fits row ->
  read csv.parse_reset (record_text row +:+ String csv.LF rest) = yield row rest.
Proof.
  intros Hfit. change csv.parse_reset with (st csv.START_RECORD [] "").
  destruct row as [|f [|g more]].
  - cbn [record_text join_fields String.append]. by rewrite read_LF.
  - cbn [record_text]. destruct (String.eqb_spec f "") as [-> | Hf].
    + cbn [String.append]. rewrite read_char by done.
      rewrite start_field_quote by auto.
      change (String csv.quotechar (String csv.LF rest))
        with (csv.double_quotes "" +:+ String csv.quotechar (String csv.LF rest)).
      rewrite read_quoted; [| by cbv | by right].
      unfold after. by replace (Str.eqb_ascii csv.LF csv.delimiter) with false by reflexivity.
    + rewrite read_field; [| auto | by inversion Hfit | by right | done].
      unfold after. by replace (Str.eqb_ascii csv.LF csv.delimiter) with false by reflexivity.
  - cbn [record_text]. change (join_fields 0 (f :: g :: more))
      with (encode_field f +:+ join_fields 1 (g :: more)).
    rewrite append_assoc.
    rewrite read_fields; [done | right; split; [done | by right] | done].
Qed.

(** *** The writer *)

Lemma join_append_encode (self : csv.WriterObj) (f : string) :
  csv.join_append self f false
  = {| csv.rec := csv.rec self
                  +:+ (if (0 <? csv.num_fields self)%nat then String csv.delimiter "" else "")
                  +:+ encode_field f;
       csv.num_fields := S (csv.num_fields self) |}.
Proof. unfold csv.join_append, encode_field. cbn [orb]. reflexivity. Qed.

Lemma fold_join_append (row : list string) (a : string) (n : nat) :
  fold_left (fun w f => csv.join_append w f false) row
            {| csv.rec := a; csv.num_fields := n |}
  = {| csv.rec := a +:+ join_fields n row; csv.num_fields := n + length row |}.
Proof.
  revert a n. induction row as [|f row IH]; intros a n; cbn [fold_left join_fields length].
  - by rewrite append_nil_r, Nat.add_0_r.
  - rewrite join_append_encode. cbn [csv.rec csv.num_fields]. rewrite IH.
    f_equal; [by rewrite !append_assoc | lia].
Qed.

Lemma encode_field_empty (f : string) : encode_field f = "" -> f = "".
Proof. unfold encode_field. by destruct (csv.any_needs_quote f). Qed.

Lemma writerow_record_text (row : list string) :
  csv.writerow row = record_text row +:+ csv.lineterminator.
Proof.
  unfold csv.writerow, csv.join_reset. rewrite fold_join_append.
  cbn [csv.rec csv.num_fields String.append Nat.add].
  destruct row as [|f [|g more]].
  - reflexivity.
  - cbn [length join_fields record_text Nat.ltb Nat.leb String.append andb].
    rewrite append_nil_r.
    destruct (String.eqb_spec f "") as [-> | Hf]; [reflexivity|].
    destruct (String.eqb_spec (encode_field f) "") as [E | E]; [|done].
    by apply encode_field_empty in E.
  - cbn [length Nat.ltb Nat.leb andb record_text].
    destruct (String.eqb_spec (join_fields 0 (f :: g :: more)) "") as [E | E]; [|done].
    exfalso. cbn [join_fields String.append] in E. revert E.
    replace (0 <? 1)%nat with true by reflexivity.
    rewrite <- append_assoc. apply append_cons_ne.
Qed.

(** *** Newlines *)

Lemma universal_newlines_append (a b : string) :
  Str.mem csv.CR a = false ->
  io.universal_newlines (a +:+ b) = a +:+ io.universal_newlines b.
Proof.
  induction a as [|c a IH]; [done|]. cbn [Str.mem].
  intros [Hc Ha]%orb_false_iff. cbn [String.append io.universal_newlines].
  assert (Str.eqb_ascii c csv.CR = false) as ->.
  { apply eqb_ascii_false. apply eqb_ascii_false in Hc. congruence. }
  by rewrite IH.
Qed.

Lemma universal_newlines_CRLF (b : string) :
  io.universal_newlines (csv.lineterminator +:+ b) = String csv.LF (io.universal_newlines b).
Proof. reflexivity. Qed.

Lemma universal_newlines_no_CR (s : string) :
  Str.mem csv.CR (io.universal_newlines s) = false.
Proof.
  assert (forall n s, (String.length s <= n)%nat ->
            Str.mem csv.CR (io.universal_newlines s) = false) as H.
  { clear s. induction n as [|n IH]; intros [|c s] Hlen; simpl in Hlen; try done; try lia.
    cbn [io.universal_newlines].
    destruct (Str.eqb_ascii c csv.CR) eqn:Hc.
    - destruct s as [|d s].
      + reflexivity.
      + destruct (Str.eqb_ascii d csv.LF); cbn [Str.mem].
        * rewrite IH by (simpl in Hlen; lia). reflexivity.
        * rewrite IH by lia. reflexivity.
    - cbn [Str.mem]. rewrite IH by lia.
      apply eqb_ascii_false in Hc.
      assert (Str.eqb_ascii csv.CR c = false) as -> by (apply eqb_ascii_false; congruence).
      reflexivity. }
  by apply (H (String.length s)).
Qed.

Lemma mem_double_quotes (f : string) :
  Str.mem csv.CR f = false -> Str.mem csv.CR (csv.double_quotes f) = false.
Proof.
  induction f as [|c f IH]; [done|]. cbn [Str.mem csv.double_quotes].
  intros [Hc Hf]%orb_false_iff.
  destruct (Str.eqb_ascii c csv.quotechar); cbn [Str.mem]; rewrite Hc, IH by done;
    reflexivity.
Qed.

Lemma mem_encode_field (f : string) :
  Str.mem csv.CR f = false -> Str.mem csv.CR (encode_field f) = false.
Proof.
  intros H. unfold encode_field. destruct (csv.any_needs_quote f); [|done].
  cbn [Str.mem]. rewrite mem_append, mem_double_quotes by done. reflexivity.
Qed.

Lemma mem_join_fields (n : nat) (row : list string) :
  Forall (fun f => Str.mem csv.CR f = false) row ->
  Str.mem csv.CR (join_fields n row) = false.
Proof.
  intros H. revert n. induction H as [|f row Hf _ IH]; intros n; [done|].
  cbn [join_fields]. rewrite !mem_append, mem_encode_field, IH by done.
  by destruct (0 <? n)%nat.
Qed.

Lemma mem_record_text (row : list string) :
  Forall (fun f => Str.mem csv.CR f = false) row ->
  Str.mem csv.CR (record_text row) = false.
Proof.
  intros H. destruct row as [|f [|g more]]; try by apply mem_join_fields.
  cbn [record_text]. destruct (String.eqb f ""); [reflexivity|].
  apply mem_encode_field. by inversion H.
Qed.

(** *** What the reader returns *)

Lemma field_ok_empty : field_ok "".
Proof. split; [done | by cbv]. Qed.

Lemma reader_ok_set_state (self : csv.ReaderObj) (s : csv.ParserState) :
  reader_ok self -> reader_ok (csv.set_state self s).
Proof. done. Qed.

Lemma reader_ok_save_field (self : csv.ReaderObj) :
  reader_ok self -> reader_ok (csv.parse_save_field self).
Proof.
  intros [Hfs Hf]. split; [|apply field_ok_empty].
  cbn [csv.parse_save_field csv.fields]. apply Forall_app. split; [done|]. by constructor.
Qed.

Lemma reader_ok_add_input (self self' : csv.ReaderObj) (i : csv.input) :
  reader_ok self -> (forall c, i = csv.Ch c -> c <> csv.CR) ->
  csv.add_input self i = Ok self' -> reader_ok self'.
Proof.
  intros [Hfs [Hcr Hlen]] Hi. destruct i as [c|]; cbn [csv.add_input]; [|by intros [= <-]].
  unfold csv.parse_add_char.
  destruct (Z.leb_spec csv.field_limit (Z.of_nat (String.length (csv.field self))));
    [done|].
  intros [= <-]. split; [done|]. cbn [csv.field]. split.
  - rewrite mem_append, Hcr. cbn [Str.mem orb].
    assert (Str.eqb_ascii csv.CR c = false) as ->; [|done].
    apply eqb_ascii_false. intros E. by apply (Hi c).
  - rewrite length_append. cbn [String.length]. lia.
Qed.

Lemma reader_ok_process_char (self self' : csv.ReaderObj) (i : csv.input) :
  reader_ok self -> (forall c, i = csv.Ch c -> c <> csv.CR) ->
  csv.parse_process_char self i = Ok self' -> reader_ok self'.
Proof.
  intros Hok Hi. unfold csv.parse_process_char, csv.start_field.
  pose proof (reader_ok_save_field self Hok) as Hsave.
  assert (forall s x, csv.add_input (csv.set_state self s) i = Ok x -> reader_ok x) as Hadd'.
  { intros s x. apply reader_ok_add_input; [by apply reader_ok_set_state | done]. }
  pose proof (reader_ok_add_input self) as Hadd.
  destruct (csv.state self);
    repeat match goal with
    | |- context [if ?b then _ else _] => destruct b
    | |- (_ ≫= _) = Ok _ -> _ =>
        let x := fresh "x" in let Hx := fresh "Hx" in
        intros (x & Hx & [= <-])%result_bind_ok
    | |- Ok _ = Ok _ -> _ => intros [= <-]
    | |- Raise _ = Ok _ -> _ => intros [=]
    | |- csv.add_input _ _ = Ok _ -> _ => intros ?
    end;
    eauto using reader_ok_set_state.
Qed.

Lemma reader_ok_process_line (line : string) (self self' : csv.ReaderObj) :
  reader_ok self -> Str.mem csv.CR line = false ->
  csv.process_line self line = Ok self' -> reader_ok self'.
Proof.
  revert self. induction line as [|c line IH]; intros self Hok Hcr; cbn [csv.process_line].
  - by intros [= <-].
  - cbn [Str.mem] in Hcr. apply orb_false_iff in Hcr as [Hc Hcr].
    intros (x & Hx & H)%result_bind_ok. eapply IH; [|done|done].
    eapply reader_ok_process_char; [done| |done].
    intros ? [= <-]. apply eqb_ascii_false in Hc. congruence.
Qed.

Lemma Reader_rows_ok (lines : list string) (self : csv.ReaderObj) :
  reader_ok self -> Forall (fun l => Str.mem csv.CR l = false) lines ->
  Forall (Forall field_ok) (fst (csv.Reader_rows self lines)).
Proof.
  intros Hok Hlines. revert self Hok.
  induction Hlines as [|line lines Hline _ IH]; intros self Hok; cbn [csv.Reader_rows].
  - destruct (_ || _); [|by constructor].
    constructor; [|by constructor]. by apply reader_ok_save_field.
  - destruct (csv.process_line self line ≫= _) as [self2|e] eqn:E; [|by constructor].
    apply result_bind_ok in E as (self1 & H1 & H2).
    assert (reader_ok self2) as Hok2.
    { eapply reader_ok_process_char; [| | exact H2];
        [by eapply reader_ok_process_line | by intros ? [=]]. }
    destruct (bool_decide _); [|by apply IH].
    specialize (IH csv.parse_reset).
    destruct (csv.Reader_rows csv.parse_reset lines) as [rows e].
    constructor; [apply Hok2|]. apply IH. split; [constructor | apply field_ok_empty].
Qed.

Lemma lines_no_CR (s : string) :
  Str.mem csv.CR s = false -> Forall (fun l => Str.mem csv.CR l = false) (io.lines s).
Proof.
  induction s as [|c s IH]; [by constructor|]. cbn [Str.mem io.lines].
  intros [Hc Hs]%orb_false_iff. specialize (IH Hs).
  destruct (Str.eqb_ascii c csv.LF).
  - constructor; [|done]. cbn [Str.mem]. by rewrite Hc.
  - destruct (io.lines s) as [|l ls].
    + constructor; [|done]. cbn [Str.mem]. by rewrite Hc.
    + inversion IH; subst. constructor; [|done]. cbn [Str.mem]. by rewrite Hc.
Qed.

Lemma csv_reader_ok (contents : string) :
  Forall (Forall field_ok) (fst (csv_reader contents)).
Proof.
  apply Reader_rows_ok.
  - split; [constructor | apply field_ok_empty].
  - apply lines_no_CR, universal_newlines_no_CR.
Qed.

(** *** Reading back what was written *)

Lemma csv_reader_file_text (rows : list (list string)) :
  Forall (Forall field_ok) rows -> csv_reader (file_text rows) = (rows, None).
Proof.
  unfold csv_reader. fold (read csv.parse_reset (io.universal_newlines (file_text rows))).
  induction 1 as [|row rows Hrow _ IH]; [reflexivity|].
  cbn [file_text fold_right]. fold (file_text rows).
  rewrite writerow_record_text, append_assoc.
  rewrite universal_newlines_append.
  2:{ apply mem_record_text. eapply Forall_impl; [exact Hrow|]. by intros f [? _]. }
  rewrite universal_newlines_CRLF, read_record.
  2:{ eapply Forall_impl; [exact Hrow|]. by intros f [_ ?]. }
  unfold yield. by rewrite IH.
Qed.

(** ** The placement reshape *)

Lemma written_app (file : Path) (t1 t2 : list event) :
  written file (t1 ++ t2) = written file t1 +:+ written file t2.
Proof.
  induction t1 as [|ev t1 IH]; [done|]. cbn [app written fold_right].
  fold (written file (t1 ++ t2)). fold (written file t1). rewrite IH.
  destruct ev; try done. destruct r; [|done].
  destruct (decide (file0 = file)); [|done]. by rewrite append_assoc.
Qed.

Section Reshape.

Context {W : Type} (sys : System W).

Lemma writerows_ok (file : Path) (rows : list (list string)) (w w' : W)
    (tr : list event) :
  for_each rows (writerow sys file) w = (Ok tt, w', tr) ->
  written file tr = file_text rows.
Proof.
  revert w tr. induction rows as [|row rows IH]; intros w tr; cbn [for_each].
  - by intros (_ & _ & ->)%ret_ok.
  - intros ([] & w1 & t1 & t2 & Hrow & H & ->)%bind_ok.
    unfold writerow in Hrow. apply perform_ok in Hrow as [_ ->].
    rewrite written_app, (IH _ _ H). cbn [written fold_right file_text].
    rewrite decide_True by done. by rewrite append_nil_r.
Qed.

Lemma Reader_rows_failing_raises (e : exn) (lines : list string) (self : csv.ReaderObj) :
  snd (csv.Reader_rows_failing e self lines) <> None.
Proof.
  revert self. induction lines as [|line lines IH]; intros self; [done|].
  cbn [csv.Reader_rows_failing].
  destruct (_ ≫= _) as [self'|e']; [|done].
  destruct (bool_decide _); [|apply IH].
  specialize (IH csv.parse_reset).
  by destruct (csv.Reader_rows_failing e csv.parse_reset lines).
Qed.

Lemma csv_reader_on_ok (delivered : string * option exn) (rows : list (list string)) :
  csv_reader_on delivered = (rows, None) ->
  snd delivered = None /\ csv_reader (fst delivered) = (rows, None).
Proof.
  unfold csv_reader_on. destruct (snd delivered) as [e|]; [|done].
  intros H. pose proof (Reader_rows_failing_raises e
    (io.lines (io.universal_newlines (fst delivered))) csv.parse_reset) as Hne.
  by rewrite H in Hne.
Qed.

Lemma mk_pos_jlcpcb_body_ok (delivered : string * option exn) (jlcpcb_path : Path)
    (w w' : W) (tr : list event) :
  mk_pos_jlcpcb_body sys delivered jlcpcb_path w = (Ok tt, w', tr) ->
  exists rows,
    snd delivered = None /\
    csv_reader (fst delivered) = (rows, None) /\
    written jlcpcb_path tr = file_text (jlcpcb_header :: tail rows).
Proof.
  unfold mk_pos_jlcpcb_body. destruct (csv_reader_on delivered) as [rows err] eqn:Hon.
  intros H. exists rows.
  assert ((writerow sys jlcpcb_path jlcpcb_header;;
           for_each (tail rows) (writerow sys jlcpcb_path);;
           match err with Some e => raise e | None => mret tt end) w = (Ok tt, w', tr))
    as H'.
  { destruct rows as [|row rows]; [|done]. by destruct err. }
  clear H.
  apply bind_ok in H' as ([] & w1 & t1 & t2 & Hheader & H & ->).
  apply bind_ok in H as ([] & w2 & t3 & t4 & Hrows & H & ->).
  destruct err as [e|]; [done|].
  apply ret_ok in H as (_ & -> & ->).
  apply csv_reader_on_ok in Hon as [Hfailure Hreader].
  split; [done|]. split; [done|].
  unfold writerow in Hheader. apply perform_ok in Hheader as [_ ->].
  rewrite !written_app, (writerows_ok _ _ _ _ _ Hrows).
  cbn [written fold_right file_text]. rewrite decide_True by done.
  by rewrite !append_nil_r.
Qed.

Lemma read_lines_ok (file : Path) (delivered : string * option exn) (w w' : W)
    (tr : list event) :
  read_lines sys file w = (Ok delivered, w', tr) ->
  sys_read sys file w = (delivered, w') /\
  tr = [EvRead file (fst delivered) (snd delivered)].
Proof.
  unfold read_lines. destruct (sys_read sys file w) as [d w1].
  by intros [= -> -> <-].
Qed.

(** A reshape that completes: both files were opened, the output last,
    the input file then delivered [contents] to the reader without a
    failure, and the reader made the records [rows] of it. *)
Lemma mk_pos_jlcpcb_ok (board : Board) (settings : value) (pos_path jlcpcb_path : Path)
    (w w' : W) (tr : list event) :
  mk_pos_jlcpcb sys board settings pos_path jlcpcb_path w = (Ok tt, w', tr) ->
  exists w1 w2 w3 contents rows,
    sys_open_read sys pos_path w = (Ok tt, w1) /\
    sys_open_write sys jlcpcb_path w1 = (Ok tt, w2) /\
    sys_read sys pos_path w2 = ((contents, None), w3) /\
    csv_reader contents = (rows, None) /\
    written jlcpcb_path tr = file_text (jlcpcb_header :: tail rows).
Proof.
  intros H. unfold mk_pos_jlcpcb in H.
  apply bind_ok in H as ([] & w1 & t1 & t2 & Hopen & H & ->).
  apply perform_ok in Hopen as [Hopen ->].
  apply finally_ok in H as (w4 & t3 & t4 & H & Hclose & ->).
  apply perform_ok in Hclose as [_ ->].
  apply bind_ok in H as ([] & w2 & t5 & t6 & Hout & H & ->).
  apply perform_ok in Hout as [Hout ->].
  apply finally_ok in H as (w5 & t7 & t8 & H & Hclose & ->).
  apply perform_ok in Hclose as [_ ->].
  apply bind_ok in H as ([contents failure] & w3 & t9 & t10 & Hread & H & ->).
  apply read_lines_ok in Hread as [Hread ->].
  apply mk_pos_jlcpcb_body_ok in H as (rows & Hfailure & Hrows & Hw).
  cbn [fst snd] in Hfailure, Hrows. subst failure.
  exists w1, w2, w3, contents, rows. repeat (split; [done|]).
  rewrite !written_app, Hw. cbn [written fold_right].
  by rewrite !append_nil_r.
Qed.

End Reshape.

Lemma jlcpcb_header_ok : Forall field_ok jlcpcb_header.
Proof. repeat constructor; by cbv. Qed.

Lemma reshaped_rows_ok (rows : list (list string)) :
  Forall (Forall field_ok) rows ->
  Forall (Forall field_ok) (jlcpcb_header :: tail rows).
Proof.
  intros H. constructor; [apply jlcpcb_header_ok|].
  destruct rows; [done|]. by inversion H.
Qed.

Lemma lookup_update {A} (p : Path) (f : option A -> A) (l : list (Path * A)) :
  Sim.lookup p (Sim.update p f l) = Some (f (Sim.lookup p l)).
Proof.
  induction l as [|[q a] l IH]; cbn [Sim.update Sim.lookup].
  - by rewrite decide_True.
  - destruct (decide (q = p)) as [->|Hne]; cbn [Sim.lookup].
    + by rewrite decide_True.
    + by rewrite decide_False.
Qed.

(** In the reference environment a reshape whose output file is its
    input file leaves the header alone: the file is empty by the time
    the reader asks for its first line. *)
Lemma mk_pos_jlcpcb_in_place (board : Board) (settings : value) (p : Path)
    (w : Sim.world) (c : string) :
  Sim.lookup p (Sim.texts w) = Some c ->
  let m := mk_pos_jlcpcb Sim.system board settings p p in
  result_of m w = Ok tt /\
  written p (trace_of m w) = csv.writerow jlcpcb_header /\
  Sim.lookup p (Sim.texts (world_of m w)) = Some (csv.writerow jlcpcb_header).
Proof.
  intros Hc m.
  assert (m w = (Ok tt,
                 Sim.set_texts w
                   (Sim.update p (fun old => default "" old +:+ csv.writerow jlcpcb_header)
                      (Sim.update p (fun _ => "") (Sim.texts w))),
                 [EvOpenRead p (Ok tt); EvOpenWrite p (Ok tt); EvRead p "" None;
                  EvWrite p (csv.writerow jlcpcb_header) (Ok tt);
                  EvClose p (Ok tt); EvClose p (Ok tt)])) as Hrun.
  { unfold m, mk_pos_jlcpcb, finally, mbind, M_mbind, M_bind, perform, read_lines.
    cbn [Sim.system sys_open_read sys_open_write sys_read sys_close]. rewrite Hc.
    cbn [Sim.set_texts Sim.texts]. rewrite lookup_update. cbn [default fst snd].
    unfold mk_pos_jlcpcb_body.
    change (csv_reader_on ("", None)) with (@nil (list string), @None exn).
    reflexivity. }
  unfold result_of, world_of, trace_of. rewrite Hrun. cbn [fst snd].
  split; [done|]. split.
  - cbn [written fold_right]. rewrite decide_True by done. apply append_nil_r.
  - cbn [Sim.set_texts Sim.texts]. by rewrite !lookup_update.
Qed.

(** C1, as stated, fails in two ways.  On an empty placement file: it
    has no row, and the reshaped file has one, the header.  On a quoted
    cell with a line break: the file is read in text mode, where CR LF
    becomes LF, so the four characters of the cell [a CR LF b] are
    written as the three of [a LF b]. *)
Lemma mk_pos_jlcpcb_row_count_counterexample :
  let m := mk_pos_jlcpcb Sim.system Sample.descriptor Sample.settings
             Sample.pos_path Sample.jlcpcb_path in
  let out := written Sample.jlcpcb_path (trace_of m Sample.world_empty_pos) in
  (Sim.lookup Sample.pos_path (Sim.texts Sample.world_empty_pos) = Some "" /\
   result_of m Sample.world_empty_pos = Ok tt /\
   csv_reader "" = ([], None) /\
   csv_reader out = ([jlcpcb_header], None) /\
   length (fst (csv_reader out)) <> length (fst (csv_reader ""))) /\
  (Sim.lookup Sample.pos_path (Sim.texts Cases.world_newline_cell)
   = Some ("Ref,Val" +:+ Sample.LF +:+ "R1,"
           +:+ String Py.dquote ("a" +:+ String csv.CR (String csv.LF ("b"
           +:+ String Py.dquote Sample.LF)))) /\
   result_of m Cases.world_newline_cell = Ok tt /\
   written Sample.jlcpcb_path (trace_of m Cases.world_newline_cell)
   = csv.writerow jlcpcb_header +:+ "R1,"
     +:+ String Py.dquote ("a" +:+ String csv.LF ("b"
     +:+ String Py.dquote csv.lineterminator))).
Proof.
  cbv zeta. split.
  - split; [reflexivity|]. split; [by vm_compute|]. split; [reflexivity|].
    split; [by vm_compute|]. by vm_compute.
  - split; [reflexivity|]. split; by vm_compute.
Qed.

(** C1, amended: in a reshape that completes, both files were opened,
    the output file last, and the input file then delivered the text
    [contents] to the reader without a failure; the reader made the
    records [rows] of it, in text mode, so with CR LF and a lone CR read
    as LF, also inside a quoted cell.  The file written is the canonical
    header line followed by the lines the writer makes of every record
    but the first, and read back the same way it holds the canonical
    header followed by those records, cell for cell.  It has as many
    records as the reader was delivered when there was at least one, and
    one record, the header, when there was none, which is the case of an
    empty input file and of an output file that is the input file. *)
Theorem mk_pos_jlcpcb_rows {W : Type} (sys : System W) (board : Board)
    (settings : value) (pos_path jlcpcb_path : Path)
    (w w' : W) (tr : list event) :
  mk_pos_jlcpcb sys board settings pos_path jlcpcb_path w = (Ok tt, w', tr) ->
  exists w1 w2 w3 contents rows,
    sys_open_read sys pos_path w = (Ok tt, w1) /\
    sys_open_write sys jlcpcb_path w1 = (Ok tt, w2) /\
    sys_read sys pos_path w2 = ((contents, None), w3) /\
    csv_reader contents = (rows, None) /\
    written jlcpcb_path tr
    = "Designator,Val,Package,Mid X,Mid y,Rotation,Layer" +:+ csv.lineterminator
      +:+ file_text (tail rows) /\
    csv_reader (written jlcpcb_path tr) = (jlcpcb_header :: tail rows, None) /\
    (rows <> [] -> length (fst (csv_reader (written jlcpcb_path tr))) = length rows) /\
    (rows = [] -> fst (csv_reader (written jlcpcb_path tr)) = [jlcpcb_header]).
Proof.
  intros H.
  destruct (mk_pos_jlcpcb_ok sys board settings pos_path jlcpcb_path w w' tr H)
    as (w1 & w2 & w3 & contents & rows & Hopen & Hout & Hread & Hrows & Hw).
  exists w1, w2, w3, contents, rows.
  split; [done|]. split; [done|]. split; [done|]. split; [done|].
  split; [by rewrite Hw|].
  assert (csv_reader (written jlcpcb_path tr) = (jlcpcb_header :: tail rows, None)) as Hback.
  { rewrite Hw. apply csv_reader_file_text, reshaped_rows_ok.
    pose proof (csv_reader_ok contents) as Hok. by rewrite Hrows in Hok. }
  split; [done|]. rewrite Hback. split.
  - intros Hne. destruct rows; [done | reflexivity].
  - by intros ->.
Qed.

Lemma mk_pos_jlcpcb_rows_witness :
  let m := mk_pos_jlcpcb Sim.system Sample.descriptor Sample.settings
             Sample.pos_path Sample.jlcpcb_path in
  let out := written Sample.jlcpcb_path (trace_of m Sample.world) in
  m Sample.world = (Ok tt, world_of m Sample.world, trace_of m Sample.world) /\
  exists rows,
    csv_reader Sample.pos_csv = (rows, None) /\
    csv_reader out = (jlcpcb_header :: tail rows, None).
Proof.
  intros m out.
  assert (m Sample.world = (Ok tt, world_of m Sample.world, trace_of m Sample.world))
    as Hrun by (vm_compute; reflexivity).
  split; [exact Hrun|].
  destruct (mk_pos_jlcpcb_rows Sim.system Sample.descriptor Sample.settings
              Sample.pos_path Sample.jlcpcb_path Sample.world _ _ Hrun)
    as (w1 & w2 & w3 & contents & rows & Hopen & Hout & Hread & Hrows & _ & Hback & _).
  vm_compute in Hopen. injection Hopen as <-.
  vm_compute in Hout. injection Hout as <-.
  vm_compute in Hread. injection Hread as <- _.
  exists rows. split; [exact Hrows | exact Hback].
Defined.

(** C5, as stated, fails: reshaping the reshaped sample file into
    another file gives the same file again, with both data rows. *)
Lemma mk_pos_jlcpcb_twice_counterexample :
  let once := mk_pos_jlcpcb Sim.system Sample.descriptor Sample.settings
                Sample.pos_path Sample.jlcpcb_path in
  let w1 := world_of once Sample.world in
  let twice := mk_pos_jlcpcb Sim.system Sample.descriptor Sample.settings
                 Sample.jlcpcb_path Sample.twice_path in
  let out1 := written Sample.jlcpcb_path (trace_of once Sample.world) in
  let out2 := written Sample.twice_path (trace_of twice w1) in
  Sim.lookup Sample.jlcpcb_path (Sim.texts w1) = Some out1 /\
  result_of twice w1 = Ok tt /\
  out2 = out1 /\
  fst (csv_reader out2)
  = [jlcpcb_header;
     ["R1"; "10k"; "R_0603"; "1.0"; "2.0"; "90.0"; "top"];
     ["C1"; "100n"; "C_0603"; "3.5"; "2.0"; "0.0"; "top"]].
Proof.
  cbv zeta. split; [by vm_compute|]. split; [by vm_compute|].
  split; by vm_compute.
Qed.

(** C5, amended: the reshape is idempotent when its second application
    writes to another file.  When a reshape that completes is delivered,
    once its own output file is open, the file a completed reshape wrote,
    it writes the same file: the record it drops is the canonical header,
    which it writes again, and no data record is lost.  When the second
    application is in place, its output file being the file it reads, the
    file is emptied before it is read: in the reference environment such
    a reshape of any file completes and leaves the header alone, every
    data record lost. *)
Theorem mk_pos_jlcpcb_idempotent {W V : Type} (sys : System W) (sys' : System V)
    (board board' : Board) (settings settings' : value)
    (pos_path jlcpcb_path pos_path' jlcpcb_path' : Path)
    (w w' : W) (tr : list event) (v v1 v2 v3 v' : V) (failure : option exn)
    (tr' : list event) :
  mk_pos_jlcpcb sys board settings pos_path jlcpcb_path w = (Ok tt, w', tr) ->
  sys_open_read sys' pos_path' v = (Ok tt, v1) ->
  sys_open_write sys' jlcpcb_path' v1 = (Ok tt, v2) ->
  sys_read sys' pos_path' v2 = ((written jlcpcb_path tr, failure), v3) ->
  mk_pos_jlcpcb sys' board' settings' pos_path' jlcpcb_path' v = (Ok tt, v', tr') ->
  (written jlcpcb_path' tr' = written jlcpcb_path tr /\
   csv_reader (written jlcpcb_path' tr') = csv_reader (written jlcpcb_path tr) /\
   exists contents rows,
     csv_reader contents = (rows, None) /\
     csv_reader (written jlcpcb_path tr) = (jlcpcb_header :: tail rows, None)) /\
  (forall (b : Board) (s : value) (p : Path) (u : Sim.world) (c : string),
     Sim.lookup p (Sim.texts u) = Some c ->
     let m := mk_pos_jlcpcb Sim.system b s p p in
     result_of m u = Ok tt /\
     written p (trace_of m u) = csv.writerow jlcpcb_header /\
     Sim.lookup p (Sim.texts (world_of m u)) = Some (csv.writerow jlcpcb_header)).
Proof.
  intros H Hopen' Hout' Hread' H'. split; [|apply mk_pos_jlcpcb_in_place].
  destruct (mk_pos_jlcpcb_ok sys board settings pos_path jlcpcb_path w w' tr H)
    as (w1 & w2 & w3 & contents & rows & _ & _ & _ & Hrows & Hw).
  destruct (mk_pos_jlcpcb_ok sys' board' settings' pos_path' jlcpcb_path' v v' tr' H')
    as (u1 & u2 & u3 & contents' & rows' & Hopen & Hout & Hread & Hrows' & Hw').
  rewrite Hopen' in Hopen. injection Hopen as <-.
  rewrite Hout' in Hout. injection Hout as <-.
  rewrite Hread' in Hread. injection Hread as <- _ _.
  assert (csv_reader (written jlcpcb_path tr) = (jlcpcb_header :: tail rows, None)) as Hback.
  { rewrite Hw. apply csv_reader_file_text, reshaped_rows_ok.
    pose proof (csv_reader_ok contents) as Hok. by rewrite Hrows in Hok. }
  rewrite Hback in Hrows'. injection Hrows' as <-.
  cbn [tail] in Hw'. rewrite Hw', <- Hw. split; [done|]. split; [done|].
  by exists contents, rows.
Qed.

Lemma mk_pos_jlcpcb_idempotent_witness :
  let once := mk_pos_jlcpcb Sim.system Sample.descriptor Sample.settings
                Sample.pos_path Sample.jlcpcb_path in
  let w1 := world_of once Sample.world in
  let twice := mk_pos_jlcpcb Sim.system Sample.descriptor Sample.settings
                 Sample.jlcpcb_path Sample.twice_path in
  once Sample.world = (Ok tt, w1, trace_of once Sample.world) /\
  twice w1 = (Ok tt, world_of twice w1, trace_of twice w1) /\
  written Sample.twice_path (trace_of twice w1)
  = written Sample.jlcpcb_path (trace_of once Sample.world).
Proof.
  intros once w1 twice.
  assert (once Sample.world = (Ok tt, w1, trace_of once Sample.world)) as H1
    by (vm_compute; reflexivity).
  assert (twice w1 = (Ok tt, world_of twice w1, trace_of twice w1)) as H2
    by (vm_compute; reflexivity).
  assert (sys_open_read Sim.system Sample.jlcpcb_path w1 = (Ok tt, w1)) as Hopen
    by (vm_compute; reflexivity).
  pose (w2 := snd (sys_open_write Sim.system Sample.twice_path w1)).
  assert (sys_read Sim.system Sample.jlcpcb_path w2
          = ((written Sample.jlcpcb_path (trace_of once Sample.world), None), w2))
    as Hread by (vm_compute; reflexivity).
  split; [exact H1|]. split; [exact H2|].
  exact (proj1 (proj1 (mk_pos_jlcpcb_idempotent Sim.system Sim.system
                  Sample.descriptor Sample.descriptor Sample.settings Sample.settings
                  Sample.pos_path Sample.jlcpcb_path Sample.jlcpcb_path Sample.twice_path
                  Sample.world w1 _ w1 w1 w2 w2 _ None _
                  H1 Hopen eq_refl Hread H2))).
Defined.

(** * Further properties *)

(** ** Paths of the artifacts *)

Lemma lstrip_append (c : ascii) (n e : string) :
  Str.mem c e = false -> Str.lstrip c (n +:+ e) = Str.lstrip c n +:+ e.
Proof.
  intros He. induction n as [|d n IH]; cbn [String.append Str.lstrip].
  - destruct e as [|x e]; [done|]. cbn [Str.mem] in He.
    apply orb_false_iff in He as [Hx _]. cbn [Str.lstrip]. by rewrite Hx.
  - destruct (Str.eqb_ascii c d); [done|reflexivity].
Qed.

Lemma split_nonempty (sep : ascii) (s : string) : Str.split sep s <> [].
Proof.
  destruct s as [|c s]; cbn [Str.split]; [done|].
  destruct (Str.eqb_ascii c sep); [done|]. by destruct (Str.split sep s).
Qed.

(** Appending a text free of separators extends the last component. *)
Lemma split_append (sep : ascii) (a e : string) :
  Str.mem sep e = false ->
  Str.split sep (a +:+ e)
  = removelast (Str.split sep a) ++ [List.last (Str.split sep a) "" +:+ e].
Proof.
  intros He. induction a as [|c a IH]; cbn [String.append].
  - by rewrite split_no_sep.
  - cbn [Str.split]. destruct (Str.eqb_ascii c sep).
    + rewrite IH. pose proof (split_nonempty sep a) as Hne.
      destruct (Str.split sep a) as [|x xs]; [done|]. reflexivity.
    + rewrite IH. pose proof (split_nonempty sep a) as Hne.
      destruct (Str.split sep a) as [|x xs]; [done|].
      destruct xs as [|y ys]; [reflexivity|].
      cbn [removelast List.last app]. reflexivity.
Qed.

Lemma filter_app_last {A} (f : A -> bool) (l : list A) (x : A) :
  f x = true -> List.filter f (l ++ [x]) = List.filter f l ++ [x].
Proof. intros Hx. rewrite List.filter_app. cbn [List.filter]. by rewrite Hx. Qed.

Lemma keep_part_ending (x e : string) :
  (2 <= String.length e)%nat -> pathlib.keep_part (x +:+ e) = true.
Proof.
  intros He. unfold pathlib.keep_part.
  assert (2 <= String.length (x +:+ e))%nat as H by (rewrite length_append; lia).
  destruct (String.eqb_spec (x +:+ e) "") as [E|_]; [rewrite E in H; simpl in H; lia|].
  destruct (String.eqb_spec (x +:+ e) ".") as [E|_]; [rewrite E in H; simpl in H; lia|].
  reflexivity.
Qed.

Lemma splitroot_append (n e : string) :
  Str.mem "/" e = false -> e <> "" ->
  pathlib.splitroot (n +:+ e)
  = (fst (pathlib.splitroot n), snd (pathlib.splitroot n) +:+ e).
Proof.
  intros He Hne. unfold pathlib.splitroot.
  destruct n as [|c n]; cbn [String.append].
  - destruct e as [|x e]; [done|]. cbn [Str.mem] in He.
    apply orb_false_iff in He as [Hx _].
    assert (Str.eqb_ascii x "/" = false) as ->; [|done].
    apply eqb_ascii_false. apply eqb_ascii_false in Hx. congruence.
  - destruct (Str.eqb_ascii c "/") eqn:Hc; [|done].
    change (String c (n +:+ e)) with (String c n +:+ e).
    rewrite lstrip_append by done.
    rewrite !length_append.
    replace (String.length (String c n) + String.length e
             - (String.length (Str.lstrip "/" (String c n)) + String.length e))%nat
      with (String.length (String c n) - String.length (Str.lstrip "/" (String c n)))%nat
      by lia.
    by destruct (_ =? 2)%nat.
Qed.

Lemma parse_ending (n e : string) :
  Str.mem "/" e = false -> (2 <= String.length e)%nat ->
  exists front,
    parts (pathlib.parse (n +:+ e)) = front ++ [stub n +:+ e] /\
    root (pathlib.parse (n +:+ e)) = fst (pathlib.splitroot n).
Proof.
  intros He Hlen. unfold pathlib.parse.
  rewrite splitroot_append; [| done | intros ->; simpl in Hlen; lia].
  cbn [root parts]. rewrite split_append by done.
  rewrite filter_app_last by (by apply keep_part_ending).
  eexists. split; reflexivity.
Qed.

(** Whatever the board name, the path of an artifact ends with a
    component made of the stub of the name and the fixed ending. *)
Lemma joinpath_ending (p : Path) (n e : string) :
  Str.mem "/" e = false -> (2 <= String.length e)%nat ->
  exists front, parts (p // (n +:+ e)) = front ++ [stub n +:+ e].
Proof.
  intros He Hlen. destruct (parse_ending n e He Hlen) as (front & Hparts & _).
  unfold pathlib.joinpath.
  destruct (root (pathlib.parse (n +:+ e))).
  - exists (parts p ++ front). cbn [parts]. by rewrite Hparts, app_assoc.
  - by exists front.
Qed.

Lemma name_joinpath_ending (p : Path) (n e : string) :
  Str.mem "/" e = false -> (2 <= String.length e)%nat ->
  pathlib.name (p // (n +:+ e)) = stub n +:+ e.
Proof.
  intros He Hlen. destruct (joinpath_ending p n e He Hlen) as (front & Hparts).
  unfold pathlib.name. rewrite Hparts. apply last_last.
Qed.

Lemma drop_append_more (a b : string) (k : nat) :
  Str.drop (String.length a + k) (a +:+ b) = Str.drop k b.
Proof. induction a as [|c a IH]; [done|]. cbn. apply IH. Qed.

Lemma name_differs (p q : Path) : pathlib.name p <> pathlib.name q -> p <> q.
Proof. intros H ->. done. Qed.

Lemma ending_differs (p q : Path) (n e1 e2 : string) :
  Str.mem "/" e1 = false -> (2 <= String.length e1)%nat ->
  Str.mem "/" e2 = false -> (2 <= String.length e2)%nat ->
  e1 <> e2 ->
  p // (n +:+ e1) <> q // (n +:+ e2).
Proof.
  intros H1 L1 H2 L2 Hne. apply name_differs.
  rewrite !name_joinpath_ending by done.
  intros E. by apply String.app_inj in E.
Qed.

(** X1: the placement export of [build_board] is always asked for in csv
    format: whatever the name of the board, the suffix of its output path
    is [.csv]. *)
Theorem mk_pos_format_csv {W : Type} (sys : System W) (board : Board) (settings : value) :
  let pos_path := build_dir board // (Py.str (name board) +:+ "-pos.csv") in
  pathlib.suffix pos_path = ".csv" /\
  forall w,
    mk_pos sys board settings pos_path w
    = (print "--- Generating PnP position file (JLCPCB)";;
       check_call sys [VStr "kicad-cli"; VStr "pcb"; VStr "export"; VStr "pos";
                       VStr "--units"; VStr "mm"; VStr "--output"; VPath pos_path;
                       VPath (kicad_pcb board); VStr "--format"; VStr "csv"]) w.
Proof.
  intros pos_path.
  assert (pathlib.suffix pos_path = ".csv") as Hsuffix.
  { unfold pathlib.suffix, pos_path.
    rewrite name_joinpath_ending by (done || simpl; lia).
    rewrite rfind_dot_append, length_append.
    change (Str.rfind_dot "-pos.csv") with (Some 4%nat).
    change (String.length "-pos.csv") with 8%nat.
    cbv beta iota. set (k := String.length (stub (Py.str (name board)))).
    assert ((0 <? k + 4)%nat = true) as -> by (apply Nat.ltb_lt; lia).
    assert ((k + 4 <? k + 8 - 1)%nat = true) as -> by (apply Nat.ltb_lt; lia).
    cbn [andb]. unfold k. by rewrite drop_append_more. }
  split; [done|]. intros w. unfold mk_pos. by rewrite Hsuffix.
Qed.

(** X2: the artifacts of one board never share a path: the five fixed
    files of the assembly directory are pairwise distinct, so are the
    three intermediate ones of the build directory, and the reshaped
    placement file is never the file it is read from. *)
Theorem artifact_paths_distinct (board : Board) :
  let n := Py.str (name board) in
  NoDup [assembly_dir board // (n +:+ "-schematic.pdf");
         gerber_zip board;
         assembly_dir board // (n +:+ "-fab.pdf");
         assembly_dir board // (n +:+ ".step");
         assembly_dir board // (n +:+ "-jlcpcb-cpl.csv")] /\
  NoDup [gerber_dir board;
         build_dir board // (n +:+ "-bom.xml");
         build_dir board // (n +:+ "-pos.csv")] /\
  build_dir board // (n +:+ "-pos.csv") <> assembly_dir board // (n +:+ "-jlcpcb-cpl.csv").
Proof.
  intros n. unfold gerber_zip, gerber_dir. fold n.
  assert (forall p q e1 e2,
            Str.mem "/" e1 = false -> (2 <=? String.length e1)%nat = true ->
            Str.mem "/" e2 = false -> (2 <=? String.length e2)%nat = true ->
            String.eqb e1 e2 = false ->
            p // (n +:+ e1) <> q // (n +:+ e2)) as Hne.
  { intros p q e1 e2 H1 L1 H2 L2 E. apply ending_differs; try done.
    - by apply Nat.leb_le.
    - by apply Nat.leb_le.
    - by apply String.eqb_neq. }
  split; [|split].
  - repeat (apply NoDup_cons; split;
            [rewrite ?elem_of_cons, elem_of_nil; intros H;
             repeat (destruct H as [H|H]; [by eapply Hne; [..|exact H]|]); done|]).
    apply NoDup_nil_2.
  - repeat (apply NoDup_cons; split;
            [rewrite ?elem_of_cons, elem_of_nil; intros H;
             repeat (destruct H as [H|H]; [by eapply Hne; [..|exact H]|]); done|]).
    apply NoDup_nil_2.
  - by apply Hne.
Qed.

(** ** The Gerber export *)

Lemma split_sep (sep : ascii) (x r : string) :
  Str.mem sep x = false ->
  Str.split sep (x +:+ String sep r) = x :: Str.split sep r.
Proof.
  induction x as [|c x IH]; cbn [String.append Str.split Str.mem].
  - intros _. by replace (Str.eqb_ascii sep sep) with true
      by (symmetry; by apply eqb_ascii_true).
  - intros [Hc Hx]%orb_false_iff. rewrite (IH Hx).
    assert (Str.eqb_ascii c sep = false) as ->; [|done].
    apply eqb_ascii_false. apply eqb_ascii_false in Hc. congruence.
Qed.

Lemma split_join (sep : ascii) (l : list string) :
  Forall (fun x => Str.mem sep x = false) l -> l <> [] ->
  Str.split sep (Str.join (String sep "") l +:+ String sep "") = l ++ [""].
Proof.
  induction 1 as [|x l Hx Hl IH]; [done|]. intros _.
  destruct l as [|y l].
  - cbn [Str.join]. by rewrite split_sep.
  - change (Str.join (String sep "") (x :: y :: l))
      with (x +:+ String sep "" +:+ Str.join (String sep "") (y :: l)).
    rewrite !append_assoc. cbn [String.append].
    rewrite split_sep by done. by rewrite IH.
Qed.

Lemma split_parts (sep : ascii) (s : string) :
  Forall (fun x => Str.mem sep x = false) (Str.split sep s).
Proof.
  induction s as [|c s IH]; cbn [Str.split]; [by repeat constructor|].
  destruct (Str.eqb_ascii c sep) eqn:Hc; [by constructor|].
  pose proof (split_nonempty sep s) as Hne.
  destruct (Str.split sep s) as [|x xs]; [done|].
  inversion IH; subst. constructor; [|done].
  cbn [Str.mem]. rewrite orb_false_iff. split; [|done].
  apply eqb_ascii_false. apply eqb_ascii_false in Hc. congruence.
Qed.

Lemma filter_all {A} (f : A -> bool) (l : list A) :
  Forall (fun x => f x = true) l -> List.filter f l = l.
Proof. induction 1 as [|x l Hx _ IH]; [done|]. cbn. by rewrite Hx, IH. Qed.

Lemma splitroot_root (s : string) :
  let rt := fst (pathlib.splitroot s) in rt = "" \/ rt = "/" \/ rt = "//".
Proof.
  unfold pathlib.splitroot. destruct s as [|c s]; [by left|].
  destruct (Str.eqb_ascii c "/"); [|by left].
  destruct (_ =? 2)%nat; cbn; auto.
Qed.

Lemma parse_wf (s : string) : wf_path (pathlib.parse s).
Proof.
  unfold pathlib.parse. pose proof (splitroot_root s) as Hroot.
  destruct (pathlib.splitroot s) as [rt rel]. split; [exact Hroot|].
  cbn [parts]. apply Forall_forall. intros x Hx.
  apply list_elem_of_In, List.filter_In in Hx as [Hin Hk]. split; [|done].
  pose proof (split_parts "/" rel) as Hall.
  rewrite Forall_forall in Hall. apply Hall. by apply list_elem_of_In.
Qed.

Lemma joinpath_wf (p : Path) (s : string) : wf_path p -> wf_path (p // s).
Proof.
  intros [Hroot Hparts]. unfold pathlib.joinpath.
  destruct (root (pathlib.parse s)) eqn:E; [|apply parse_wf].
  split; [done|]. cbn [parts]. apply Forall_app. split; [done|apply parse_wf].
Qed.

(** A path with at least one component is read back from its text
    followed by a separator. *)
Lemma parse_str_sep (p : Path) :
  wf_path p -> parts p <> [] -> pathlib.parse (pathlib.str p +:+ "/") = p.
Proof.
  destruct p as [rt ps]. intros [Hroot Hparts] Hne. cbn [root parts] in *.
  assert (pathlib.str {| root := rt; parts := ps |} = rt +:+ Str.join "/" ps) as ->.
  { unfold pathlib.str. cbn [root parts]. destruct rt; [|done]. by destruct ps. }
  set (J := Str.join "/" ps +:+ "/").
  assert (exists c J', J = String c J' /\ Str.eqb_ascii c "/" = false) as (c & J' & HJ & Hc).
  { unfold J. destruct ps as [|x ps]; [done|].
    inversion Hparts as [|? ? [Hx Hk] _]; subst.
    destruct x as [|c x]; [done|]. exists c.
    cbn [Str.mem] in Hx. apply orb_false_iff in Hx as [Hc _].
    assert (Str.eqb_ascii c "/" = false) as Hc'.
    { apply eqb_ascii_false. apply eqb_ascii_false in Hc. congruence. }
    destruct ps; cbn [Str.join String.append]; eauto. }
  assert (Str.eqb_ascii "/" c = false) as Hc2.
  { apply eqb_ascii_false. apply eqb_ascii_false in Hc. congruence. }
  assert (List.filter pathlib.keep_part (Str.split "/" J) = ps) as Hsplit.
  { unfold J. rewrite split_join; [| |done].
    - rewrite List.filter_app. cbn [List.filter pathlib.keep_part].
      rewrite filter_all; [by rewrite app_nil_r|].
      eapply Forall_impl; [exact Hparts|]. by intros x [_ ?].
    - eapply Forall_impl; [exact Hparts|]. by intros x [? _]. }
  rewrite append_assoc. fold J. unfold pathlib.parse, pathlib.splitroot.
  destruct Hroot as [-> | [-> | ->]]; cbn [String.append].
  - rewrite HJ, Hc, <- HJ. by rewrite Hsplit.
  - replace (Str.eqb_ascii "/" "/") with true by reflexivity.
    cbn [Str.lstrip]. replace (Str.eqb_ascii "/" "/") with true by reflexivity.
    rewrite HJ. cbn [Str.lstrip]. rewrite Hc2, <- HJ.
    cbn [String.length]. rewrite Nat.sub_succ_l, Nat.sub_diag by lia.
    cbn [Nat.eqb]. by rewrite Hsplit.
  - replace (Str.eqb_ascii "/" "/") with true by reflexivity.
    cbn [Str.lstrip]. replace (Str.eqb_ascii "/" "/") with true by reflexivity.
    rewrite HJ. cbn [Str.lstrip]. rewrite Hc2, <- HJ.
    cbn [String.length].
    replace (S (S (String.length J)) - String.length J)%nat with 2%nat by lia.
    cbn [Nat.eqb]. by rewrite Hsplit.
Qed.

Lemma from_yaml_directories (record settings : value) (b : Board) :
  from_yaml record settings = Ok b ->
  (exists t, assembly_dir b = pathlib.parse t) /\ (exists t, build_dir b = pathlib.parse t).
Proof.
  unfold from_yaml. intros H.
  repeat (apply result_bind_ok in H as (? & _ & H)).
  injection H as <-. cbn [assembly_dir build_dir]. eauto.
Qed.

(** X3: the drill files go where the Gerber files go.  [mk_gerber] hands
    the drill export the text of the Gerber directory followed by a
    separator, and for the Gerber directory of a board that text is the
    directory again; a build directory made by [from_yaml] is such that
    this holds.  A Gerber export that completes is the log line, the
    directory, and the two commands, in this order. *)
Theorem mk_gerber_drill_directory {W : Type} (sys : System W) (board : Board) :
  (wf_path (build_dir board) ->
   pathlib.parse (pathlib.str (gerber_dir board) +:+ "/") = gerber_dir board) /\
  (forall record settings, from_yaml record settings = Ok board -> wf_path (build_dir board)) /\
  (forall pcb dir w w' tr,
     mk_gerber sys pcb dir w = (Ok tt, w', tr) ->
     tr = [EvPrint "--- Generating gerber files";
           EvMakedirs dir (Ok tt);
           EvCall [VStr "kicad-cli"; VStr "pcb"; VStr "export"; VStr "gerbers"; VStr "-o";
                   VPath dir; VStr "--use-drill-file-origin"; VPath pcb] (Ok 0);
           EvCall [VStr "kicad-cli"; VStr "pcb"; VStr "export"; VStr "drill"; VStr "-o";
                   VStr (pathlib.str dir +:+ "/"); VPath pcb] (Ok 0)]).
Proof.
  split; [|split].
  - intros Hwf. apply parse_str_sep.
    + by apply joinpath_wf.
    + unfold gerber_dir.
      destruct (joinpath_ending (build_dir board) (Py.str (name board)) "-gerber")
        as (front & ->); [done | simpl; lia |]. by destruct front.
  - intros record settings H.
    destruct (from_yaml_directories record settings board H) as (_ & t & ->).
    apply parse_wf.
  - intros pcb dir w w' tr H. unfold mk_gerber in H. run_inv H. reflexivity.
Qed.

Lemma mk_gerber_drill_directory_witness :
  wf_path (build_dir Sample.descriptor) /\
  pathlib.parse "out/build/Widget/Widget-gerber/" = gerber_dir Sample.descriptor.
Proof.
  assert (wf_path (build_dir Sample.descriptor)) as Hwf.
  { exact (proj1 (proj2 (mk_gerber_drill_directory Sim.system Sample.descriptor))
             Sample.board Sample.settings eq_refl). }
  split; [exact Hwf|].
  exact (proj1 (mk_gerber_drill_directory Sim.system Sample.descriptor) Hwf).
Defined.

(** ** The invokers *)

Section Invokers.

Context {W : Type} (sys : System W).

Lemma check_call_run (cmd : list value) (r : result Z) (w w1 : W) :
  forallb path_like cmd = true ->
  sys_call sys cmd w = (r, w1) ->
  check_call sys cmd w = (call_outcome cmd r, w1, [EvCall cmd r]).
Proof.
  intros Hargs Hcall. unfold check_call. rewrite Hargs.
  unfold mbind, M_mbind, M_bind, perform. rewrite Hcall.
  destruct r as [rc|e]; [|done]. cbn [call_outcome].
  by destruct (rc =? 0).
Qed.

Lemma print_then (line : string) (m : M W unit) (w : W) :
  (print line;; m) w = (let '(r, w1, t) := m w in (r, w1, EvPrint line :: t)).
Proof. reflexivity. Qed.

Lemma bind_run {A B} (m : M W A) (f : A -> M W B) (w : W) :
  (m ≫= f) w
  = match m w with
    | (Ok a, w1, t1) => let '(r, w2, t2) := f a w1 in (r, w2, t1 ++ t2)
    | (Raise e, w1, t1) => (Raise e, w1, t1)
    end.
Proof. reflexivity. Qed.

Lemma read_version_run (board_pro : Path) (rj : result value) (w w1 : W) :
  sys_load_json sys (VPath board_pro) w = (rj, w1) ->
  read_version sys board_pro w
  = (rj ≫= (fun js => Py.getitem js "text_variables" ≫= fun t => Py.getitem t "VERSION"),
     w1, [EvLoadJson (VPath board_pro) rj]).
Proof.
  intros Hload. unfold read_version. rewrite bind_run. unfold perform at 1.
  rewrite Hload. destruct rj as [js|e]; [|done]. rewrite bind_run.
  cbn. unfold lift. by destruct (Py.getitem js "text_variables").
Qed.

End Invokers.

(** X4: each of the four plain invokers logs one line and runs exactly
    one command, whose arguments are all strings or paths: it succeeds
    when the command exits with status 0, raises [CalledProcessError]
    with the status and the command when it exits with another status,
    and passes on the failure of a command that could not be run. *)
Theorem invokers_one_command {W : Type} (sys : System W) :
  (forall sch out r w w1,
     let cmd := [VStr "kicad-cli"; VStr "sch"; VStr "export"; VStr "python-bom";
                 VStr "-o"; VPath out; VPath sch] in
     sys_call sys cmd w = (r, w1) ->
     mk_bom_xml sys sch out w
     = (call_outcome cmd r, w1, [EvPrint "--- Exporting XML netlist"; EvCall cmd r])) /\
  (forall sch out r w w1,
     let cmd := [VStr "kicad-cli"; VStr "sch"; VStr "export"; VStr "pdf";
                 VStr "-o"; VPath out; VPath sch] in
     sys_call sys cmd w = (r, w1) ->
     mk_schematic_pdf sys sch out w
     = (call_outcome cmd r, w1, [EvPrint "--- Generating schematic PDF"; EvCall cmd r])) /\
  (forall board settings out r w w1,
     let cmd := [VStr "kicad-cli"; VStr "pcb"; VStr "export"; VStr "step";
                 VStr "--subst-models"; VStr "--output"; VPath out;
                 VPath (kicad_pcb board)] in
     sys_call sys cmd w = (r, w1) ->
     mk_step sys board settings out w
     = (call_outcome cmd r, w1, [EvPrint "--- Generating STEP file"; EvCall cmd r])) /\
  (forall board settings out r w w1,
     let cmd := [VStr "kicad-cli"; VStr "pcb"; VStr "export"; VStr "pos";
                 VStr "--units"; VStr "mm"; VStr "--output"; VPath out;
                 VPath (kicad_pcb board); VStr "--format";
                 VStr (Str.drop 1 (pathlib.suffix out))] in
     sys_call sys cmd w = (r, w1) ->
     mk_pos sys board settings out w
     = (call_outcome cmd r, w1,
        [EvPrint "--- Generating PnP position file (JLCPCB)"; EvCall cmd r])).
Proof.
  repeat split; intros.
  - unfold mk_bom_xml. rewrite print_then. by erewrite check_call_run.
  - unfold mk_schematic_pdf. rewrite print_then. by erewrite check_call_run.
  - unfold mk_step. rewrite print_then. by erewrite check_call_run.
  - unfold mk_pos. rewrite print_then. by erewrite check_call_run.
Qed.

Lemma invokers_one_command_witness :
  let out := pathlib.parse "out/assembly/Widget/Widget.step" in
  let cmd := [VStr "kicad-cli"; VStr "pcb"; VStr "export"; VStr "step";
              VStr "--subst-models"; VStr "--output"; VPath out;
              VPath (kicad_pcb Sample.descriptor)] in
  sys_call Sim.system cmd Sample.world_gerber_fails = (Ok 0, Sample.world_gerber_fails) /\
  mk_step Sim.system Sample.descriptor Sample.settings out Sample.world_gerber_fails
  = (Ok tt, Sample.world_gerber_fails, [EvPrint "--- Generating STEP file"; EvCall cmd (Ok 0)]).
Proof.
  intros out cmd. split; [reflexivity|].
  exact (proj1 (proj2 (proj2 (invokers_one_command Sim.system)))
           Sample.descriptor Sample.settings out (Ok 0)
           Sample.world_gerber_fails Sample.world_gerber_fails eq_refl).
Defined.

(** ** The build of one board and the run over all boards *)

(** X5: the version is needed although it is only logged: when the
    project file is read but has no [text_variables] table or no
    [VERSION] in it, the build ends with that exception before any
    directory is made or any tool is run. *)
Theorem build_board_needs_version {W : Type} (sys : System W) (board : Board)
    (settings js : value) (e : exn) (w w1 : W) :
  sys_load_json sys (VPath (kicad_pro board)) w = (Ok js, w1) ->
  (Py.getitem js "text_variables" ≫= fun t => Py.getitem t "VERSION") = Raise e ->
  build_board sys board settings w
  = (Raise e, w1, [EvLoadJson (VPath (kicad_pro board)) (Ok js)]).
Proof.
  intros Hload Hversion. unfold build_board.
  rewrite bind_run, (read_version_run sys _ _ _ _ Hload).
  change (Ok js ≫= ?f) with (f js). cbv beta. by rewrite Hversion.
Qed.

Lemma build_board_needs_version_witness :
  sys_load_json Sim.system (VPath (kicad_pro Sample.descriptor)) Cases.world_no_version
  = (Ok (VDict []), Cases.world_no_version) /\
  build_board Sim.system Sample.descriptor Sample.settings Cases.world_no_version
  = (Raise (KeyError "text_variables"), Cases.world_no_version,
     [EvLoadJson (VPath (kicad_pro Sample.descriptor)) (Ok (VDict []))]).
Proof.
  split; [reflexivity|].
  exact (build_board_needs_version Sim.system Sample.descriptor Sample.settings
           (VDict []) (KeyError "text_variables") Cases.world_no_version
           Cases.world_no_version eq_refl eq_refl).
Defined.

(** X6: the directories come first: in every run of [build_board],
    completed or not, either the trace starts with the version being
    read, the log line and both output directories being made, or the
    build failed and its trace holds nothing but such events: no tool
    runs and no file is written before both directories exist. *)
Theorem build_board_prepares_first {W : Type} (sys : System W) (board : Board)
    (settings : value) (w w' : W) (r : result unit) (tr : list event) :
  build_board sys board settings w = (r, w', tr) ->
  (exists js line rest,
     tr = [EvLoadJson (VPath (kicad_pro board)) (Ok js); EvPrint line;
           EvMakedirs (assembly_dir board) (Ok tt);
           EvMakedirs (build_dir board) (Ok tt)] ++ rest) \/
  ((exists e, r = Raise e) /\ Forall is_setup tr).
Proof.
  unfold build_board. rewrite bind_run.
  destruct (sys_load_json sys (VPath (kicad_pro board)) w) as [[js|e] w1] eqn:Hload;
    rewrite (read_version_run sys _ _ _ _ Hload).
  2:{ change (Raise e ≫= _) with (Raise e : result value).
      intros [= <- <- <-]. right. split; [eauto | by repeat constructor]. }
  change (Ok js ≫= ?f) with (f js). cbv beta.
  destruct (Py.getitem js "text_variables") as [t|e].
  2:{ change (Raise e ≫= _) with (Raise e : result value).
      intros [= <- <- <-]. right. split; [eauto | by repeat constructor]. }
  change (Ok t ≫= ?f) with (f t). cbv beta.
  destruct (Py.getitem t "VERSION") as [v|e];
    [|intros [= <- <- <-]; right; split; [eauto | by repeat constructor]].
  rewrite print_then, bind_run. unfold perform at 1.
  destruct (sys_makedirs sys (assembly_dir board) w1) as [[[]|e] w2];
    [|intros [= <- <- <-]; right; split; [eauto | by repeat constructor]].
  rewrite bind_run. unfold perform at 1.
  destruct (sys_makedirs sys (build_dir board) w2) as [[[]|e] w3];
    [|intros [= <- <- <-]; right; split; [eauto | by repeat constructor]].
  destruct (@mbind (M W) _ _ _ _ _ w3) as [[r3 w4] t4].
  intros [= <- <- <-]. left. by eexists _, _, _.
Qed.

Lemma build_board_prepares_first_witness :
  let m := build_board Sim.system Sample.descriptor Sample.settings in
  m Sample.world = (Ok tt, world_of m Sample.world, trace_of m Sample.world) /\
  ((exists js line rest,
      trace_of m Sample.world
      = [EvLoadJson (VPath (kicad_pro Sample.descriptor)) (Ok js); EvPrint line;
         EvMakedirs (assembly_dir Sample.descriptor) (Ok tt);
         EvMakedirs (build_dir Sample.descriptor) (Ok tt)] ++ rest) \/
   ((exists e, Ok tt = Raise e) /\ Forall is_setup (trace_of m Sample.world))).
Proof.
  intros m.
  assert (m Sample.world = (Ok tt, world_of m Sample.world, trace_of m Sample.world))
    as Hrun by (vm_compute; reflexivity).
  split; [exact Hrun|].
  exact (build_board_prepares_first Sim.system Sample.descriptor Sample.settings
           Sample.world _ _ _ Hrun).
Defined.

Section Loops.

Context {W : Type}.

Lemma for_each_traces {A} (l : list A) (body : A -> M W unit) (w w' : W)
    (tr : list event) :
  for_each l body w = (Ok tt, w', tr) ->
  exists ts,
    tr = concat ts /\
    Forall2 (fun x t => exists w1 w2, body x w1 = (Ok tt, w2, t)) l ts.
Proof.
  revert w tr. induction l as [|x l IH]; intros w tr; cbn [for_each].
  - intros (_ & _ & ->)%ret_ok. exists []. split; [done | constructor].
  - intros ([] & w1 & t1 & t2 & Hx & H & ->)%bind_ok.
    apply IH in H as (ts & -> & Hall). exists (t1 :: ts).
    split; [done|]. constructor; [by exists w, w1 | done].
Qed.

End Loops.

(** X7: a run of [main] that completes reads the configuration once and
    then builds every board of the [boards] list exactly once, in the
    order of the list, each from the descriptor [from_yaml] makes of its
    record: the trace is the load followed by the traces of the builds. *)
Theorem main_builds_in_order {W : Type} (sys : System W) (argv : list string)
    (w w' : W) (tr : list event) :
  main sys argv w = (Ok tt, w', tr) ->
  exists config_file config settings boards_value boards ts,
    argv !! 1%nat = Some config_file /\
    Py.getitem config "settings" = Ok settings /\
    Py.getitem config "boards" = Ok boards_value /\
    Py.iterate boards_value = Ok boards /\
    tr = EvLoadYaml (VStr config_file) (Ok config) :: concat ts /\
    Forall2 (fun record t =>
               exists b w1 w2,
                 from_yaml record settings = Ok b /\
                 build_board sys b settings w1 = (Ok tt, w2, t)) boards ts.
Proof.
  unfold main. destruct (argv !! 1%nat) as [config_file|]; [|done].
  intros H. run_inv H.
  lazymatch goal with
  | Hl : sys_load_yaml _ _ _ = (Ok ?config, _),
    Hs : Py.getitem _ "settings" = Ok ?settings,
    Hb : Py.getitem _ "boards" = Ok ?bv,
    Hi : Py.iterate _ = Ok ?boards |- _ =>
      apply for_each_traces in H as (ts & -> & Hall);
      exists config_file, config, settings, bv, boards, ts
  end.
  repeat (split; [done|]).
  eapply Forall2_impl; [exact Hall|].
  intros record t (w1 & w2 & Hrun). cbv beta in Hrun.
  apply bind_ok in Hrun as (b & w3 & t1 & t2 & Hb & Hrun & ->).
  apply lift_ok in Hb as (Hb & -> & ->). by exists b, w1, w2.
Qed.

Lemma main_builds_in_order_witness :
  let m := main Sim.system ["kixport"; "boards.yaml"] in
  m Sample.world = (Ok tt, world_of m Sample.world, trace_of m Sample.world) /\
  exists config_file config settings boards_value boards ts,
    ["kixport"; "boards.yaml"] !! 1%nat = Some config_file /\
    Py.getitem config "settings" = Ok settings /\
    Py.getitem config "boards" = Ok boards_value /\
    Py.iterate boards_value = Ok boards /\
    trace_of m Sample.world = EvLoadYaml (VStr config_file) (Ok config) :: concat ts /\
    Forall2 (fun record t =>
               exists b w1 w2,
                 from_yaml record settings = Ok b /\
                 build_board Sim.system b settings w1 = (Ok tt, w2, t)) boards ts.
Proof.
  intros m.
  assert (m Sample.world = (Ok tt, world_of m Sample.world, trace_of m Sample.world))
    as Hrun by (vm_compute; reflexivity).
  split; [exact Hrun|].
  exact (main_builds_in_order Sim.system _ _ _ _ Hrun).
Defined.

(** X8: board records are turned into descriptors one at a time, each
    just before its build.  A record [from_yaml] rejects is found only
    when its turn comes: the boards before it are built in full, the run
    then ends with the exception of [from_yaml], and nothing is done for
    that board or the boards after it. *)
Theorem main_stops_at_bad_record {W : Type} (sys : System W) (argv : list string)
    (config_file : string) (config settings boards_value : value)
    (built later : list value) (bad : value) (e : exn) (w w0 w1 : W)
    (t1 : list event) :
  argv !! 1%nat = Some config_file ->
  sys_load_yaml sys (VStr config_file) w = (Ok config, w0) ->
  Py.getitem config "settings" = Ok settings ->
  Py.getitem config "boards" = Ok boards_value ->
  Py.iterate boards_value = Ok (built ++ bad :: later) ->
  for_each built (main_body sys settings) w0 = (Ok tt, w1, t1) ->
  from_yaml bad settings = Raise e ->
  main sys argv w = (Raise e, w1, EvLoadYaml (VStr config_file) (Ok config) :: t1).
Proof.
  intros Hargv Hload Hsettings Hboards Hiter Hbuilt Hbad.
  unfold main. rewrite Hargv, bind_run. unfold perform at 1. rewrite Hload.
  rewrite Hsettings, bind_lift_ok, Hboards, bind_lift_ok, Hiter, bind_lift_ok.
  change (fun board => b ← lift (from_yaml board settings); build_board sys b settings)
    with (main_body sys settings).
  erewrite for_each_abort; [|exact Hbuilt|].
  - by rewrite app_nil_r.
  - unfold main_body. by rewrite bind_run, Hbad.
Qed.

Lemma main_stops_at_bad_record_witness :
  let m := for_each [Sample.board] (main_body Sim.system Sample.settings) in
  m Cases.world_second_bad
  = (Ok tt, world_of m Cases.world_second_bad, trace_of m Cases.world_second_bad) /\
  from_yaml Cases.board_no_project Sample.settings = Raise (KeyError "kicad_pro") /\
  main Sim.system ["kixport"; "boards.yaml"] Cases.world_second_bad
  = (Raise (KeyError "kicad_pro"), world_of m Cases.world_second_bad,
     EvLoadYaml (VStr "boards.yaml") (Ok (Sim.yaml Cases.world_second_bad))
     :: trace_of m Cases.world_second_bad).
Proof.
  intros m.
  assert (m Cases.world_second_bad
          = (Ok tt, world_of m Cases.world_second_bad, trace_of m Cases.world_second_bad))
    as Hrun by (vm_compute; reflexivity).
  split; [exact Hrun|]. split; [reflexivity|].
  exact (main_stops_at_bad_record Sim.system ["kixport"; "boards.yaml"] "boards.yaml"
           (Sim.yaml Cases.world_second_bad) Sample.settings
           (VList [Sample.board; Cases.board_no_project]) [Sample.board] []
           Cases.board_no_project (KeyError "kicad_pro")
           Cases.world_second_bad Cases.world_second_bad _ _
           eq_refl eq_refl eq_refl eq_refl eq_refl Hrun eq_refl).
Defined.

(** ** Files and archives *)

Section Files.

Context {W : Type} (sys : System W).

Lemma finally_run {A} (body : M W A) (cleanup : M W unit) (w : W) :
  finally body cleanup w
  = (let '(r, w1, t1) := body w in
     match cleanup w1 with
     | (Ok _, w2, t2) => (r, w2, t1 ++ t2)
     | (Raise e, w2, t2) => (Raise e, w2, t1 ++ t2)
     end).
Proof. reflexivity. Qed.

(** The outcome of a [with] block whose body gave [r] and whose exit
    gave [rc]. *)
Lemma finally_perform {A} (body : M W A) (h : W -> result unit * W)
    (ev : result unit -> event) (w w1 w2 : W) (r : result A) (rc : result unit)
    (t1 : list event) :
  body w = (r, w1, t1) ->
  h w1 = (rc, w2) ->
  finally body (perform h ev) w = (rc ≫= (fun _ => r), w2, t1 ++ [ev rc]).
Proof.
  intros Hbody Hclose. rewrite finally_run, Hbody. unfold perform. rewrite Hclose.
  by destruct rc as [[]|e].
Qed.

Lemma finally_perform_trace {A} (body : M W A) (h : W -> result unit * W)
    (ev : result unit -> event) (w w' : W) (r : result A) (tr : list event) :
  finally body (perform h ev) w = (r, w', tr) ->
  exists rb w1 t1 rc,
    body w = (rb, w1, t1) /\ h w1 = (rc, w') /\
    r = (rc ≫= fun _ => rb) /\ tr = t1 ++ [ev rc].
Proof.
  destruct (body w) as [[rb w1] t1] eqn:Hbody.
  destruct (h w1) as [rc w2] eqn:Hclose.
  rewrite (finally_perform _ _ _ _ _ _ _ _ _ Hbody Hclose).
  intros [= <- <- <-]. by exists rb, w1, t1, rc.
Qed.

(** Whatever becomes of them, the rows go to the one file. *)
Lemma writerows_trace (file : Path) (rows : list (list string)) (w w' : W)
    (r : result unit) (tr : list event) :
  for_each rows (writerow sys file) w = (r, w', tr) ->
  Forall (fun ev => exists data rw, ev = EvWrite file data rw) tr.
Proof.
  revert w tr. induction rows as [|row rows IH]; intros w tr; cbn [for_each].
  - intros [= <- <- <-]. constructor.
  - rewrite bind_run. unfold writerow at 1, perform at 1.
    destruct (sys_write sys file (csv.writerow row) w) as [[[]|e] w1].
    + destruct (for_each rows (writerow sys file) w1) as [[r2 w2] t2] eqn:Hrest.
      intros [= <- <- <-]. constructor; [eauto|]. by eapply IH.
    + intros [= <- <- <-]. constructor; [eauto | constructor].
Qed.

Lemma mk_pos_jlcpcb_body_trace (delivered : string * option exn) (jlcpcb_path : Path)
    (w w' : W) (r : result unit) (tr : list event) :
  mk_pos_jlcpcb_body sys delivered jlcpcb_path w = (r, w', tr) ->
  Forall (fun ev => exists data rw, ev = EvWrite jlcpcb_path data rw) tr.
Proof.
  unfold mk_pos_jlcpcb_body. destruct (csv_reader_on delivered) as [rows err].
  intros H.
  assert ((rows = [] /\ tr = []) \/
          (writerow sys jlcpcb_path jlcpcb_header;;
           for_each (tail rows) (writerow sys jlcpcb_path);;
           match err with Some e => raise e | None => mret tt end) w = (r, w', tr))
    as [[_ ->]|H'].
  { destruct rows as [|row rows]; [|by right].
    destruct err; [|by right]. left. by injection H as _ _ <-. }
  { constructor. }
  clear H. rewrite bind_run in H'. unfold writerow at 1, perform at 1 in H'.
  destruct (sys_write sys jlcpcb_path (csv.writerow jlcpcb_header) w) as [[[]|e] w1];
    [|injection H' as <- <- <-; constructor; [eauto | constructor]].
  rewrite bind_run in H'.
  destruct (for_each (tail rows) (writerow sys jlcpcb_path) w1) as [[[[]|e] w2] t2] eqn:Hrows.
  - assert (exists r3, (match err with Some e => raise e | None => mret tt end : M W unit) w2
                       = (r3, w2, [])) as [r3 Hend] by (destruct err; by eexists).
    rewrite Hend in H'. injection H' as <- <- <-.
    constructor; [eauto|]. rewrite app_nil_r. by eapply writerows_trace.
  - injection H' as <- <- <-. constructor; [eauto|]. by eapply writerows_trace.
Qed.

End Files.

(** X9: the files of the reshape.  When the placement file cannot be
    opened the output file is not touched; when the output file cannot
    be opened the placement file is closed and the failure passed on.
    The placement file is read only once both files are open: when the
    reading fails before it delivers anything, nothing is written, the
    output file, opened already, is closed and so is the placement file,
    and the failure is passed on.  Once both files are open, every run,
    whatever its outcome, reads, then writes to the output file only, and
    ends by closing the output file and then the placement file; and no
    run in which the reading ended in a failure completes. *)
Theorem mk_pos_jlcpcb_files {W : Type} (sys : System W) (board : Board)
    (settings : value) (pos_path jlcpcb_path : Path) (w : W) :
  (forall e w1,
     sys_open_read sys pos_path w = (Raise e, w1) ->
     mk_pos_jlcpcb sys board settings pos_path jlcpcb_path w
     = (Raise e, w1, [EvOpenRead pos_path (Raise e)])) /\
  (forall w1 e w2 rc w3,
     sys_open_read sys pos_path w = (Ok tt, w1) ->
     sys_open_write sys jlcpcb_path w1 = (Raise e, w2) ->
     sys_close sys pos_path w2 = (rc, w3) ->
     mk_pos_jlcpcb sys board settings pos_path jlcpcb_path w
     = (rc ≫= (fun _ => Raise e), w3,
        [EvOpenRead pos_path (Ok tt); EvOpenWrite jlcpcb_path (Raise e);
         EvClose pos_path rc])) /\
  (forall w1 w2 e w3 rc_out w4 rc_in w5,
     sys_open_read sys pos_path w = (Ok tt, w1) ->
     sys_open_write sys jlcpcb_path w1 = (Ok tt, w2) ->
     sys_read sys pos_path w2 = (("", Some e), w3) ->
     sys_close sys jlcpcb_path w3 = (rc_out, w4) ->
     sys_close sys pos_path w4 = (rc_in, w5) ->
     mk_pos_jlcpcb sys board settings pos_path jlcpcb_path w
     = (rc_in ≫= (fun _ => rc_out ≫= (fun _ => Raise e)), w5,
        [EvOpenRead pos_path (Ok tt); EvOpenWrite jlcpcb_path (Ok tt);
         EvRead pos_path "" (Some e);
         EvClose jlcpcb_path rc_out; EvClose pos_path rc_in])) /\
  (forall w1 w2 text failure w3 r w' tr,
     sys_open_read sys pos_path w = (Ok tt, w1) ->
     sys_open_write sys jlcpcb_path w1 = (Ok tt, w2) ->
     sys_read sys pos_path w2 = ((text, failure), w3) ->
     mk_pos_jlcpcb sys board settings pos_path jlcpcb_path w = (r, w', tr) ->
     (exists body rc_out rc_in,
        tr = [EvOpenRead pos_path (Ok tt); EvOpenWrite jlcpcb_path (Ok tt);
              EvRead pos_path text failure]
             ++ body ++ [EvClose jlcpcb_path rc_out; EvClose pos_path rc_in] /\
        Forall (fun ev => exists data rw, ev = EvWrite jlcpcb_path data rw) body) /\
     (failure <> None -> r <> Ok tt)).
Proof.
  split; [|split; [|split]].
  - intros e w1 Hopen. unfold mk_pos_jlcpcb. rewrite bind_run. unfold perform at 1.
    by rewrite Hopen.
  - intros w1 e w2 rc w3 Hopen Hwrite Hclose. unfold mk_pos_jlcpcb.
    rewrite bind_run. unfold perform at 1. rewrite Hopen.
    rewrite (finally_perform _ _ _ w1 w2 w3 (Raise e) rc
               [EvOpenWrite jlcpcb_path (Raise e)]); [reflexivity | | exact Hclose].
    rewrite bind_run. unfold perform at 1. by rewrite Hwrite.
  - intros w1 w2 e w3 rc_out w4 rc_in w5 Hopen Hwrite Hread Hout Hin.
    unfold mk_pos_jlcpcb. rewrite bind_run. unfold perform at 1. rewrite Hopen.
    rewrite (finally_perform _ _ _ w1 w4 w5 (rc_out ≫= (fun _ => Raise e)) rc_in
               [EvOpenWrite jlcpcb_path (Ok tt); EvRead pos_path "" (Some e);
                EvClose jlcpcb_path rc_out]); [reflexivity | | exact Hin].
    rewrite bind_run. unfold perform at 1. rewrite Hwrite.
    rewrite (finally_perform _ _ _ w2 w3 w4 (Raise e) rc_out
               [EvRead pos_path "" (Some e)]); [reflexivity | | exact Hout].
    rewrite bind_run. unfold read_lines. by rewrite Hread.
  - intros w1 w2 text failure w3 r w' tr Hopen Hwrite Hread Hrun. split.
    + revert Hrun. unfold mk_pos_jlcpcb.
      rewrite bind_run. unfold perform at 1. rewrite Hopen.
      destruct (finally _ _ w1) as [[r1 w4] t4] eqn:Hwith. intros [= <- <- <-].
      apply finally_perform_trace in Hwith as (rb & w5 & t5 & rc_in & Hbody & _ & _ & ->).
      rewrite bind_run in Hbody. unfold perform at 1 in Hbody. rewrite Hwrite in Hbody.
      destruct (finally _ _ w2) as [[r6 w6] t6] eqn:Hinner. injection Hbody as <- <- <-.
      apply finally_perform_trace in Hinner as (rb & w7 & t7 & rc_out & Hbody & _ & _ & ->).
      rewrite bind_run in Hbody. unfold read_lines at 1 in Hbody. rewrite Hread in Hbody.
      destruct (mk_pos_jlcpcb_body sys (text, failure) jlcpcb_path w3)
        as [[r8 w8] t8] eqn:Hwrites.
      injection Hbody as <- <- <-.
      exists t8, rc_out, rc_in. split.
      * cbn. by rewrite <- !app_assoc.
      * by eapply mk_pos_jlcpcb_body_trace.
    + intros Hfailure ->.
      destruct (mk_pos_jlcpcb_ok sys board settings pos_path jlcpcb_path w w' tr Hrun)
        as (u1 & u2 & u3 & contents & rows & Hopen' & Hwrite' & Hread' & _).
      rewrite Hopen in Hopen'. injection Hopen' as <-.
      rewrite Hwrite in Hwrite'. injection Hwrite' as <-.
      rewrite Hread in Hread'. by injection Hread' as _ -> _.
Qed.

Lemma mk_pos_jlcpcb_files_witness :
  (sys_open_read Sim.system Sample.pos_path Cases.world_bare
   = (Raise (OSError Sim.ENOENT), Cases.world_bare) /\
   mk_pos_jlcpcb Sim.system Sample.descriptor Sample.settings Sample.pos_path
     Sample.jlcpcb_path Cases.world_bare
   = (Raise (OSError Sim.ENOENT), Cases.world_bare,
      [EvOpenRead Sample.pos_path (Raise (OSError Sim.ENOENT))])) /\
  (let w2 := snd (sys_open_write Cases.system_unreadable Sample.jlcpcb_path Sample.world) in
   Sim.lookup Sample.jlcpcb_path (Sim.texts w2) = Some "" /\
   mk_pos_jlcpcb Cases.system_unreadable Sample.descriptor Sample.settings Sample.pos_path
     Sample.jlcpcb_path Sample.world
   = (Raise ValueError, w2,
      [EvOpenRead Sample.pos_path (Ok tt); EvOpenWrite Sample.jlcpcb_path (Ok tt);
       EvRead Sample.pos_path "" (Some ValueError);
       EvClose Sample.jlcpcb_path (Ok tt); EvClose Sample.pos_path (Ok tt)])).
Proof.
  split.
  - split; [reflexivity|].
    exact (proj1 (mk_pos_jlcpcb_files Sim.system Sample.descriptor Sample.settings
                    Sample.pos_path Sample.jlcpcb_path Cases.world_bare)
             (OSError Sim.ENOENT) Cases.world_bare eq_refl).
  - intros w2. split; [by vm_compute|].
    exact (proj1 (proj2 (proj2 (mk_pos_jlcpcb_files Cases.system_unreadable
                                  Sample.descriptor Sample.settings
                                  Sample.pos_path Sample.jlcpcb_path Sample.world)))
             Sample.world w2 ValueError w2 (Ok tt) w2 (Ok tt) w2
             eq_refl eq_refl eq_refl eq_refl eq_refl).
Defined.

(** X10: the archive of the Gerber step.  When the archive cannot be
    opened the directory is not listed; when the directory cannot be
    listed, the archive, created empty, is closed and the failure passed
    on; and once the archive is open every run, whatever its outcome,
    ends by closing it. *)
Theorem mk_gerber_zip_closes {W : Type} (sys : System W) (dir zip : Path) (w : W) :
  (forall e w1,
     sys_zip_open sys zip w = (Raise e, w1) ->
     mk_gerber_zip sys dir zip w
     = (Raise e, w1, [EvPrint "--- Generating zip file for gerbers";
                      EvZipOpen zip (Raise e)])) /\
  (forall w1 e w2 rc w3,
     sys_zip_open sys zip w = (Ok tt, w1) ->
     sys_listdir sys dir w1 = (Raise e, w2) ->
     sys_zip_close sys zip w2 = (rc, w3) ->
     mk_gerber_zip sys dir zip w
     = (rc ≫= (fun _ => Raise e), w3,
        [EvPrint "--- Generating zip file for gerbers"; EvZipOpen zip (Ok tt);
         EvListdir dir (Raise e); EvZipClose zip rc])) /\
  (forall w1 r w' tr,
     sys_zip_open sys zip w = (Ok tt, w1) ->
     mk_gerber_zip sys dir zip w = (r, w', tr) ->
     exists body rc,
       tr = [EvPrint "--- Generating zip file for gerbers"; EvZipOpen zip (Ok tt)]
            ++ body ++ [EvZipClose zip rc]).
Proof.
  split; [|split].
  - intros e w1 Hopen. unfold mk_gerber_zip. rewrite print_then, bind_run.
    unfold perform at 1. by rewrite Hopen.
  - intros w1 e w2 rc w3 Hopen Hlist Hclose. unfold mk_gerber_zip.
    rewrite print_then, bind_run. unfold perform at 1. rewrite Hopen.
    rewrite (finally_perform _ _ _ w1 w2 w3 (Raise e) rc [EvListdir dir (Raise e)]);
      [reflexivity | | exact Hclose].
    rewrite bind_run. unfold iterdir. rewrite bind_run. unfold perform at 1.
    by rewrite Hlist.
  - intros w1 r w' tr Hopen. unfold mk_gerber_zip.
    rewrite print_then, bind_run. unfold perform at 1. rewrite Hopen.
    destruct (finally _ _ w1) as [[r1 w3] t3] eqn:Hwith. intros [= <- <- <-].
    apply finally_perform_trace in Hwith as (rb & w4 & t4 & rc & _ & _ & _ & ->).
    by exists t4, rc.
Qed.

Lemma mk_gerber_zip_closes_witness :
  sys_zip_open Sim.system Sample.zip_path Cases.world_bare = (Ok tt, Cases.world_bare) /\
  sys_listdir Sim.system Sample.gerber_path Cases.world_bare
  = (Raise (OSError Sim.ENOENT), Cases.world_bare) /\
  sys_zip_close Sim.system Sample.zip_path Cases.world_bare = (Ok tt, Cases.world_bare) /\
  mk_gerber_zip Sim.system Sample.gerber_path Sample.zip_path Cases.world_bare
  = (Raise (OSError Sim.ENOENT), Cases.world_bare,
     [EvPrint "--- Generating zip file for gerbers"; EvZipOpen Sample.zip_path (Ok tt);
      EvListdir Sample.gerber_path (Raise (OSError Sim.ENOENT));
      EvZipClose Sample.zip_path (Ok tt)]).
Proof.
  split; [reflexivity|]. split; [reflexivity|]. split; [reflexivity|].
  exact (proj1 (proj2 (mk_gerber_zip_closes Sim.system Sample.gerber_path Sample.zip_path
                         Cases.world_bare))
           Cases.world_bare (OSError Sim.ENOENT) Cases.world_bare (Ok tt) Cases.world_bare
           eq_refl eq_refl eq_refl).
Defined.

(** ** Selectors and formats of the BOM step *)

Lemma check_call_refused {W : Type} (sys : System W) (cmd : list value) (w : W) :
  forallb path_like cmd = false ->
  check_call sys cmd w = (Raise TypeError, w, []).
Proof. intros H. unfold check_call. by rewrite H. Qed.

(** X11: a selector that is declared but false as a condition, such as
    the empty string, appears in the name of the BOM file and yet is not
    passed to the generator: the one command of the invocation has no
    [-r], as for a board without variants. *)
Theorem falsy_selector_not_passed {W : Type} (sys : System W) (board : Board)
    (xml : Path) (bom format variant sel fid ini : value) (w w' : W)
    (tr : list event) :
  Py.getitem variant "variant" = Ok sel ->
  Py.getitem bom "file_id" = Ok fid ->
  Py.getitem bom "ini" = Ok ini ->
  Py.is_not_None sel = true ->
  Py.truthy sel = false ->
  build_board_bom sys board xml bom format variant w = (Ok tt, w', tr) ->
  let out := assembly_dir board // (Py.str (name board) +:+ "-" +:+ Py.str sel +:+ "-"
                                    +:+ Py.str fid +:+ "." +:+ Py.str format) in
  exists bom_dir,
    List.filter Spec.is_call tr
    = [EvCall [VStr "kibom"; VStr "--cfg"; ini; VStr "-d"; VPath bom_dir;
               VPath xml; VStr (pathlib.name out)] (Ok 0)].
Proof.
  intros Hsel Hfid Hini Hdeclared Hfalse H out.
  rewrite (build_board_bom_run sys _ _ _ _ _ _ _ _ _ Hsel Hfid Hini) in H.
  unfold Spec.bom_filename in H. rewrite Hdeclared in H. fold out in H.
  apply (run_kibom_ok sys _ _ _ _ _ _ _ fid format) in H as [bom_dir ->].
  exists bom_dir. unfold Spec.kibom_events, Spec.kibom_command.
  cbn [Spec.ini Spec.selector]. by rewrite Hfalse.
Qed.

Lemma falsy_selector_not_passed_witness :
  let xml := pathlib.parse "out/build/Widget/Widget-bom.xml" in
  let m := build_board_bom Sim.system Sample.descriptor xml Sample.kibom (VStr "csv")
             Cases.variant_blank in
  m Sample.world = (Ok tt, world_of m Sample.world, trace_of m Sample.world) /\
  exists bom_dir,
    List.filter Spec.is_call (trace_of m Sample.world)
    = [EvCall [VStr "kibom"; VStr "--cfg"; VStr "bom.ini"; VStr "-d"; VPath bom_dir;
               VPath xml; VStr "Widget--bom.csv"] (Ok 0)].
Proof.
  intros xml m.
  assert (m Sample.world = (Ok tt, world_of m Sample.world, trace_of m Sample.world))
    as Hrun by (vm_compute; reflexivity).
  split; [exact Hrun|].
  exact (falsy_selector_not_passed Sim.system Sample.descriptor xml Sample.kibom
           (VStr "csv") Cases.variant_blank (VStr "") (VStr "bom") (VStr "bom.ini")
           Sample.world _ _ eq_refl eq_refl eq_refl eq_refl eq_refl Hrun).
Defined.

(** X12: the generator is given strings and paths only.  When the
    configuration file reference, or a selector that holds as a
    condition, is of another kind, a number say, the invocation fails
    with [TypeError] once the command is logged, and no process is
    started. *)
Theorem run_kibom_refuses_other_kinds {W : Type} (sys : System W) (xml out : Path)
    (ini sel : value) (bom_dir : Path) (w w1 : W) :
  sys_resolve sys (pathlib.parent out) w = (Ok bom_dir, w1) ->
  path_like ini = false \/ (Py.truthy sel = true /\ path_like sel = false) ->
  exists line,
    run_kibom sys xml ini sel out w
    = (Raise TypeError, w1,
       [EvPrint "--- Running KiBOM"; EvResolve (pathlib.parent out) (Ok bom_dir);
        EvPrint line]).
Proof.
  intros Hresolve Hkind. unfold run_kibom.
  rewrite print_then, bind_run. unfold perform at 1. rewrite Hresolve.
  eexists. rewrite print_then, check_call_refused; [reflexivity|].
  destruct Hkind as [Hini|[-> Hsel]].
  - cbn [forallb path_like app]. destruct (Py.truthy sel); cbn [forallb path_like app].
    all: by rewrite Hini.
  - cbn [forallb path_like app]. rewrite Hsel. by destruct (path_like ini).
Qed.

Lemma run_kibom_refuses_other_kinds_witness :
  let xml := pathlib.parse "out/build/Widget/Widget-bom.xml" in
  let out := pathlib.parse "out/assembly/Widget/Widget-1-bom.csv" in
  sys_resolve Sim.system (pathlib.parent out) Sample.world
  = (Ok (pathlib.parent out), Sample.world) /\
  exists line,
    run_kibom Sim.system xml (VStr "bom.ini") (VInt 1) out Sample.world
    = (Raise TypeError, Sample.world,
       [EvPrint "--- Running KiBOM";
        EvResolve (pathlib.parent out) (Ok (pathlib.parent out)); EvPrint line]).
Proof.
  intros xml out. split; [reflexivity|].
  exact (run_kibom_refuses_other_kinds Sim.system xml out (VStr "bom.ini") (VInt 1)
           (pathlib.parent out) Sample.world Sample.world eq_refl
           (or_intror (conj eq_refl eq_refl))).
Defined.

Lemma length_runs_one (ini fid : value) (formats sels : list value) :
  length (Spec.runs [(ini, formats, fid)] sels) = (length formats * length sels)%nat.
Proof.
  unfold Spec.runs. cbn [flat_map]. rewrite app_nil_r.
  induction formats as [|f formats IH]; [done|].
  cbn [flat_map]. rewrite length_app, length_map, IH. done.
Qed.

(** X13: formats given as one string instead of a list are taken
    character by character: a BOM step that completes invokes the
    generator once per character of the string and selector, with the
    character as the format. *)
Theorem formats_string_by_character {W : Type} (sys : System W) (board : Board)
    (settings outputs bom ini fid : value) (s : string) (xml : Path)
    (sels : list value) (w w' : W) (tr : list event) :
  Py.getitem settings "outputs" = Ok outputs ->
  Py.getitem outputs "kibom" = Ok (VList [bom]) ->
  Py.getitem bom "ini" = Ok ini ->
  Py.getitem bom "formats" = Ok (VStr s) ->
  Py.getitem bom "file_id" = Ok fid ->
  Spec.selectors_of (variants board) sels ->
  build_board_boms sys board settings xml w = (Ok tt, w', tr) ->
  Spec.bom_trace board xml (Spec.runs [(ini, characters s, fid)] sels) tr /\
  length (List.filter Spec.is_call tr) = (String.length s * length sels)%nat.
Proof.
  intros Hout Hkibom Hini Hformats Hfid Hsels H.
  assert (Spec.bom_trace board xml (Spec.runs [(ini, characters s, fid)] sels) tr) as Htr.
  { unfold build_board_boms in H.
    rewrite Hout, bind_lift_ok, Hkibom, bind_lift_ok in H.
    cbn [Py.iterate] in H. rewrite bind_lift_ok in H.
    cbn [for_each] in H. rewrite bind_ret_r, Hformats, bind_lift_ok in H.
    cbn [Py.iterate] in H. rewrite bind_lift_ok in H.
    unfold Spec.runs. cbn [flat_map]. rewrite app_nil_r.
    by eapply formats_loop_ok. }
  split; [done|].
  rewrite (bom_trace_calls _ _ _ _ Htr), length_runs_one.
  unfold characters. rewrite length_map. f_equal.
  clear. induction s as [|c s IH]; [done|]. cbn. by rewrite IH.
Qed.

Lemma formats_string_by_character_witness :
  let xml := pathlib.parse "out/build/Widget/Widget-bom.xml" in
  let m := build_board_boms Sim.system Cases.descriptor_plain Cases.settings_one_format xml in
  m Sample.world = (Ok tt, world_of m Sample.world, trace_of m Sample.world) /\
  Spec.bom_trace Cases.descriptor_plain xml
    (Spec.runs [(VStr "bom.ini", [VStr "c"; VStr "s"; VStr "v"], VStr "bom")] [VNone])
    (trace_of m Sample.world) /\
  length (List.filter Spec.is_call (trace_of m Sample.world)) = 3%nat.
Proof.
  intros xml m.
  assert (m Sample.world = (Ok tt, world_of m Sample.world, trace_of m Sample.world))
    as Hrun by (vm_compute; reflexivity).
  split; [exact Hrun|].
  exact (formats_string_by_character Sim.system Cases.descriptor_plain
           Cases.settings_one_format Cases.outputs_one_format Cases.kibom_one_format
           (VStr "bom.ini") (VStr "bom") "csv" xml [VNone] Sample.world _ _
           eq_refl eq_refl eq_refl eq_refl eq_refl (or_introl (conj eq_refl eq_refl)) Hrun).
Defined.

(** ** The fabrication drawings *)

Section Drawings.

Context {W : Type} (sys : System W).

Lemma check_call_trace (cmd : list value) (w w' : W) (r : result unit) (tr : list event) :
  check_call sys cmd w = (r, w', tr) -> Forall is_export tr.
Proof.
  unfold check_call. destruct (forallb path_like cmd).
  - rewrite bind_run. unfold perform at 1.
    destruct (sys_call sys cmd w) as [[rc|e] w1].
    + destruct (rc =? 0); intros [= <- <- <-]; by repeat constructor.
    + intros [= <- <- <-]. by repeat constructor.
  - intros [= <- <- <-]. constructor.
Qed.

Lemma mk_fab_pdf_body_trace (board : Board) (writer : list page) (fab : value)
    (w w' : W) (r : result (list page)) (tr : list event) :
  mk_fab_pdf_body sys board writer fab w = (r, w', tr) -> Forall is_export tr.
Proof.
  unfold mk_fab_pdf_body.
  destruct (Py.getitem fab "name") as [n|e]; [|intros [= <- <- <-]; constructor].
  rewrite bind_lift_ok.
  destruct (Py.getitem fab "layers") as [l|e]; [|intros [= <- <- <-]; constructor].
  rewrite bind_lift_ok.
  destruct (Py.get fab "mirror" (VBool false)) as [m|e]; [|intros [= <- <- <-]; constructor].
  rewrite bind_lift_ok.
  destruct (Py.getitem fab "include_border_title") as [b|e];
    [|intros [= <- <- <-]; constructor].
  rewrite bind_lift_ok, bind_run.
  destruct (check_call sys _ w) as [[[[]|e] w1] t1] eqn:Hcall.
  - apply check_call_trace in Hcall. rewrite bind_run. unfold perform at 1.
    destruct (sys_pdf_read sys _ w1) as [[doc|e] w2]; intros [= <- <- <-].
    all: apply Forall_app; split; [done | by repeat constructor].
  - apply check_call_trace in Hcall. by intros [= <- <- <-].
Qed.

Lemma fab_loop_trace (board : Board) (fabs : list value) (acc : list page)
    (w w' : W) (r : result (list page)) (tr : list event) :
  fold_each fabs (mk_fab_pdf_body sys board) acc w = (r, w', tr) -> Forall is_export tr.
Proof.
  revert acc w tr. induction fabs as [|fab fabs IH]; intros acc w tr; cbn [fold_each].
  - intros [= <- <- <-]. constructor.
  - rewrite bind_run.
    destruct (mk_fab_pdf_body sys board acc fab w) as [[[acc'|e] w1] t1] eqn:Hbody.
    + destruct (fold_each fabs _ acc' w1) as [[r2 w2] t2] eqn:Hrest.
      intros [= <- <- <-]. apply Forall_app. split.
      * by eapply mk_fab_pdf_body_trace.
      * by eapply IH.
    + intros [= <- <- <-]. by eapply mk_fab_pdf_body_trace.
Qed.

End Drawings.

(** X14: one drawing.  The border flag must be present in every
    fabrication spec while the mirror flag may be left out: a spec with a
    name and layers but without [include_border_title] fails with
    [KeyError] before any tool is run.  An export that completes runs one
    command, the base command followed by [--mirror] when the mirror flag
    is given and holds and by [--include-border-title] when the border
    flag holds, then reads the document back and appends its pages. *)
Theorem mk_fab_pdf_body_flags {W : Type} (sys : System W) (board : Board)
    (writer : list page) (d : list (string * value)) (w : W) :
  (forall n l,
     Py.assoc "name" d = Some n -> Py.assoc "layers" d = Some l ->
     Py.assoc "include_border_title" d = None ->
     mk_fab_pdf_body sys board writer (VDict d) w
     = (Raise (KeyError "include_border_title"), w, [])) /\
  (forall writer' w' tr,
     mk_fab_pdf_body sys board writer (VDict d) w = (Ok writer', w', tr) ->
     exists n l border doc,
       Py.assoc "name" d = Some n /\ Py.assoc "layers" d = Some l /\
       Py.assoc "include_border_title" d = Some border /\
       let pdf_file := build_dir board // (Py.str (name board) +:+ "-fab-" +:+ Py.str n
                                           +:+ ".pdf") in
       let mirror := default (VBool false) (Py.assoc "mirror" d) in
       tr = [EvCall ([VStr "kicad-cli"; VStr "pcb"; VStr "export"; VStr "pdf";
                      VStr "--output"; VPath pdf_file; VStr "--layers"; l;
                      VPath (kicad_pcb board)]
                     ++ (if Py.truthy mirror then [VStr "--mirror"] else [])
                     ++ (if Py.truthy border then [VStr "--include-border-title"] else []))
                    (Ok 0);
             EvPdfRead pdf_file (Ok doc)] /\
       writer' = writer ++ doc).
Proof.
  split.
  - intros n l Hn Hl Hb. unfold mk_fab_pdf_body. cbn [Py.getitem Py.get].
    rewrite Hn, Hl, Hb, !bind_lift_ok.
    destruct (Py.assoc "mirror" d); by rewrite bind_lift_ok.
  - intros writer' w' tr. unfold mk_fab_pdf_body. cbn [Py.getitem Py.get].
    destruct (Py.assoc "name" d) as [n|]; [|done]. rewrite bind_lift_ok.
    destruct (Py.assoc "layers" d) as [l|]; [|done]. rewrite bind_lift_ok.
    assert (match Py.assoc "mirror" d with Some v => Ok v | None => Ok (VBool false) end
            = Ok (default (VBool false) (Py.assoc "mirror" d))) as ->
      by (by destruct (Py.assoc "mirror" d)).
    rewrite bind_lift_ok.
    destruct (Py.assoc "include_border_title" d) as [border|]; [|done].
    rewrite bind_lift_ok. intros H.
    apply bind_ok in H as ([] & w1 & t1 & t2 & Hcall & H & ->).
    apply check_call_ok in Hcall as (_ & _ & ->).
    apply bind_ok in H as (doc & w2 & t3 & t4 & Hread & H & ->).
    apply perform_ok in Hread as [_ ->]. apply ret_ok in H as (-> & _ & ->).
    exists n, l, border, doc. repeat (split; [done|]). split; [|done].
    cbv zeta. destruct (Py.truthy (default (VBool false) (Py.assoc "mirror" d)));
      destruct (Py.truthy border); reflexivity.
Qed.

Lemma mk_fab_pdf_body_flags_witness :
  Py.assoc "include_border_title" Cases.fab_no_border = None /\
  mk_fab_pdf_body Sim.system Sample.descriptor [] (VDict Cases.fab_no_border) Sample.world
  = (Raise (KeyError "include_border_title"), Sample.world, []).
Proof.
  split; [reflexivity|].
  exact (proj1 (mk_fab_pdf_body_flags Sim.system Sample.descriptor []
                  Cases.fab_no_border Sample.world)
           (VStr "top") (VStr "F.Cu") eq_refl eq_refl eq_refl).
Defined.

(** X15: the fabrication document is opened last.  In every run of
    [mk_fab_pdf], whatever its outcome, the log line is followed by the
    exports and the readings of the drawings and by nothing else until
    they are all done; a run that fails among them never opens the
    output file.  Once the output file is open the document is written
    and the file is closed, also when the writing fails. *)
Theorem mk_fab_pdf_opens_last {W : Type} (sys : System W) (board : Board)
    (settings : value) (fab_filename : Path) (w w' : W) (r : result unit)
    (tr : list event) :
  mk_fab_pdf sys board settings fab_filename w = (r, w', tr) ->
  exists exports,
    Forall is_export exports /\
    ((exists e, r = Raise e /\
                (tr = EvPrint "--- Generating fabrication PDF" :: exports \/
                 tr = EvPrint "--- Generating fabrication PDF" :: exports
                      ++ [EvOpenWrite fab_filename (Raise e)])) \/
     (exists writer rw rc,
        r = (rc ≫= fun _ => rw) /\
        tr = EvPrint "--- Generating fabrication PDF" :: exports
             ++ [EvOpenWrite fab_filename (Ok tt); EvPdfWrite fab_filename writer rw;
                 EvClose fab_filename rc])).
Proof.
  unfold mk_fab_pdf. rewrite print_then.
  destruct (Py.getitem settings "outputs") as [outputs|e];
    [|intros [= <- <- <-]; exists []; split; [constructor | left; eauto]].
  rewrite bind_lift_ok.
  destruct (Py.getitem outputs "fab") as [specs|e];
    [|intros [= <- <- <-]; exists []; split; [constructor | left; eauto]].
  rewrite bind_lift_ok.
  destruct (Py.iterate specs) as [fabs|e];
    [|intros [= <- <- <-]; exists []; split; [constructor | left; eauto]].
  rewrite bind_lift_ok, bind_run.
  destruct (fold_each fabs _ [] w) as [[[writer|e] w1] t1] eqn:Hloop;
    apply fab_loop_trace in Hloop;
    [|intros [= <- <- <-]; exists t1; split; [done | left; eauto]].
  rewrite bind_run. unfold perform at 1.
  destruct (sys_open_write sys fab_filename w1) as [[[]|e] w2];
    [|intros [= <- <- <-]; exists t1; split; [done | left; eauto]].
  destruct (finally _ _ w2) as [[r3 w3] t3] eqn:Hwith. intros [= <- <- <-].
  apply finally_perform_trace in Hwith as (rw & w4 & t4 & rc & Hbody & _ & -> & ->).
  unfold perform in Hbody.
  destruct (sys_pdf_write sys fab_filename writer w2) as [rw' w5].
  injection Hbody as <- <- <-.
  exists t1. split; [done|]. right. by exists writer, rw', rc.
Qed.

Lemma mk_fab_pdf_opens_last_witness :
  let fab := pathlib.parse "out/assembly/Widget/Widget-fab.pdf" in
  let m := mk_fab_pdf Sim.system Sample.descriptor Sample.settings fab in
  m Sample.world = (Ok tt, world_of m Sample.world, trace_of m Sample.world) /\
  exists exports,
    Forall is_export exports /\
    ((exists e, Ok tt = Raise e /\
                (trace_of m Sample.world
                 = EvPrint "--- Generating fabrication PDF" :: exports \/
                 trace_of m Sample.world
                 = EvPrint "--- Generating fabrication PDF" :: exports
                   ++ [EvOpenWrite fab (Raise e)])) \/
     (exists writer rw rc,
        Ok tt = (rc ≫= fun _ => rw) /\
        trace_of m Sample.world
        = EvPrint "--- Generating fabrication PDF" :: exports
          ++ [EvOpenWrite fab (Ok tt); EvPdfWrite fab writer rw; EvClose fab rc])).
Proof.
  intros fab m.
  assert (m Sample.world = (Ok tt, world_of m Sample.world, trace_of m Sample.world))
    as Hrun by (vm_compute; reflexivity).
  split; [exact Hrun|].
  exact (mk_fab_pdf_opens_last Sim.system Sample.descriptor Sample.settings fab
           Sample.world _ _ _ Hrun).
Defined.
